(** * Premium forecasting engine (src/forecasting_engine.py)

    A shallow embedding of [PremiumForecaster]: the mortality and economic
    projectors, the premium calculator and the demographic aggregator, with
    the properties the specification states about them.
    The data table the dashboard shows beside a forecast
    ([prepare_filtered_data_table], src/app.py) is embedded after the
    engine, over the same four tables.

    Modelling conventions.
    - Python [float] / numpy [float64] values are exact rationals ([Q]): the
      formulas are those of the source, binary rounding error is not
      represented.  [round(x, n)] is rounding to [n] decimals, ties to even.
      Inputs are finite numbers; where the source divides by a column value
      (the base mortality rate, line 267) numpy yields inf or NaN at a zero
      divisor and [Q] yields 0, so the model speaks for non-zero divisors.
    - Python [int] / numpy [int64] values (years, ages, policy counts, sum
      insured) are [Z].
    - A pandas [DataFrame] is a list of typed rows together with the list of
      its column names.  The row types fix the columns the source reads
      unconditionally; the column list is what the source consults with
      ['c' in df.columns] / ['c' in row] / [.get('c', default)], and what
      [df['c']] needs where the frame may have been built from an empty
      list of dicts (such a frame has no columns).  A field whose column is
      absent is never read.
    - [raise] is the [Raise] constructor of [result]; [print] is not
      modelled.
    - [np.exp] and numpy's global random generator are an interface
      ([Numpy]); the state of the generator is threaded explicitly.
      Nothing below depends on which functions implement the interface. *)

From Stdlib Require Import ZArith QArith Qround Qpower Qminmax.
From Stdlib Require Import List String Bool Lia Lqa Permutation Sorted.
Import ListNotations.

Open Scope string_scope.
Open Scope list_scope.
Open Scope Q_scope.

(** ** Python, numpy and pandas primitives *)

Inductive exn : Type :=
| ValueError (msg : string)
| KeyError (key : string)
| IndexError (msg : string).

Inductive result (A : Type) : Type :=
| Ok (a : A)
| Raise (e : exn).

Arguments Ok {A} a.
Arguments Raise {A} e.

Definition rbind {A B : Type} (r : result A) (k : A -> result B) : result B :=
  match r with
  | Ok a => k a
  | Raise e => Raise e
  end.

Declare Scope result_scope.
Delimit Scope result_scope with result.
Notation "x <- r ;; k" := (rbind r (fun x => k))
  (at level 61, r at next level, right associativity) : result_scope.

(** [range(start, stop)]. *)
Definition py_range (start stop : Z) : list Z :=
  map (fun i => (start + Z.of_nat i)%Z) (seq 0 (Z.to_nat (stop - start))).

(** [Series.max()] of an integer column: [None] stands for the NaN pandas
    returns on an empty Series. *)
Definition series_max (l : list Z) : option Z :=
  match l with
  | [] => None
  | x :: xs => Some (fold_left Z.max xs x)
  end.

(** [series == v] where [v] may be NaN: nothing equals NaN. *)
Definition eq_nan (y : Z) (v : option Z) : bool :=
  match v with
  | Some l => (y =? l)%Z
  | None => false
  end.

(** The integer nearest to [x], ties to the even neighbour. *)
Definition round_half_even (x : Q) : Z :=
  let f := Qfloor x in
  match Qcompare (x - inject_Z f) (1 # 2) with
  | Lt => f
  | Gt => (f + 1)%Z
  | Eq => if Z.even f then f else (f + 1)%Z
  end.

(** [round(x, ndigits)]. *)
Definition py_round (x : Q) (ndigits : nat) : Q :=
  inject_Z (round_half_even (x * inject_Z (10 ^ Z.of_nat ndigits)))
  / inject_Z (10 ^ Z.of_nat ndigits).

(** [max(a, b)] of the builtins: [b] when [b > a], else [a]. *)
Definition py_max (a b : Q) : Q := if Qlt_le_dec a b then b else a.

Definition Qsum (l : list Q) : Q := fold_left Qplus l 0.
Definition Zsum (l : list Z) : Z := fold_left Z.add l 0%Z.

(** [Series.mean()] of a non-empty column. *)
Definition series_mean (l : list Q) : Q := Qsum l / inject_Z (Z.of_nat (List.length l)).

Record DataFrame (Row : Type) : Type := mkDataFrame {
  columns : list string;
  rows : list Row
}.

Arguments mkDataFrame {Row} columns rows.
Arguments columns {Row} d.
Arguments rows {Row} d.

(** ['c' in df.columns]. *)
Definition has_column {Row : Type} (c : string) (df : DataFrame Row) : bool :=
  existsb (String.eqb c) (columns df).

(** [df.empty]: some axis has length zero. *)
Definition df_empty {Row : Type} (df : DataFrame Row) : bool :=
  match rows df, columns df with
  | _ :: _, _ :: _ => false
  | _, _ => true
  end.

(** [df[mask]]. *)
Definition df_filter {Row : Type} (p : Row -> bool) (df : DataFrame Row) : DataFrame Row :=
  mkDataFrame (columns df) (filter p (rows df)).

(** [pd.DataFrame(records)] for a list of dicts that all have the keys
    [keys]: no columns at all when the list is empty. *)
Definition DataFrame_of_records {Row : Type} (keys : list string) (records : list Row)
  : DataFrame Row :=
  match records with
  | [] => mkDataFrame [] []
  | _ => mkDataFrame keys records
  end.

(** [df[df[col] == v]] and friends: [df[col]] raises [KeyError] when the
    column does not exist. *)
Definition df_where {Row : Type} (col : string) (p : Row -> bool) (df : DataFrame Row)
  : result (DataFrame Row) :=
  if has_column col df then Ok (df_filter p df) else Raise (KeyError col).

(** ** Data model *)

Record Scenario : Type := mkScenario {
  name : string;
  inflation_base : Q;
  interest_base : Q;
  mortality_improvement : Q;
  description : string
}.

Record MortalityRow : Type := mkMortalityRow {
  m_year : Z;
  m_country : string;
  m_gender : string;
  m_age : Z;
  m_smoking_status : string;
  m_mortality_rate : Q;
  m_life_expectancy : Q
}.

Record EconomicRow : Type := mkEconomicRow {
  e_year : Z;
  e_country : string;
  e_inflation_rate : Q;
  e_interest_rate : Q;
  e_gdp_growth : Q
}.

Record BasePremiumRow : Type := mkBasePremiumRow {
  b_country : string;
  b_group : string;
  b_gender : string;
  b_age : Z;
  b_policy_type : string;
  b_smoking_status : string;
  b_premium_per_unit : Q;
  b_base_premium : Q
}.

Record DemographicRow : Type := mkDemographicRow {
  d_country : string;
  d_group : string;
  d_gender : string;
  d_age : Z;
  d_policy_type : string;
  d_smoking_status : string;
  d_sum_insured : Z;
  d_policy_count : Z
}.

(** One dict appended by [calculate_premiums]. *)
Record PremiumRow : Type := mkPremiumRow {
  p_year : Z;
  p_country : string;
  p_group : string;
  p_gender : string;
  p_age : Z;
  p_policy_type : string;
  p_premium_per_unit : Q;
  p_mortality_rate : Q;
  p_life_expectancy : Q;
  p_inflation_rate : Q;
  p_interest_rate : Q;
  p_gdp_growth : Q;
  p_smoking_status : string
}.

(** One dict appended by [forecast_average_premium]; the key
    [average_sum_insured] is optional. *)
Record ForecastRow : Type := mkForecastRow {
  year : Z;
  scenario : string;
  average_premium : Q;
  average_premium_per_unit : Q;
  total_policies : Z;
  inflation_rate : Q;
  interest_rate : Q;
  gdp_growth : Q;
  average_life_expectancy : Q;
  average_mortality_rate : Q;
  average_sum_insured : option Q
}.

(** The [filters] dict: [None] is an absent key.  (A key bound to a falsy
    value, the empty string or 0, restricts nothing either, see [truthy].) *)
Record Filters : Type := mkFilters {
  f_gender : option string;
  f_policy_type : option string;
  f_group : option string;
  f_smoking_status : option string;
  f_sum_insured : option Z;
  f_age_min : option Z;
  f_age_max : option Z
}.

Record PremiumForecaster : Type := mkPremiumForecaster {
  mortality_df : DataFrame MortalityRow;
  economic_df : DataFrame EconomicRow;
  base_premium_df : DataFrame BasePremiumRow;
  demographic_df : DataFrame DemographicRow;
  scenarios : list (string * Scenario)
}.

(** ** The scenario registry ([__init__]) *)

Definition standard_scenarios : list (string * Scenario) :=
  [ ("base",
     mkScenario "Base Case" 5.0 6.5 1.5
       "Moderate inflation, stable interest rates, normal mortality improvements");
    ("optimistic",
     mkScenario "Optimistic" 4.0 7.5 2.0
       "Low inflation, higher interest rates, faster mortality improvements");
    ("pessimistic",
     mkScenario "Pessimistic" 6.0 5.5 1.0
       "High inflation, lower interest rates, slower mortality improvements") ].

Definition init (mortality economic base_premium demographic : _) : PremiumForecaster :=
  mkPremiumForecaster mortality economic base_premium demographic standard_scenarios.

(** [self.scenarios[scenario_name]]. *)
Fixpoint scenarios_getitem (d : list (string * Scenario)) (key : string) : result Scenario :=
  match d with
  | [] => Raise (KeyError key)
  | (k, v) :: d' => if String.eqb k key then Ok v else scenarios_getitem d' key
  end.

(** ** Mortality projector ([project_mortality]) *)

Definition mortality_columns (smoking : bool) : list string :=
  (["year"; "country"; "gender"; "age"; "mortality_rate"; "life_expectancy"]
   ++ (if smoking then ["smoking_status"] else [])).

(** Body of the inner loop: the record projected from one source row. *)
Definition projection_record (scenario : Scenario) (country : string)
    (smoking : bool) (year latest_year : Z) (row : MortalityRow) : MortalityRow :=
  let years_ahead := (year - latest_year)%Z in
  let improvement_factor := ((100 - mortality_improvement scenario) / 100) ^ years_ahead in
  let projected_mortality := m_mortality_rate row * improvement_factor in
  let life_expectancy_increase :=
    inject_Z years_ahead * (mortality_improvement scenario / 100) in
  let projected_life_expectancy := m_life_expectancy row + life_expectancy_increase in
  {| m_year := year;
     m_country := country;
     m_gender := m_gender row;
     m_age := m_age row;
     m_mortality_rate := py_round projected_mortality 4;
     m_life_expectancy := py_round projected_life_expectancy 2;
     m_smoking_status := if smoking then m_smoking_status row else EmptyString |}.

(** The two nested loops over [range(start_year, end_year + 1)] and
    [latest_data.iterrows()].  A NaN [latest_year] only comes with an empty
    [latest_data], for which the inner body never runs. *)
Definition projections (scenario : Scenario) (country : string) (smoking : bool)
    (start_year end_year : Z) (latest_year : option Z) (latest_data : list MortalityRow)
  : list MortalityRow :=
  match latest_year with
  | Some latest =>
      flat_map (fun year => map (projection_record scenario country smoking year latest)
                              latest_data)
               (py_range start_year (end_year + 1))
  | None => []
  end.

Definition project_mortality (self : PremiumForecaster) (start_year end_year : Z)
    (scenario : Scenario) (country : string) : result (DataFrame MortalityRow) :=
  let df := mortality_df self in
  if df_empty df then
    Raise (ValueError "Mortality DataFrame is empty. Please check data initialization.")
  else
    let available_countries := map m_country (rows df) in
    if negb (existsb (String.eqb country) available_countries) then
      Raise (ValueError "Country not found in mortality data.")
    else
      let smoking := has_column "smoking_status" df in
      let latest_year := series_max (map m_year (rows df)) in
      let latest_data_filtered :=
        filter (fun r => eq_nan (m_year r) latest_year && String.eqb (m_country r) country)
               (rows df) in
      match latest_data_filtered with
      | [] =>
          let country_data := filter (fun r => String.eqb (m_country r) country) (rows df) in
          match country_data with
          | [] => Raise (ValueError "No mortality data available for country.")
          | _ =>
              let latest_year_available := series_max (map m_year country_data) in
              let latest_data :=
                filter (fun r => eq_nan (m_year r) latest_year_available) country_data in
              Ok (DataFrame_of_records (mortality_columns smoking)
                    (projections scenario country smoking start_year end_year
                       latest_year_available latest_data))
          end
      | _ =>
          Ok (DataFrame_of_records (mortality_columns smoking)
                (projections scenario country smoking start_year end_year
                   latest_year latest_data_filtered))
      end.

(** ** numpy: [np.exp] and the global random generator *)

Class Numpy : Type := {
  (** State of numpy's global generator. *)
  rng_state : Type;
  (** [np.random.seed(n)]: the state it installs, whatever the state before. *)
  np_random_seed : Z -> rng_state;
  (** [np.random.normal(loc, scale)]: the draw and the advanced state. *)
  np_random_normal : Q -> Q -> rng_state -> Q * rng_state;
  np_exp : Q -> Q
}.

(** Code that reads and advances the global generator and may raise.  The
    generator is global: its state survives an exception. *)
Definition M `{Numpy} (A : Type) : Type := rng_state -> result A * rng_state.

Definition ret `{Numpy} {A : Type} (a : A) : M A := fun g => (Ok a, g).

Definition bind `{Numpy} {A B : Type} (m : M A) (k : A -> M B) : M B :=
  fun g =>
    match m g with
    | (Ok a, g') => k a g'
    | (Raise e, g') => (Raise e, g')
    end.

(** A computation that does not touch the generator. *)
Definition lift `{Numpy} {A : Type} (r : result A) : M A := fun g => (r, g).

(** [try: m except Exception: handler]. *)
Definition try_except `{Numpy} {A : Type} (m : M A) (handler : exn -> M A) : M A :=
  fun g =>
    match m g with
    | (Ok a, g') => (Ok a, g')
    | (Raise e, g') => handler e g'
    end.

Declare Scope M_scope.
Delimit Scope M_scope with M.
Notation "x <- m ;; k" := (bind m (fun x => k))
  (at level 61, m at next level, right associativity) : M_scope.

(** [for x in xs: out.append(body(x))], in order. *)
Fixpoint for_each `{Numpy} {A B : Type} (body : A -> M B) (xs : list A) : M (list B) :=
  match xs with
  | [] => ret []
  | x :: xs' => (y <- body x ;; ys <- for_each body xs' ;; ret (y :: ys))%M
  end.

(** ** Economic projector ([project_economics]) *)

(** The Series [latest_data]: only these entries are ever present in all of
    its three sources. *)
Record Indicators : Type := mkIndicators {
  i_inflation_rate : Q;
  i_interest_rate : Q;
  i_gdp_growth : Q
}.

Definition indicators_of (r : EconomicRow) : Indicators :=
  mkIndicators (e_inflation_rate r) (e_interest_rate r) (e_gdp_growth r).

Definition economic_columns : list string :=
  ["year"; "country"; "inflation_rate"; "interest_rate"; "gdp_growth"].

(** [max(0.5, x)] where [x] may be NaN ([None]): [nan > 0.5] is false, so
    the builtin keeps its first argument. *)
Definition py_max_nan (a : Q) (b : option Q) : Q :=
  match b with
  | Some b' => py_max a b'
  | None => a
  end.

(** The selection of [latest_year] and [latest_data] before the loop. *)
Definition latest_economics (self : PremiumForecaster) (country : string)
  : option Z * Indicators :=
  let df := economic_df self in
  let latest_year := series_max (map e_year (rows df)) in
  let latest_data_filtered :=
    filter (fun r => eq_nan (e_year r) latest_year && String.eqb (e_country r) country)
           (rows df) in
  match latest_data_filtered with
  | [] =>
      let country_data := filter (fun r => String.eqb (e_country r) country) (rows df) in
      match rev country_data with
      | [] => (latest_year, mkIndicators 5.0 6.5 6.5)
      | last_row :: _ => (latest_year, indicators_of last_row)
      end
  | first_row :: _ => (latest_year, indicators_of first_row)
  end.

(** Body of the loop over the years: three draws, in this order.  With an
    empty economic table [latest_year] is NaN, and so are [years_ahead],
    the convergence factor and both converged rates. *)
Definition economics_record `{Numpy} (latest_year : option Z) (latest_data : Indicators)
    (scenario : Scenario) (country : string) (year : Z) : M EconomicRow :=
  fun g =>
    let years_ahead := option_map (fun latest => (year - latest)%Z) latest_year in
    let convergence_factor :=
      option_map (fun ya => 1 - np_exp (- inject_Z ya / 5)) years_ahead in
    let draw1 := np_random_normal 0 0.3 g in
    let inflation :=
      option_map (fun c => (i_inflation_rate latest_data * (1 - c)
                            + inflation_base scenario * c) + fst draw1 * (1 - c))
                 convergence_factor in
    let draw2 := np_random_normal 0 0.3 (snd draw1) in
    let interest :=
      option_map (fun c => (i_interest_rate latest_data * (1 - c)
                            + interest_base scenario * c) + fst draw2 * (1 - c))
                 convergence_factor in
    let draw3 := np_random_normal 0 0.5 (snd draw2) in
    let gdp := inflation_base scenario * 0.8 + fst draw3 in
    (Ok {| e_year := year;
           e_country := country;
           e_inflation_rate := py_round (py_max_nan 0.5 inflation) 2;
           e_interest_rate := py_round (py_max_nan 0.5 interest) 2;
           e_gdp_growth := py_round gdp 2 |}, snd draw3).

(** [np.random.seed(n)] as a statement. *)
Definition seed `{Numpy} (n : Z) : M unit := fun _ => (Ok tt, np_random_seed n).

Definition project_economics `{Numpy} (self : PremiumForecaster) (start_year end_year : Z)
    (scenario : Scenario) (country : string) : M (DataFrame EconomicRow) :=
  let (latest_year, latest_data) := latest_economics self country in
  bind (seed 42) (fun _ =>
    (records <- for_each (economics_record latest_year latest_data scenario country)
                         (py_range start_year (end_year + 1)) ;;
     ret (DataFrame_of_records economic_columns records))%M).

(** ** Premium calculator ([calculate_premiums]) *)

Definition premium_columns (smoking : bool) : list string :=
  ["year"; "country"; "group"; "gender"; "age"; "policy_type"; "premium_per_unit";
   "mortality_rate"; "life_expectancy"; "inflation_rate"; "interest_rate"; "gdp_growth"]
  ++ (if smoking then ["smoking_status"] else []).

(** [sort_values('year')], as an insertion sort.  (pandas does not promise
    an order among rows of one year; the only use below is a product.) *)
Fixpoint insert_by_year (r : EconomicRow) (l : list EconomicRow) : list EconomicRow :=
  match l with
  | [] => [r]
  | x :: l' => if (e_year r <=? e_year x)%Z then r :: l else x :: insert_by_year r l'
  end.

Definition sort_values_year (l : list EconomicRow) : list EconomicRow :=
  fold_right insert_by_year [] l.

(** Lines 234-247: the factor [premium] is multiplied by at line 250. *)
Definition cumulative_inflation (year base_year : Z)
    (economic_proj_full : option (DataFrame EconomicRow)) : Q :=
  let years_from_base := (year - base_year)%Z in
  match economic_proj_full with
  | Some full =>
      if (years_from_base >? 0)%Z then
        let economic_history :=
          sort_values_year
            (filter (fun r => (e_year r >=? base_year)%Z && (e_year r <=? year)%Z)
                    (rows full)) in
        fold_left (fun cumulative econ_row =>
                     cumulative * (1 + e_inflation_rate econ_row / 100))
                  economic_history 1.0
      else 1.0
  | None => 1.0
  end.

(** Lines 289-296. *)
Definition longevity_adj (policy_type : string) (life_expectancy_change : Q) : Q :=
  if String.eqb policy_type "Term Life" then
    -0.005 * life_expectancy_change
  else
    0.003 * life_expectancy_change.

(** The rows of [self.mortality_df] selected by [base_mortality_filter]
    (and, identically, by [base_life_exp_filter]). *)
Definition base_cell (self : PremiumForecaster) (country : string) (base_row : BasePremiumRow)
  : list MortalityRow :=
  let df := mortality_df self in
  let max_year := series_max (map m_year (rows df)) in
  let smoking :=
    has_column "smoking_status" (base_premium_df self) && has_column "smoking_status" df in
  filter (fun r =>
            eq_nan (m_year r) max_year
            && (m_age r =? b_age base_row)%Z
            && String.eqb (m_gender r) (b_gender base_row)
            && String.eqb (m_country r) country
            && (if smoking
                then String.eqb (m_smoking_status r) (b_smoking_status base_row)
                else true))
         (rows df).

(** The rows of [year_mortality] selected by [mortality_filter]
    (lines 199-206). *)
Definition mortality_match (self : PremiumForecaster)
    (year_mortality : DataFrame MortalityRow) (base_row : BasePremiumRow)
  : list MortalityRow :=
  let smoking :=
    has_column "smoking_status" (base_premium_df self)
    && has_column "smoking_status" year_mortality in
  filter (fun r =>
            (m_age r =? b_age base_row)%Z
            && String.eqb (m_gender r) (b_gender base_row)
            && (if smoking
                then String.eqb (m_smoking_status r) (b_smoking_status base_row)
                else true))
         (rows year_mortality).

(** Lines 215-221: the per-unit premium of a base row, [None] when the
    table has neither premium column. *)
Definition per_unit_of (self : PremiumForecaster) (base_row : BasePremiumRow) : option Q :=
  if has_column "premium_per_unit" (base_premium_df self)
  then Some (b_premium_per_unit base_row)
  else if has_column "base_premium" (base_premium_df self)
       then Some (b_base_premium base_row / 10.0)
       else None.

(** Body of the loop over the base premium rows: [Ok None] is [continue]. *)
Definition premium_record (self : PremiumForecaster) (year : Z) (country : string)
    (year_mortality : DataFrame MortalityRow)
    (economic_proj : DataFrame EconomicRow) (year_economic : EconomicRow)
    (economic_proj_full : option (DataFrame EconomicRow))
    (base_row : BasePremiumRow) : result (option PremiumRow) :=
  let base_df := base_premium_df self in
  let smoking_in_row := has_column "smoking_status" base_df in
  match mortality_match self year_mortality base_row with
  | [] => Ok None
  | mortality_row :: _ =>
      match per_unit_of self base_row with
      | None => Ok None
      | Some premium_per_unit =>
          let premium := premium_per_unit in
          let base_year_nan := series_max (map e_year (rows (economic_df self))) in
          match base_year_nan,
                filter (fun r => eq_nan (e_year r) base_year_nan) (rows (economic_df self))
          with
          | Some base_year, base_year_economic :: _ =>
              let premium :=
                premium * cumulative_inflation year base_year economic_proj_full in
              let premium :=
                match base_cell self country base_row with
                | base :: _ =>
                    let mortality_factor :=
                      m_mortality_rate mortality_row / m_mortality_rate base in
                    premium * (1 + (mortality_factor - 1) * 0.3)
                | [] => premium
                end in
              let premium :=
                match base_cell self country base_row with
                | base :: _ =>
                    let life_expectancy_change :=
                      m_life_expectancy mortality_row - m_life_expectancy base in
                    premium
                    * (1 + longevity_adj (b_policy_type base_row) life_expectancy_change)
                | [] => premium
                end in
              let base_interest := e_interest_rate base_year_economic in
              let interest_change := e_interest_rate year_economic - base_interest in
              let interest_adj := -0.12 * (interest_change / 100) in
              let premium := premium * (1 + interest_adj) in
              let base_gdp :=
                if has_column "gdp_growth" (economic_df self)
                then e_gdp_growth base_year_economic else 6.0 in
              let year_gdp :=
                if has_column "gdp_growth" economic_proj
                then e_gdp_growth year_economic else 6.0 in
              let gdp_change := year_gdp - base_gdp in
              let gdp_adj := -0.05 * (gdp_change / 100) in
              let premium := premium * (1 + gdp_adj) in
              Ok (Some
                {| p_year := year;
                   p_country := country;
                   p_group := if has_column "group" base_df
                              then b_group base_row else "Individual";
                   p_gender := b_gender base_row;
                   p_age := b_age base_row;
                   p_policy_type := b_policy_type base_row;
                   p_premium_per_unit := py_round premium 2;
                   p_mortality_rate := m_mortality_rate mortality_row;
                   p_life_expectancy := m_life_expectancy mortality_row;
                   p_inflation_rate := e_inflation_rate year_economic;
                   p_interest_rate := e_interest_rate year_economic;
                   p_gdp_growth := year_gdp;
                   p_smoking_status := if smoking_in_row
                                       then b_smoking_status base_row else EmptyString |})
          | _, _ => Raise (IndexError "single positional indexer is out-of-bounds")
          end
      end
  end.

(** [for x in xs: (append | continue | raise)]. *)
Fixpoint collect {A B : Type} (body : A -> result (option B)) (xs : list A)
  : result (list B) :=
  match xs with
  | [] => Ok []
  | x :: xs' =>
      (r <- body x ;;
       rs <- collect body xs' ;;
       Ok (match r with Some y => y :: rs | None => rs end))%result
  end.

Definition calculate_premiums (self : PremiumForecaster) (year : Z)
    (mortality_proj : DataFrame MortalityRow) (economic_proj : DataFrame EconomicRow)
    (country : string) (economic_proj_full : option (DataFrame EconomicRow))
  : result (DataFrame PremiumRow) :=
  if df_empty mortality_proj || negb (has_column "year" mortality_proj) then
    Raise (ValueError "Invalid mortality projection data for year")
  else
    let year_mortality := df_filter (fun r => (m_year r =? year)%Z) mortality_proj in
    let year_economic_filtered := df_filter (fun r => (e_year r =? year)%Z) economic_proj in
    match df_empty year_economic_filtered, rows year_economic_filtered with
    | false, year_economic :: _ =>
        let base_premiums_filtered :=
          filter (fun b => String.eqb (b_country b) country) (rows (base_premium_df self)) in
        (premiums <- collect (premium_record self year country year_mortality
                                economic_proj year_economic economic_proj_full)
                             base_premiums_filtered ;;
         Ok (DataFrame_of_records
               (premium_columns (has_column "smoking_status" (base_premium_df self)))
               premiums))%result
    | _, _ => Raise (ValueError "No economic data available for year")
    end.

(** ** Aggregator ([forecast_average_premium], [compare_scenarios]) *)

(** [pd.concat(frames, ignore_index=True)]: the columns are the union of
    the frames' columns in order of first appearance. *)
Definition union_columns (cols : list (list string)) : list string :=
  fold_left (fun acc cs => acc ++ filter (fun c => negb (existsb (String.eqb c) acc)) cs)
            cols [].

Definition pd_concat {Row : Type} (frames : list (DataFrame Row)) : result (DataFrame Row) :=
  match frames with
  | [] => Raise (ValueError "No objects to concatenate")
  | _ => Ok (mkDataFrame (union_columns (map columns frames)) (List.concat (map rows frames)))
  end.

(** The value [filters[key]] when the key is present and truthy. *)
Definition truthy (v : option string) : option string :=
  match v with
  | Some s => if String.eqb s "" then None else Some s
  | None => None
  end.

Definition truthy_int (v : option Z) : option Z :=
  match v with
  | Some n => if (n =? 0)%Z then None else Some n
  | None => None
  end.

Definition filter_eq {Row : Type} (col : string) (get : Row -> string) (v : option string)
    (df : DataFrame Row) : result (DataFrame Row) :=
  match truthy v with
  | Some s => df_where col (fun r => String.eqb (get r) s) df
  | None => Ok df
  end.

(** Lines 361-373 and, on the demographic table, lines 381-393: the same
    six tests on two frames. *)
Definition apply_filters {Row : Type}
    (gender policy_type group smoking_status : Row -> string) (age : Row -> Z)
    (filters : option Filters) (df : DataFrame Row) : result (DataFrame Row) :=
  match filters with
  | None => Ok df
  | Some f =>
      (df <- filter_eq "gender" gender (f_gender f) df ;;
       df <- filter_eq "policy_type" policy_type (f_policy_type f) df ;;
       df <- filter_eq "group" group (f_group f) df ;;
       df <- filter_eq "smoking_status" smoking_status (f_smoking_status f) df ;;
       df <- match f_age_min f with
             | Some lo => df_where "age" (fun r => (age r >=? lo)%Z) df
             | None => Ok df
             end ;;
       match f_age_max f with
       | Some hi => df_where "age" (fun r => (age r <=? hi)%Z) df
       | None => Ok df
       end)%result
  end.

(** A row of [merged]: a premium record joined with a demographic row. *)
Record MergedRow : Type := mkMergedRow {
  left : PremiumRow;
  right : DemographicRow
}.

Definition merge_cols (year_premiums : DataFrame PremiumRow)
    (year_demo : DataFrame DemographicRow) : list string :=
  ["country"; "gender"; "age"; "policy_type"]
  ++ (if has_column "group" year_premiums && has_column "group" year_demo
      then ["group"] else [])
  ++ (if has_column "smoking_status" year_premiums && has_column "smoking_status" year_demo
      then ["smoking_status"] else []).

Definition key_eq (col : string) (p : PremiumRow) (d : DemographicRow) : bool :=
  if String.eqb col "country" then String.eqb (p_country p) (d_country d)
  else if String.eqb col "gender" then String.eqb (p_gender p) (d_gender d)
  else if String.eqb col "age" then (p_age p =? d_age d)%Z
  else if String.eqb col "policy_type" then String.eqb (p_policy_type p) (d_policy_type d)
  else if String.eqb col "group" then String.eqb (p_group p) (d_group d)
  else if String.eqb col "smoking_status"
       then String.eqb (p_smoking_status p) (d_smoking_status d)
  else true.

(** [year_premiums.merge(year_demo, on=cols, how='inner')]: every pair that
    agrees on the key columns, in the order of the left rows.  (The two
    typed frames share no column outside the keys, so no column is
    renamed.) *)
Definition merge (year_premiums : DataFrame PremiumRow) (year_demo : DataFrame DemographicRow)
    (cols : list string) : DataFrame MergedRow :=
  mkDataFrame
    (columns year_premiums
     ++ filter (fun c => negb (existsb (String.eqb c) cols)) (columns year_demo))
    (flat_map (fun p => map (mkMergedRow p)
                          (filter (fun d => forallb (fun c => key_eq c p d) cols)
                                  (rows year_demo)))
              (rows year_premiums)).

(** Lines 409-418: the join of one year, after the [sum_insured] filter. *)
Definition merged_for_year (year_premiums : DataFrame PremiumRow)
    (year_demo : DataFrame DemographicRow) (filters : option Filters)
  : DataFrame MergedRow :=
  let merged := merge year_premiums year_demo (merge_cols year_premiums year_demo) in
  match filters with
  | Some f =>
      match truthy_int (f_sum_insured f) with
      | Some v =>
          if has_column "sum_insured" merged
          then df_filter (fun m => (d_sum_insured (right m) =? v)%Z) merged
          else merged
      | None => merged
      end
  | None => merged
  end.

(** The column [merged['premium']] written at lines 426/429. *)
Definition actual_premium (sum_insured_present : bool) (m : MergedRow) : Q :=
  if sum_insured_present
  then p_premium_per_unit (left m) * (inject_Z (d_sum_insured (right m)) / 100000.0)
  else p_premium_per_unit (left m) * 10.0.

Definition policy_count (m : MergedRow) : Q := inject_Z (d_policy_count (right m)).

Definition forecast_columns (sum_insured_present : bool) : list string :=
  ["year"; "scenario"; "average_premium"; "average_premium_per_unit"; "total_policies";
   "inflation_rate"; "interest_rate"; "gdp_growth"; "average_life_expectancy";
   "average_mortality_rate"]
  ++ (if sum_insured_present then ["average_sum_insured"] else []).

(** Lines 420-473: the record of one year from its non-empty join.
    [Ok None] is the [continue] of line 449.  Neither typed frame has a
    ['premium'] column, so without ['premium_per_unit'] no branch of lines
    423-433 writes one and [merged['premium']] raises. *)
Definition result_record (year : Z) (scenario_name : string) (merged : DataFrame MergedRow)
    (economic_proj : DataFrame EconomicRow) : result (option ForecastRow) :=
  let per_unit_present := has_column "premium_per_unit" merged in
  let sum_insured_present := has_column "sum_insured" merged in
  if negb per_unit_present then Raise (KeyError "premium")
  else
    let premium := actual_premium sum_insured_present in
    let total_premium := Qsum (map (fun m => premium m * policy_count m) (rows merged)) in
    let total_policies := Zsum (map (fun m => d_policy_count (right m)) (rows merged)) in
    let avg_premium :=
      if (total_policies >? 0)%Z then total_premium / inject_Z total_policies else 0 in
    let avg_premium_per_unit :=
      if per_unit_present then
        if (total_policies >? 0)%Z
        then Qsum (map (fun m => p_premium_per_unit (left m) * policy_count m) (rows merged))
             / inject_Z total_policies
        else 0
      else avg_premium / 10.0 in
    let year_econ_filtered := df_filter (fun r => (e_year r =? year)%Z) economic_proj in
    match df_empty year_econ_filtered, rows year_econ_filtered with
    | false, year_econ :: _ =>
        let avg_life_expectancy :=
          if has_column "life_expectancy" merged
          then series_mean (map (fun m => p_life_expectancy (left m)) (rows merged))
          else 0 in
        let avg_mortality_rate :=
          if has_column "mortality_rate" merged
          then series_mean (map (fun m => p_mortality_rate (left m)) (rows merged))
          else 0 in
        Ok (Some
          {| year := year;
             scenario := scenario_name;
             average_premium := py_round avg_premium 2;
             average_premium_per_unit := py_round avg_premium_per_unit 2;
             total_policies := total_policies;
             inflation_rate := e_inflation_rate year_econ;
             interest_rate := e_interest_rate year_econ;
             gdp_growth := if has_column "gdp_growth" economic_proj
                           then e_gdp_growth year_econ else 6.0;
             average_life_expectancy := py_round avg_life_expectancy 1;
             average_mortality_rate := py_round avg_mortality_rate 4;
             average_sum_insured :=
               if sum_insured_present then
                 Some (if (total_policies >? 0)%Z
                       then py_round
                              (Qsum (map (fun m => inject_Z (d_sum_insured (right m))
                                                   * policy_count m) (rows merged))
                               / inject_Z total_policies) 0
                       else 0)
               else None |})
    | _, _ => Ok None
    end.

(** Body of the loop of lines 397-473 for one year. *)
Definition forecast_year (year : Z) (scenario_name : string)
    (premiums_df : DataFrame PremiumRow) (demo_filtered : DataFrame DemographicRow)
    (economic_proj : DataFrame EconomicRow) (filters : option Filters)
  : result (option ForecastRow) :=
  (year_premiums <- df_where "year" (fun p => (p_year p =? year)%Z) premiums_df ;;
   let year_demo := demo_filtered in
   let merged := merged_for_year year_premiums year_demo filters in
   if negb (df_empty merged)
   then result_record year scenario_name merged economic_proj
   else Ok None)%result.

(** [for x in xs: out.append(body(x))] for a body that may raise. *)
Fixpoint rmap {A B : Type} (body : A -> result B) (xs : list A) : result (list B) :=
  match xs with
  | [] => Ok []
  | x :: xs' => (y <- body x ;; ys <- rmap body xs' ;; Ok (y :: ys))%result
  end.

Definition is_some {A : Type} (o : option A) : bool :=
  match o with Some _ => true | None => false end.

(** Lines 353-373: the premium records of all years, concatenated and
    filtered. *)
Definition filtered_premiums (self : PremiumForecaster) (start_year end_year : Z)
    (country : string) (filters : option Filters)
    (mortality_proj : DataFrame MortalityRow) (economic_proj : DataFrame EconomicRow)
  : result (DataFrame PremiumRow) :=
  (all_premiums <- rmap (fun year => calculate_premiums self year mortality_proj
                                       economic_proj country (Some economic_proj))
                        (py_range start_year (end_year + 1)) ;;
   premiums_df <- pd_concat all_premiums ;;
   apply_filters p_gender p_policy_type p_group p_smoking_status p_age
                 filters premiums_df)%result.

(** Lines 377-393: the demographic rows of the country, filtered. *)
Definition filtered_demographics (self : PremiumForecaster) (country : string)
    (filters : option Filters) : result (DataFrame DemographicRow) :=
  apply_filters d_gender d_policy_type d_group d_smoking_status d_age filters
    (df_filter (fun d => String.eqb (d_country d) country) (demographic_df self)).

(** Lines 351-475: everything after the two projections. *)
Definition aggregate (self : PremiumForecaster) (start_year end_year : Z)
    (scenario_name country : string) (filters : option Filters)
    (mortality_proj : DataFrame MortalityRow) (economic_proj : DataFrame EconomicRow)
  : result (DataFrame ForecastRow) :=
  (premiums_df <- filtered_premiums self start_year end_year country filters
                                    mortality_proj economic_proj ;;
   demo_filtered <- filtered_demographics self country filters ;;
   forecast_results <- collect (fun year => forecast_year year scenario_name premiums_df
                                              demo_filtered economic_proj filters)
                               (py_range start_year (end_year + 1)) ;;
   Ok (DataFrame_of_records
         (forecast_columns (existsb (fun r => is_some (average_sum_insured r))
                                    forecast_results))
         forecast_results))%result.

Definition forecast_average_premium `{Numpy} (self : PremiumForecaster)
    (start_year end_year : Z) (scenario_name country : string) (filters : option Filters)
  : M (DataFrame ForecastRow) :=
  (scenario <- lift (scenarios_getitem (scenarios self) scenario_name) ;;
   mortality_proj <- lift (project_mortality self start_year end_year scenario country) ;;
   economic_proj <- project_economics self start_year end_year scenario country ;;
   lift (aggregate self start_year end_year scenario_name country filters
                   mortality_proj economic_proj))%M.

(** The columns of the frame returned when no scenario produced rows
    (lines 497-499). *)
Definition empty_result_columns : list string :=
  ["year"; "scenario"; "average_premium"; "total_policies";
   "inflation_rate"; "interest_rate"; "gdp_growth";
   "average_life_expectancy"; "average_mortality_rate"].

(** Body of the loop over the scenario names: the frames this scenario
    appends to [all_results] (one or none).  The [print] of the handler is
    not modelled. *)
Definition scenario_results `{Numpy} (self : PremiumForecaster) (start_year end_year : Z)
    (country : string) (filters : option Filters) (scenario_name : string)
  : M (list (DataFrame ForecastRow)) :=
  try_except
    (results <- forecast_average_premium self start_year end_year scenario_name
                                         country filters ;;
     ret (if negb (df_empty results) && has_column "scenario" results
          then [results] else []))%M
    (fun _ => ret []).

Definition compare_scenarios `{Numpy} (self : PremiumForecaster) (start_year end_year : Z)
    (country : string) (filters : option Filters) : M (DataFrame ForecastRow) :=
  (appended <- for_each (scenario_results self start_year end_year country filters)
                        (map fst (scenarios self)) ;;
   let all_results := List.concat appended in
   match all_results with
   | [] => ret (mkDataFrame empty_result_columns [])
   | _ => lift (pd_concat all_results)
   end)%M.

(** ** The data table of the dashboard ([prepare_filtered_data_table], src/app.py) *)

(** One dict appended to [result_rows]; the last four keys are optional. *)
Record TableRow : Type := mkTableRow {
  t_year : Z;
  t_scenario : string;
  t_country : string;
  t_group : string;
  t_gender : string;
  t_age : Z;
  t_policy_type : string;
  t_policy_count : Z;
  t_mortality_rate : Q;
  t_life_expectancy : Q;
  t_inflation_rate : Q;
  t_interest_rate : Q;
  t_gdp_growth : Q;
  t_premium_per_unit : option Q;
  t_base_premium : option Q;
  t_sum_insured : option Z;
  t_smoking_status : option string
}.

(** Lines 278-291: the seven tests on the demographic rows of the country.
    Here [filters] is a dict, never [None]. *)
Definition table_filters (filters : Filters) (df : DataFrame DemographicRow)
  : result (DataFrame DemographicRow) :=
  (df <- filter_eq "gender" d_gender (f_gender filters) df ;;
   df <- filter_eq "group" d_group (f_group filters) df ;;
   df <- filter_eq "policy_type" d_policy_type (f_policy_type filters) df ;;
   df <- filter_eq "smoking_status" d_smoking_status (f_smoking_status filters) df ;;
   df <- match truthy_int (f_sum_insured filters) with
         | Some v => df_where "sum_insured" (fun r => (d_sum_insured r =? v)%Z) df
         | None => Ok df
         end ;;
   df <- match f_age_min filters with
         | Some lo => df_where "age" (fun r => (d_age r >=? lo)%Z) df
         | None => Ok df
         end ;;
   match f_age_max filters with
   | Some hi => df_where "age" (fun r => (d_age r <=? hi)%Z) df
   | None => Ok df
   end)%result.

(** A row of [merged]: a demographic row joined with a base premium row. *)
Record TableJoin : Type := mkTableJoin {
  demo_side : DemographicRow;
  base_side : BasePremiumRow
}.

Definition table_merge_cols (filtered_demo : DataFrame DemographicRow)
    (base_premium_df : DataFrame BasePremiumRow) : list string :=
  ["country"; "group"; "gender"; "age"; "policy_type"]
  ++ (if has_column "smoking_status" filtered_demo
         && has_column "smoking_status" base_premium_df
      then ["smoking_status"] else []).

Definition table_key_eq (col : string) (d : DemographicRow) (b : BasePremiumRow) : bool :=
  if String.eqb col "country" then String.eqb (d_country d) (b_country b)
  else if String.eqb col "group" then String.eqb (d_group d) (b_group b)
  else if String.eqb col "gender" then String.eqb (d_gender d) (b_gender b)
  else if String.eqb col "age" then (d_age d =? b_age b)%Z
  else if String.eqb col "policy_type" then String.eqb (d_policy_type d) (b_policy_type b)
  else if String.eqb col "smoking_status"
       then String.eqb (d_smoking_status d) (b_smoking_status b)
  else true.

(** [filtered_demo.merge(base, on=cols, how='inner', suffixes=('', '_base'))]:
    [KeyError] for the first key column one of the frames lacks; else every
    pair that agrees on the key columns, in the order of the left rows.
    (The two typed frames share no column outside the keys, so no column
    is renamed.) *)
Definition table_merge (filtered_demo : DataFrame DemographicRow)
    (base_country : DataFrame BasePremiumRow) (cols : list string)
  : result (DataFrame TableJoin) :=
  match find (fun c => negb (has_column c filtered_demo && has_column c base_country))
             cols with
  | Some c => Raise (KeyError c)
  | None =>
      Ok (mkDataFrame
            (columns filtered_demo
             ++ filter (fun c => negb (existsb (String.eqb c) cols)) (columns base_country))
            (flat_map (fun d => map (mkTableJoin d)
                                  (filter (fun b => forallb (fun c => table_key_eq c d b)
                                                            cols)
                                          (rows base_country)))
                      (rows filtered_demo)))
  end.

(** Lines 309-337, written twice in the source: the rows of the year and
    the country, or, when there are none, those of the latest year of the
    table and the country. *)
Definition year_rows_or_latest {Row : Type} (year_of : Row -> Z)
    (country_of : Row -> string) (df : DataFrame Row) (year : Z) (country : string)
  : DataFrame Row :=
  let of_year :=
    df_filter (fun r => (year_of r =? year)%Z && String.eqb (country_of r) country) df in
  if df_empty of_year then
    df_filter (fun r => eq_nan (year_of r) (series_max (map year_of (rows df)))
                        && String.eqb (country_of r) country) df
  else of_year.

(** [row['smoking_status']]: the column is the demographic one when the
    demographic table has it, else that of the base premium table. *)
Definition row_smoking_status (filtered_demo : DataFrame DemographicRow)
    (row : TableJoin) : string :=
  if has_column "smoking_status" filtered_demo
  then d_smoking_status (demo_side row)
  else b_smoking_status (base_side row).

(** [scenario_name if scenario_name else 'base']. *)
Definition table_scenario (scenario_name : option string) : string :=
  match scenario_name with
  | Some name => match name with EmptyString => "base" | _ => name end
  | None => "base"
  end.

(** Body of the loop over [merged.iterrows()] (lines 340-394): [Ok None]
    is the [continue] of line 351.  [econ_data['gdp_growth']] raises when
    the economic table has no such column. *)
Definition table_row (scenario_name : option string) (country : string) (year : Z)
    (filtered_demo : DataFrame DemographicRow) (merged : DataFrame TableJoin)
    (economic_df : DataFrame EconomicRow) (econ_data : EconomicRow)
    (year_mortality : DataFrame MortalityRow) (row : TableJoin)
  : result (option TableRow) :=
  let smoking_in_row := has_column "smoking_status" merged in
  let mortality_match :=
    filter (fun m =>
              (m_age m =? d_age (demo_side row))%Z
              && String.eqb (m_gender m) (d_gender (demo_side row))
              && (if smoking_in_row && has_column "smoking_status" year_mortality
                  then String.eqb (m_smoking_status m)
                                  (row_smoking_status filtered_demo row)
                  else true))
           (rows year_mortality) in
  match mortality_match with
  | [] => Ok None
  | mortality_data :: _ =>
      if negb (has_column "gdp_growth" economic_df) then Raise (KeyError "gdp_growth")
      else
        let per_unit_present := has_column "premium_per_unit" merged in
        let base_premium_present := has_column "base_premium" merged in
        let sum_insured_present := has_column "sum_insured" merged in
        let premium_per_unit := b_premium_per_unit (base_side row) in
        let sum_insured := d_sum_insured (demo_side row) in
        Ok (Some
          {| t_year := year;
             t_scenario := table_scenario scenario_name;
             t_country := country;
             t_group := d_group (demo_side row);
             t_gender := d_gender (demo_side row);
             t_age := d_age (demo_side row);
             t_policy_type := d_policy_type (demo_side row);
             t_policy_count := d_policy_count (demo_side row);
             t_mortality_rate := m_mortality_rate mortality_data;
             t_life_expectancy := m_life_expectancy mortality_data;
             t_inflation_rate := e_inflation_rate econ_data;
             t_interest_rate := e_interest_rate econ_data;
             t_gdp_growth := e_gdp_growth econ_data;
             t_premium_per_unit :=
               if per_unit_present then Some premium_per_unit
               else if base_premium_present
                    then Some (b_base_premium (base_side row) / 10.0)
                    else None;
             t_base_premium :=
               if per_unit_present then
                 Some (if sum_insured_present
                       then premium_per_unit * (inject_Z sum_insured / 100000.0)
                       else premium_per_unit * 10.0)
               else if base_premium_present
                    then Some (b_base_premium (base_side row))
                    else None;
             t_sum_insured := if sum_insured_present then Some sum_insured else None;
             t_smoking_status :=
               if smoking_in_row then Some (row_smoking_status filtered_demo row)
               else None |})
  end.

(** Body of the loop over the years (lines 307-394): the rows it appends. *)
Definition table_year (scenario_name : option string) (country : string)
    (mortality_df : DataFrame MortalityRow) (economic_df : DataFrame EconomicRow)
    (filtered_demo : DataFrame DemographicRow) (merged : DataFrame TableJoin) (year : Z)
  : result (list TableRow) :=
  let year_economic := year_rows_or_latest e_year e_country economic_df year country in
  match df_empty year_economic, rows year_economic with
  | false, econ_data :: _ =>
      let year_mortality :=
        year_rows_or_latest m_year m_country mortality_df year country in
      collect (table_row scenario_name country year filtered_demo merged economic_df
                         econ_data year_mortality)
              (rows merged)
  | _, _ => Ok []
  end.

(** The keys of a dict of [result_rows], in insertion order. *)
Definition table_columns (merged : DataFrame TableJoin) : list string :=
  ["year"; "scenario"; "country"; "group"; "gender"; "age"; "policy_type";
   "policy_count"; "mortality_rate"; "life_expectancy"; "inflation_rate";
   "interest_rate"; "gdp_growth"]
  ++ (if has_column "premium_per_unit" merged then
        ["premium_per_unit"]
        ++ (if has_column "sum_insured" merged then ["sum_insured"] else [])
        ++ ["base_premium"]
      else if has_column "base_premium" merged
           then ["base_premium"; "premium_per_unit"] else [])
  ++ (if has_column "smoking_status" merged then ["smoking_status"] else [])
  ++ (if has_column "sum_insured" merged && negb (has_column "premium_per_unit" merged)
      then ["sum_insured"] else []).

Definition prepare_filtered_data_table
    (mortality_df : DataFrame MortalityRow) (economic_df : DataFrame EconomicRow)
    (base_premium_df : DataFrame BasePremiumRow) (demographic_df : DataFrame DemographicRow)
    (start_year end_year : Z) (filters : Filters) (country : string)
    (scenario_name : option string) : result (DataFrame TableRow) :=
  (filtered_demo <-
     table_filters filters
       (df_filter (fun d => String.eqb (d_country d) country) demographic_df) ;;
   merged <-
     table_merge filtered_demo
       (df_filter (fun b => String.eqb (b_country b) country) base_premium_df)
       (table_merge_cols filtered_demo base_premium_df) ;;
   appended <- rmap (table_year scenario_name country mortality_df economic_df
                                filtered_demo merged)
                    (py_range start_year (end_year + 1)) ;;
   Ok (DataFrame_of_records (table_columns merged) (List.concat appended)))%result.

(** ** Notions used to state the properties *)

(** The frame [merged] of the loop iteration for [year], as
    [forecast_average_premium] computes it from generator state [g]
    (lines 345-418). *)
Definition year_join `{Numpy} (self : PremiumForecaster) (start_year end_year : Z)
    (scenario_name country : string) (filters : option Filters) (g : rng_state) (year : Z)
  : result (DataFrame MergedRow) :=
  (scenario <- scenarios_getitem (scenarios self) scenario_name ;;
   mortality_proj <- project_mortality self start_year end_year scenario country ;;
   economic_proj <- fst (project_economics self start_year end_year scenario country g) ;;
   premiums_df <- filtered_premiums self start_year end_year country filters
                                    mortality_proj economic_proj ;;
   demo_filtered <- filtered_demographics self country filters ;;
   year_premiums <- df_where "year" (fun p => (p_year p =? year)%Z) premiums_df ;;
   Ok (merged_for_year year_premiums demo_filtered filters))%result.

(** Sum of [value * weight] over sum of [weight]. *)
Definition weighted_mean {A : Type} (value weight : A -> Q) (l : list A) : Q :=
  Qsum (map (fun a => value a * weight a) l) / Qsum (map weight l).

(** Total policy count of a join. *)
Definition join_policies (merged : DataFrame MergedRow) : Z :=
  Zsum (map (fun m => d_policy_count (right m)) (rows merged)).




(** The latest year the mortality table has for [country]. *)
Definition latest_year_of (df : DataFrame MortalityRow) (country : string) : option Z :=
  series_max (map m_year (filter (fun r => String.eqb (m_country r) country) (rows df))).


(** The premium a loop iteration of [calculate_premiums] records, or how
    it ends otherwise. *)
Definition recorded_premium (r : result (option PremiumRow)) : result (option Q) :=
  match r with
  | Ok (Some p) => Ok (Some (p_premium_per_unit p))
  | Ok None => Ok None
  | Raise e => Raise e
  end.

(** The source rows a projection starts from. *)
Definition latest_rows (df : DataFrame MortalityRow) (country : string) (latest : Z)
  : list MortalityRow :=
  filter (fun r => String.eqb (m_country r) country && (m_year r =? latest)%Z) (rows df).

(** A base premium row and a mortality source row describe the same cell
    (the keys of [mortality_filter], lines 199-204). *)
Definition cell_match (self : PremiumForecaster) (b : BasePremiumRow) (m : MortalityRow)
  : bool :=
  (m_age m =? b_age b)%Z
  && String.eqb (m_gender m) (b_gender b)
  && (if has_column "smoking_status" (base_premium_df self)
         && has_column "smoking_status" (mortality_df self)
      then String.eqb (m_smoking_status m) (b_smoking_status b)
      else true).

(** A base premium row of the country that has a premium column and a
    mortality source row at the country's latest year. *)
Definition priced_cell (self : PremiumForecaster) (country : string) (latest : Z)
    (b : BasePremiumRow) : bool :=
  String.eqb (b_country b) country
  && is_some (per_unit_of self b)
  && existsb (cell_match self b) (latest_rows (mortality_df self) country latest).

(** A row passes the six tests of lines 361-373 (381-393). *)
Definition selected_by {Row : Type}
    (gender policy_type group smoking_status : Row -> string) (age : Row -> Z)
    (filters : option Filters) (r : Row) : Prop :=
  match filters with
  | None => True
  | Some f =>
      (forall v, truthy (f_gender f) = Some v -> gender r = v)
      /\ (forall v, truthy (f_policy_type f) = Some v -> policy_type r = v)
      /\ (forall v, truthy (f_group f) = Some v -> group r = v)
      /\ (forall v, truthy (f_smoking_status f) = Some v -> smoking_status r = v)
      /\ (forall lo, f_age_min f = Some lo -> (lo <= age r)%Z)
      /\ (forall hi, f_age_max f = Some hi -> (age r <= hi)%Z)
  end.

(** The outcome of code that raises nothing but [KeyError] for one of the
    columns [cols]. *)
Definition key_errors {A : Type} (cols : list string) (r : result A) : Prop :=
  (exists a, r = Ok a) \/ (exists c, In c cols /\ r = Raise (KeyError c)).

(** The columns [prepare_filtered_data_table] may raise [KeyError] for. *)
Definition table_key_columns : list string :=
  ["gender"; "group"; "policy_type"; "smoking_status"; "sum_insured"; "age"; "country";
   "gdp_growth"].

(** ** Sample tables *)

Definition base_premium_columns : list string :=
  ["country"; "group"; "gender"; "age"; "policy_type"; "smoking_status"; "premium_per_unit"].

Definition demographic_columns : list string :=
  ["country"; "group"; "gender"; "age"; "policy_type"; "smoking_status"; "sum_insured";
   "policy_count"].

Definition sample_mortality : DataFrame MortalityRow :=
  mkDataFrame (mortality_columns true)
    [ mkMortalityRow 2023 "India" "Male" 30 "Non-Smoker" 1.25 45.4;
      mkMortalityRow 2024 "India" "Male" 30 "Non-Smoker" 1.2345 45.5;
      mkMortalityRow 2024 "India" "Male" 80 "Non-Smoker" 62.5 5.2 ].

Definition sample_economic : DataFrame EconomicRow :=
  mkDataFrame economic_columns
    [ mkEconomicRow 2023 "India" 5.5 6.5 7.0;
      mkEconomicRow 2024 "India" 5.0 6.5 6.5 ].

Definition sample_base_premium : DataFrame BasePremiumRow :=
  mkDataFrame base_premium_columns
    [ mkBasePremiumRow "India" "Individual" "Male" 30 "Term Life" "Non-Smoker" 50 0;
      mkBasePremiumRow "India" "Individual" "Male" 80 "Whole Life" "Non-Smoker" 900 0 ].

Definition sample_demographic (count30 count80 : Z) : DataFrame DemographicRow :=
  mkDataFrame demographic_columns
    [ mkDemographicRow "India" "Individual" "Male" 30 "Term Life" "Non-Smoker"
        1000000 count30;
      mkDemographicRow "India" "Individual" "Male" 80 "Whole Life" "Non-Smoker"
        2500000 count80 ].

Definition sample_forecaster (count30 count80 : Z) : PremiumForecaster :=
  init sample_mortality sample_economic sample_base_premium
       (sample_demographic count30 count80).

Definition base_case : Scenario :=
  mkScenario "Base Case" 5.0 6.5 1.5
    "Moderate inflation, stable interest rates, normal mortality improvements".

(** A stand-in for numpy, to run the model on the sample tables: a linear
    congruential generator and a rational bump for [exp]. *)
Definition stand_in_numpy : Numpy :=
  {| rng_state := Z;
     np_random_seed := fun n => n;
     np_random_normal := fun loc scale g =>
       (loc + scale * (inject_Z (g mod 7 - 3) / 10), ((g * 5 + 1) mod 1000003)%Z);
     np_exp := fun x => 1 / (1 - x) |}.


Definition synthetic_economic : DataFrame EconomicRow :=
  mkDataFrame economic_columns [ mkEconomicRow 2025 "India" 4.92 6.45 4.15 ].

(** The frames one scenario contributes to [all_results] of
    [compare_scenarios]: its forecast when that returns a non-empty frame,
    nothing when it is empty or raises. *)
Definition contributed `{Numpy} (self : PremiumForecaster) (start_year end_year : Z)
    (country : string) (filters : option Filters) (g : rng_state) (scenario_name : string)
  : list (DataFrame ForecastRow) :=
  match fst (forecast_average_premium self start_year end_year scenario_name country
                                      filters g) with
  | Ok results =>
      if negb (df_empty results) && has_column "scenario" results then [results] else []
  | Raise _ => []
  end.

(** Evaluate the model on concrete tables without opening the rational
    arithmetic or the numpy interface. *)
Ltac run_model :=
  cbv - [Qplus Qmult Qminus Qdiv Qopp Qinv Qpower py_round py_max
         np_random_normal np_random_seed np_exp inject_Z].

(** * Properties *)

(** ** Python primitives *)

Lemma py_range_In (y a b : Z) : In y (py_range a b) <-> (a <= y < b)%Z.
Proof.
  unfold py_range. rewrite in_map_iff. split.
  - intros [i [<- Hi]]. apply in_seq in Hi. lia.
  - intros Hy. exists (Z.to_nat (y - a)). split; [lia|].
    apply in_seq. lia.
Qed.

Lemma fold_left_max_ge (l : list Z) (a : Z) : (a <= fold_left Z.max l a)%Z.
Proof.
  revert a. induction l as [|x l IH]; intros a; simpl; [lia|].
  specialize (IH (Z.max a x)). lia.
Qed.

Lemma fold_left_max_upper (l : list Z) (a x : Z) :
  In x l -> (x <= fold_left Z.max l a)%Z.
Proof.
  revert a. induction l as [|y l IH]; intros a; simpl; [tauto|].
  intros [->|Hin].
  - pose proof (fold_left_max_ge l (Z.max a x)). lia.
  - now apply IH.
Qed.

Lemma fold_left_max_In (l : list Z) (a : Z) :
  fold_left Z.max l a = a \/ In (fold_left Z.max l a) l.
Proof.
  revert a. induction l as [|y l IH]; intros a; simpl; [now left|].
  destruct (IH (Z.max a y)) as [H|H].
  - rewrite H. destruct (Z.max_spec a y) as [[_ ->]|[_ ->]]; auto.
  - now right; right.
Qed.

Lemma series_max_spec (l : list Z) (m : Z) :
  series_max l = Some m <-> In m l /\ (forall x, In x l -> (x <= m)%Z).
Proof.
  destruct l as [|a l]; simpl.
  - split; [discriminate | tauto].
  - split.
    + intros [= <-]. split.
      * destruct (fold_left_max_In l a) as [->|H]; auto.
      * intros x [<-|Hx]; [apply fold_left_max_ge | now apply fold_left_max_upper].
    + intros [Hin Hub]. f_equal. apply Z.le_antisymm.
      * destruct (fold_left_max_In l a) as [->|H]; [apply Hub | apply Hub]; auto.
      * destruct Hin as [<-|Hin]; [apply fold_left_max_ge | now apply fold_left_max_upper].
Qed.

(** ** Rounding *)

Lemma round_half_even_nonneg (x : Q) : 0 <= x -> (0 <= round_half_even x)%Z.
Proof.
  intros Hx. unfold round_half_even.
  assert (Hf : (0 <= Qfloor x)%Z).
  { change 0%Z with (Qfloor 0). now apply Qfloor_resp_le. }
  destruct (Qcompare _ _); [destruct (Z.even _)| |]; lia.
Qed.

Lemma pow10_pos (n : nat) : (0 < 10 ^ Z.of_nat n)%Z.
Proof. apply Z.pow_pos_nonneg; lia. Qed.

Lemma py_round_nonneg (x : Q) (n : nat) : 0 <= x -> 0 <= py_round x n.
Proof.
  intros Hx. unfold py_round.
  pose proof (pow10_pos n) as Hp.
  assert (Hs : 0 < inject_Z (10 ^ Z.of_nat n)).
  { change 0 with (inject_Z 0). now rewrite <- Zlt_Qlt. }
  apply Qle_shift_div_l; [exact Hs|]. rewrite Qmult_0_l.
  change 0 with (inject_Z 0). rewrite <- Zle_Qle.
  apply round_half_even_nonneg.
  apply Qmult_le_0_compat; [exact Hx | now apply Qlt_le_weak].
Qed.

Lemma round_half_even_comp (x y : Q) : x == y -> round_half_even x = round_half_even y.
Proof.
  intros E. unfold round_half_even.
  assert (Hf : Qfloor x = Qfloor y) by now rewrite E.
  rewrite Hf.
  assert (Hc : Qcompare (x - inject_Z (Qfloor y)) (1 # 2)
               = Qcompare (y - inject_Z (Qfloor y)) (1 # 2)) by now rewrite E.
  now rewrite Hc.
Qed.

Lemma py_round_comp (x y : Q) (n : nat) : x == y -> py_round x n = py_round y n.
Proof.
  intros E. unfold py_round.
  rewrite (round_half_even_comp (x * _) (y * inject_Z (10 ^ Z.of_nat n))); [reflexivity|].
  now rewrite E.
Qed.

(** ** Frames *)

Lemma rows_DataFrame_of_records {Row : Type} (keys : list string) (records : list Row) :
  rows (DataFrame_of_records keys records) = records.
Proof. now destruct records. Qed.

Lemma df_empty_false_rows {Row : Type} (df : DataFrame Row) :
  df_empty df = false -> rows df <> [].
Proof. unfold df_empty. destruct (rows df); [discriminate | congruence]. Qed.

Lemma existsb_eqb_In (c : string) (l : list string) :
  existsb (String.eqb c) l = true <-> In c l.
Proof.
  rewrite existsb_exists. split.
  - intros [x [Hx E]]. apply String.eqb_eq in E. now subst.
  - intros H. exists c. split; [exact H | apply String.eqb_refl].
Qed.

(** ** Mortality projector *)

Lemma projections_In (scenario : Scenario) (country : string) (smoking : bool)
    (s e latest : Z) (data : list MortalityRow) (rec : MortalityRow) :
  In rec (projections scenario country smoking s e (Some latest) data) <->
  exists row, In row data /\ (s <= m_year rec <= e)%Z
              /\ rec = projection_record scenario country smoking (m_year rec) latest row.
Proof.
  unfold projections. rewrite in_flat_map. split.
  - intros [y [Hy Hin]]. apply py_range_In in Hy. apply in_map_iff in Hin.
    destruct Hin as [row [<- Hrow]]. exists row. simpl. repeat split; auto; lia.
  - intros [row [Hrow [Hy ->]]]. simpl. exists (m_year rec). split.
    + apply py_range_In. lia.
    + apply in_map_iff. exists row. split; [|exact Hrow].
      simpl. reflexivity.
Qed.

(** The rows the projector starts from: those of [country] at the latest
    year [country] has, whichever branch selects them. *)
Lemma project_mortality_rows (self : PremiumForecaster) (s e : Z) (scenario : Scenario)
    (country : string) :
  df_empty (mortality_df self) = false ->
  In country (map m_country (rows (mortality_df self))) ->
  exists latest df,
    latest_year_of (mortality_df self) country = Some latest
    /\ project_mortality self s e scenario country = Ok df
    /\ forall rec,
         In rec (rows df) <->
         exists row,
           In row (rows (mortality_df self)) /\ m_country row = country
           /\ m_year row = latest /\ (s <= m_year rec <= e)%Z
           /\ rec = projection_record scenario country
                      (has_column "smoking_status" (mortality_df self))
                      (m_year rec) latest row.
Proof.
  intros Hne Hc. unfold project_mortality, latest_year_of. rewrite Hne.
  apply existsb_eqb_In in Hc. rewrite Hc. simpl negb. cbv iota.
  set (all := rows (mortality_df self)).
  set (cdata := filter (fun r => m_country r =? country) all).
  assert (Hcd : cdata <> []).
  { apply existsb_eqb_In, in_map_iff in Hc. destruct Hc as [r [Hr Hin]].
    intros E. assert (Hin' : In r cdata).
    { apply filter_In. split; [exact Hin|]. rewrite Hr. apply String.eqb_refl. }
    rewrite E in Hin'. exact Hin'. }
  destruct (series_max (map m_year all)) as [gmax|] eqn:Hg.
  2:{ apply df_empty_false_rows in Hne. fold all in Hne.
      destruct all; [congruence | discriminate]. }
  apply series_max_spec in Hg. destruct Hg as [_ Hub].
  fold all. fold cdata.
  set (lf := filter (fun r => eq_nan (m_year r) (Some gmax) && (m_country r =? country)) all).
  destruct lf as [|r0 rest] eqn:Hf.
  - (* no row of the country at the overall latest year *)
    destruct cdata as [|c0 crest] eqn:Hcdata; [congruence|].
    rewrite <- Hcdata in *.
    destruct (series_max (map m_year cdata)) as [l|] eqn:Hl.
    2:{ rewrite Hcdata in Hl. discriminate. }
    exists l. eexists. split; [reflexivity|]. split; [reflexivity|].
    intros rec. rewrite rows_DataFrame_of_records, projections_In.
    split; intros [row H]; exists row.
    + destruct H as [Hin [Hy ->]]. apply filter_In in Hin. destruct Hin as [Hin Hyr].
      apply filter_In in Hin. destruct Hin as [Hin Hco].
      apply String.eqb_eq in Hco. simpl in Hyr. apply Z.eqb_eq in Hyr.
      simpl in *. repeat split; auto; lia.
    + destruct H as [Hin [Hco [Hyr [Hy ->]]]]. simpl in *. split; [|split; [lia|reflexivity]].
      apply filter_In. split.
      * apply filter_In. split; [exact Hin|]. rewrite Hco. apply String.eqb_refl.
      * simpl. now apply Z.eqb_eq.
  - (* the country has rows at the overall latest year *)
    assert (Hr0 : In r0 lf) by (rewrite Hf; now left).
    unfold lf in Hr0.
    apply filter_In in Hr0. destruct Hr0 as [Hr0in Hr0].
    apply andb_true_iff in Hr0. destruct Hr0 as [Hr0y Hr0c].
    simpl in Hr0y. apply Z.eqb_eq in Hr0y. 
    assert (Hl : series_max (map m_year cdata) = Some gmax).
    { apply series_max_spec. split.
      - apply in_map_iff. exists r0. split; [exact Hr0y|].
        apply filter_In. now split.
      - intros x Hx. apply in_map_iff in Hx. destruct Hx as [r [<- Hr]].
        apply filter_In in Hr. apply Hub. apply in_map. tauto. }
    rewrite Hl.
    exists gmax. eexists. split; [reflexivity|]. split; [reflexivity|].
    intros rec. rewrite rows_DataFrame_of_records, projections_In. rewrite <- Hf.
    split; intros [row H]; exists row.
    + destruct H as [Hin [Hy ->]]. unfold lf in Hin.
      apply filter_In in Hin. destruct Hin as [Hin Hb].
      apply andb_true_iff in Hb. destruct Hb as [Hyr Hco].
      apply String.eqb_eq in Hco. simpl in Hyr. apply Z.eqb_eq in Hyr.
      simpl in *. repeat split; auto; lia.
    + destruct H as [Hin [Hco [Hyr [Hy ->]]]]. simpl in *. split; [|split; [lia|reflexivity]].
      unfold lf. apply filter_In. split; [exact Hin|]. apply andb_true_iff. split.
      * simpl. now apply Z.eqb_eq.
      * rewrite Hco. apply String.eqb_refl.
Qed.

Lemma project_mortality_Ok_inv (self : PremiumForecaster) (s e : Z) (scenario : Scenario)
    (country : string) (df : DataFrame MortalityRow) :
  project_mortality self s e scenario country = Ok df ->
  df_empty (mortality_df self) = false
  /\ In country (map m_country (rows (mortality_df self))).
Proof.
  unfold project_mortality.
  destruct (df_empty (mortality_df self)); [discriminate|].
  destruct (existsb _ _) eqn:Hc; [|discriminate].
  intros _. split; [reflexivity | now apply existsb_eqb_In].
Qed.

(** The registry: [base_case] is its "base" entry, and every entry has an
    improvement percentage in [0, 100). *)
Lemma standard_scenarios_base :
  scenarios_getitem standard_scenarios "base" = Ok base_case.
Proof. reflexivity. Qed.

Lemma standard_scenarios_improvement (key : string) (scenario : Scenario) :
  In (key, scenario) standard_scenarios ->
  0 <= mortality_improvement scenario /\ mortality_improvement scenario < 100.
Proof.
  intros [[= _ <-]|[[= _ <-]|[[= _ <-]|[]]]]; split; vm_compute;
    first [reflexivity | discriminate].
Qed.




(** C2 (as amended): with source rates > 0, source life expectancies >= 0
    and an improvement percentage in [0, 100), every projected mortality
    rate is non-negative, whatever the sign of [years_ahead]; a projected
    life expectancy is non-negative when the target year is not before the
    latest historical year.  Nothing is clamped. *)
Theorem project_mortality_nonnegative (self : PremiumForecaster) (s e : Z)
    (scenario : Scenario) (country : string) (df : DataFrame MortalityRow) :
  (forall row, In row (rows (mortality_df self)) ->
               0 < m_mortality_rate row /\ 0 <= m_life_expectancy row) ->
  0 <= mortality_improvement scenario ->
  mortality_improvement scenario < 100 ->
  project_mortality self s e scenario country = Ok df ->
  forall rec,
    In rec (rows df) ->
    0 <= m_mortality_rate rec
    /\ (forall latest,
          latest_year_of (mortality_df self) country = Some latest ->
          (latest <= m_year rec)%Z -> 0 <= m_life_expectancy rec).
Proof.
  intros Hsrc Hlo Hhi Hp rec Hrec.
  destruct (project_mortality_Ok_inv _ _ _ _ _ _ Hp) as [Hne Hc].
  destruct (project_mortality_rows self s e scenario country Hne Hc)
    as [latest [df' [Hl [Hp' Hrows]]]].
  rewrite Hp in Hp'. injection Hp' as <-.
  apply Hrows in Hrec. destruct Hrec as [row [Hin [_ [_ [_ Hrec]]]]].
  destruct (Hsrc row Hin) as [Hrate Hle].
  assert (Hbase : 0 <= (100 - mortality_improvement scenario) / 100).
  { apply Qle_shift_div_l; [reflexivity|]. lra. }
  split.
  - rewrite Hrec. simpl. apply py_round_nonneg.
    apply Qmult_le_0_compat; [now apply Qlt_le_weak | now apply Qpower_0_le].
  - intros latest' Hl' Hya. rewrite Hl in Hl'. injection Hl' as <-.
    rewrite Hrec. simpl. apply py_round_nonneg.
    assert (Hinc : 0 <= inject_Z (m_year rec - latest)
                        * (mortality_improvement scenario / 100)).
    { apply Qmult_le_0_compat.
      - change 0 with (inject_Z 0). rewrite <- Zle_Qle. lia.
      - apply Qle_shift_div_l; [reflexivity|]. lra. }
    rewrite Hrec in Hinc. simpl in Hinc. lra.
Qed.

Lemma project_mortality_nonnegative_witness :
  exists df,
    project_mortality (sample_forecaster 10 30) 2020 2026 base_case "India" = Ok df
    /\ forall rec, In rec (rows df) -> 0 <= m_mortality_rate rec.
Proof.
  destruct (project_mortality (sample_forecaster 10 30) 2020 2026 base_case "India")
    as [df|err] eqn:Hp; [|vm_compute in Hp; discriminate].
  exists df. split; [reflexivity|]. intros rec Hrec.
  apply (project_mortality_nonnegative (sample_forecaster 10 30) 2020 2026 base_case
           "India" df); try exact Hrec; try exact Hp.
  - intros row [<-|[<-|[<-|[]]]]; split; vm_compute; first [reflexivity | discriminate].
  - vm_compute. discriminate.
  - vm_compute. reflexivity.
Defined.

(** C2 as stated fails: life expectancy is not clamped.  A cell with life
    expectancy 5.2 at 2024, projected back to 1624 under the base scenario
    (0.015 a year), gets 5.2 - 400 * 0.015 = -0.8. *)
Lemma project_mortality_negative_life_expectancy :
  (forall row, In row (rows sample_mortality) ->
               0 < m_mortality_rate row /\ 0 <= m_life_expectancy row)
  /\ scenarios_getitem (scenarios (sample_forecaster 10 30)) "base" = Ok base_case
  /\ exists df rec,
       project_mortality (sample_forecaster 10 30) 1624 1624 base_case "India" = Ok df
       /\ In rec (rows df) /\ m_age rec = 80%Z
       /\ m_life_expectancy rec == -0.8
       /\ m_life_expectancy rec < 0.
Proof.
  split; [|split].
  - intros row [<-|[<-|[<-|[]]]]; split; vm_compute; first [reflexivity | discriminate].
  - reflexivity.
  - eexists. eexists. split; [vm_compute; reflexivity|].
    split; [right; left; reflexivity|]. split; [reflexivity|].
    split; vm_compute; reflexivity.
Qed.

(** ** Premium calculator *)

Lemma insert_by_year_perm (r : EconomicRow) (l : list EconomicRow) :
  Permutation (r :: l) (insert_by_year r l).
Proof.
  induction l as [|x l IH]; simpl; [reflexivity|].
  destruct (e_year r <=? e_year x)%Z; [reflexivity|].
  rewrite perm_swap. now constructor.
Qed.

Lemma sort_values_year_perm (l : list EconomicRow) : Permutation l (sort_values_year l).
Proof.
  induction l as [|x l IH]; simpl; [constructor|].
  rewrite <- insert_by_year_perm. now constructor.
Qed.



Lemma cumulative_inflation_before_base (year base_year : Z)
    (full : option (DataFrame EconomicRow)) :
  (year <= base_year)%Z -> cumulative_inflation year base_year full = 1.0.
Proof.
  intros Hy. unfold cumulative_inflation. destruct full as [h|]; [|reflexivity].
  destruct (year - base_year >? 0)%Z eqn:E; [|reflexivity].
  apply Z.gtb_lt in E. lia.
Qed.


Lemma py_range_cons (a stop : Z) :
  (a < stop)%Z -> py_range a stop = a :: py_range (a + 1) stop.
Proof.
  intros H. unfold py_range.
  replace (Z.to_nat (stop - a)) with (S (Z.to_nat (stop - (a + 1)))) by lia.
  cbn [seq map]. f_equal; [lia|].
  rewrite <- seq_shift, map_map. apply map_ext. intros i. lia.
Qed.

Lemma py_range_nil (a stop : Z) : (stop <= a)%Z -> py_range a stop = [].
Proof.
  intros H. unfold py_range. replace (Z.to_nat (stop - a)) with 0%nat by lia.
  reflexivity.
Qed.





(** The premium one iteration records, in closed form: the base rate times
    the five factors of lines 250, 270, 297, 306 and 315, rounded to 2
    decimals. *)
Lemma premium_record_formula (self : PremiumForecaster) (year : Z) (country : string)
    (year_mortality : DataFrame MortalityRow) (economic_proj : DataFrame EconomicRow)
    (year_economic : EconomicRow) (full : option (DataFrame EconomicRow))
    (base_row : BasePremiumRow) (mortality_row : MortalityRow) (rest : list MortalityRow)
    (premium_per_unit : Q) (base_year : Z) (base_year_economic : EconomicRow)
    (rest' : list EconomicRow) (base : MortalityRow) (rest'' : list MortalityRow) :
  mortality_match self year_mortality base_row = mortality_row :: rest ->
  per_unit_of self base_row = Some premium_per_unit ->
  series_max (map e_year (rows (economic_df self))) = Some base_year ->
  filter (fun r => eq_nan (e_year r) (Some base_year)) (rows (economic_df self))
  = base_year_economic :: rest' ->
  base_cell self country base_row = base :: rest'' ->
  recorded_premium
    (premium_record self year country year_mortality economic_proj year_economic full
                    base_row)
  = Ok (Some
      (py_round
         (premium_per_unit
          * cumulative_inflation year base_year full
          * (1 + (m_mortality_rate mortality_row / m_mortality_rate base - 1) * 0.3)
          * (1 + longevity_adj (b_policy_type base_row)
                   (m_life_expectancy mortality_row - m_life_expectancy base))
          * (1 + -0.12 * ((e_interest_rate year_economic
                           - e_interest_rate base_year_economic) / 100))
          * (1 + -0.05 * (((if has_column "gdp_growth" economic_proj
                            then e_gdp_growth year_economic else 6.0)
                           - (if has_column "gdp_growth" (economic_df self)
                              then e_gdp_growth base_year_economic else 6.0)) / 100)))
         2)).
Proof.
  intros Hm Hp Hy He Hb. unfold premium_record.
  rewrite Hm, Hp, Hy, He, Hb. reflexivity.
Qed.






(** ** Economic projector *)

(** The loop body does read the generator: from two different states the
    stand-in generator gives two different records.  Determinism of the
    projector is therefore a fact about the reseeding, not about the body. *)
Example economics_record_reads_generator :
  fst (@economics_record stand_in_numpy (Some 2024%Z) (mkIndicators 5.0 6.5 6.5)
         base_case "India" 2025 1%Z)
  <> fst (@economics_record stand_in_numpy (Some 2024%Z) (mkIndicators 5.0 6.5 6.5)
            base_case "India" 2025 2%Z).
Proof. vm_compute. discriminate. Qed.

(** A call starts by reseeding: the state at the call is irrelevant. *)
Lemma project_economics_reseeds `{np : Numpy} (self : PremiumForecaster) (s e : Z)
    (scenario : Scenario) (country : string) (g1 g2 : rng_state) :
  project_economics self s e scenario country g1
  = project_economics self s e scenario country g2.
Proof.
  unfold project_economics.
  destruct (latest_economics self country) as [latest_year latest_data].
  unfold bind at 1. unfold seed. reflexivity.
Qed.

(** C9: [project_economics] is deterministic.  Its result (and the state it
    leaves the generator in) does not depend on the state of the generator
    at the call, because the call reseeds it; two calls with the same
    arguments therefore return the same frame, whatever used the generator
    in between. *)
Theorem project_economics_deterministic `{np : Numpy} (self : PremiumForecaster)
    (start_year end_year : Z) (scenario : Scenario) (country : string) :
  (forall g1 g2 : rng_state,
     project_economics self start_year end_year scenario country g1
     = project_economics self start_year end_year scenario country g2)
  /\ (forall (g : rng_state) (X : Type) (between : M X),
        let first := project_economics self start_year end_year scenario country g in
        let second :=
          project_economics self start_year end_year scenario country
                            (snd (between (snd first))) in
        fst second = fst first).
Proof.
  split.
  - intros g1 g2. apply project_economics_reseeds.
  - intros g X between first second. unfold second, first. f_equal.
    apply project_economics_reseeds.
Qed.

(** ** Loops that may raise *)

Lemma rbind_Ok_inv {A B : Type} (r : result A) (k : A -> result B) (b : B) :
  rbind r k = Ok b -> exists a, r = Ok a /\ k a = Ok b.
Proof. destruct r as [a|err]; simpl; [eauto | discriminate]. Qed.

(** From [H : (x <- r ;; k) = Ok b]: the value of [r] and what is left. *)
Tactic Notation "inv_rbind" hyp(H) "as" ident(x) ident(Hx) :=
  apply rbind_Ok_inv in H; destruct H as [x [Hx H]].

Lemma collect_Ok_inv {A B : Type} (body : A -> result (option B)) (xs : list A)
    (out : list B) :
  collect body xs = Ok out ->
  (forall x, In x xs -> exists o, body x = Ok o)
  /\ (forall y, In y out <-> exists x, In x xs /\ body x = Ok (Some y)).
Proof.
  revert out. induction xs as [|x xs IH]; intros out; simpl.
  - intros [= <-]. split; [intros x []|]. intros y. split; [intros [] | intros [? [[] _]]].
  - intros H. inv_rbind H as o Ho.
    apply rbind_Ok_inv in H. destruct H as [rs [Hrs [= <-]]].
    destruct (IH rs Hrs) as [IH1 IH2]. split.
    + intros x' [<-|Hx']; eauto.
    + intros y. split.
      * destruct o as [y0|].
        -- intros [<-|Hy]; [exists x; auto|].
           apply IH2 in Hy. destruct Hy as [x' [? ?]]. exists x'. auto.
        -- intros Hy. apply IH2 in Hy. destruct Hy as [x' [? ?]]. exists x'. auto.
      * intros [x' [[<-|Hx'] Hb]].
        -- rewrite Ho in Hb. injection Hb as ->. now left.
        -- assert (In y rs) by (apply IH2; eauto).
           destruct o; [now right | assumption].
Qed.

Lemma rmap_Ok_inv {A B : Type} (body : A -> result B) (xs : list A) (out : list B) :
  rmap body xs = Ok out -> forall x, In x xs -> exists y, body x = Ok y.
Proof.
  revert out. induction xs as [|x xs IH]; intros out; simpl; [tauto|].
  intros H. inv_rbind H as y Hy.
  apply rbind_Ok_inv in H. destruct H as [ys [Hys _]].
  intros x' [<-|Hx']; eauto.
Qed.

(** ** Sums *)

Lemma Qsum_fold (l : list Q) (a : Q) : fold_left Qplus l a == a + Qsum l.
Proof.
  unfold Qsum. revert a. induction l as [|x l IH]; intros a; cbn [fold_left].
  - ring.
  - rewrite (IH (a + x)), (IH (0 + x)). ring.
Qed.

Lemma Qsum_cons (x : Q) (l : list Q) : Qsum (x :: l) == x + Qsum l.
Proof. unfold Qsum at 1. cbn [fold_left]. rewrite Qsum_fold. ring. Qed.

Lemma Zsum_fold (l : list Z) (a : Z) : fold_left Z.add l a = (a + Zsum l)%Z.
Proof.
  unfold Zsum. revert a. induction l as [|x l IH]; intros a; cbn [fold_left].
  - lia.
  - rewrite (IH (a + x)%Z), (IH (0 + x)%Z). lia.
Qed.

Lemma Zsum_cons (x : Z) (l : list Z) : Zsum (x :: l) = (x + Zsum l)%Z.
Proof. unfold Zsum at 1. cbn [fold_left]. rewrite Zsum_fold. lia. Qed.

Lemma inject_Z_Zsum {A : Type} (f : A -> Z) (l : list A) :
  inject_Z (Zsum (map f l)) == Qsum (map (fun a => inject_Z (f a)) l).
Proof.
  induction l as [|x l IH]; cbn [map]; [reflexivity|].
  rewrite Zsum_cons, Qsum_cons, inject_Z_plus, IH. reflexivity.
Qed.

Lemma py_round_0 (n : nat) : py_round 0 n == 0.
Proof.
  unfold py_round. rewrite (round_half_even_comp (0 * _) 0) by ring.
  change (round_half_even 0) with 0%Z. unfold Qdiv. ring.
Qed.

(** ** Aggregator *)

Lemma forecast_average_premium_Ok_inv `{np : Numpy} (self : PremiumForecaster) (s e : Z)
    (scenario_name country : string) (filters : option Filters) (g g' : rng_state)
    (df : DataFrame ForecastRow) :
  forecast_average_premium self s e scenario_name country filters g = (Ok df, g') ->
  exists scenario mortality_proj economic_proj,
    scenarios_getitem (scenarios self) scenario_name = Ok scenario
    /\ project_mortality self s e scenario country = Ok mortality_proj
    /\ project_economics self s e scenario country g = (Ok economic_proj, g')
    /\ aggregate self s e scenario_name country filters mortality_proj economic_proj
       = Ok df.
Proof.
  unfold forecast_average_premium, bind, lift.
  destruct (scenarios_getitem _ _) as [sc|] eqn:Hs; [|discriminate].
  destruct (project_mortality _ _ _ _ _) as [mp|] eqn:Hm; [|discriminate].
  destruct (project_economics _ _ _ _ _ g) as [[ep|] g1] eqn:He; [|discriminate].
  intros [= Ha <-]. exists sc, mp, ep. repeat split; auto.
Qed.

Lemma calculate_premiums_Ok_year (self : PremiumForecaster) (y : Z)
    (mp : DataFrame MortalityRow) (ep : DataFrame EconomicRow) (country : string)
    (full : option (DataFrame EconomicRow)) (out : DataFrame PremiumRow) :
  calculate_premiums self y mp ep country full = Ok out ->
  exists year_econ rest,
    df_empty (df_filter (fun r => (e_year r =? y)%Z) ep) = false
    /\ rows (df_filter (fun r => (e_year r =? y)%Z) ep) = year_econ :: rest.
Proof.
  unfold calculate_premiums.
  destruct (df_empty mp || negb (has_column "year" mp)); [discriminate|].
  destruct (df_empty (df_filter _ ep)); [discriminate|].
  destruct (rows (df_filter _ ep)) as [|ye rest]; [discriminate|].
  intros _. exists ye, rest. auto.
Qed.

Lemma result_record_Ok_inv (y : Z) (scenario_name : string) (merged : DataFrame MergedRow)
    (ep : DataFrame EconomicRow) (o : option ForecastRow) :
  result_record y scenario_name merged ep = Ok o ->
  has_column "premium_per_unit" merged = true.
Proof.
  unfold result_record. destruct (has_column "premium_per_unit" merged); [reflexivity|].
  discriminate.
Qed.

Lemma result_record_Some_year (y : Z) (scenario_name : string)
    (merged : DataFrame MergedRow) (ep : DataFrame EconomicRow) (r : ForecastRow) :
  result_record y scenario_name merged ep = Ok (Some r) -> year r = y.
Proof.
  unfold result_record. destruct (negb _); [discriminate|].
  destruct (df_empty _); [discriminate|].
  destruct (rows (df_filter _ ep)); [discriminate|].
  intros [= <-]. reflexivity.
Qed.

(** The record of a year whose join is not empty and which has an
    economic projection. *)
Lemma result_record_emitted (y : Z) (scenario_name : string)
    (merged : DataFrame MergedRow) (ep : DataFrame EconomicRow)
    (o : option ForecastRow) :
  result_record y scenario_name merged ep = Ok o ->
  df_empty (df_filter (fun r => (e_year r =? y)%Z) ep) = false ->
  exists r,
    o = Some r /\ year r = y /\ scenario r = scenario_name
    /\ total_policies r = join_policies merged
    /\ average_premium r
       = py_round
           (if (join_policies merged >? 0)%Z
            then Qsum (map (fun m => actual_premium (has_column "sum_insured" merged) m
                                     * policy_count m) (rows merged))
                 / inject_Z (join_policies merged)
            else 0) 2
    /\ average_premium_per_unit r
       = py_round
           (if (join_policies merged >? 0)%Z
            then Qsum (map (fun m => p_premium_per_unit (left m) * policy_count m)
                           (rows merged))
                 / inject_Z (join_policies merged)
            else 0) 2.
Proof.
  intros Hr Hne. pose proof (result_record_Ok_inv _ _ _ _ _ Hr) as Hppu.
  unfold result_record in Hr. rewrite Hppu in Hr. cbn [negb] in Hr. rewrite Hne in Hr.
  destruct (rows (df_filter _ ep)) as [|ye rest] eqn:Hrows.
  - apply df_empty_false_rows in Hne. congruence.
  - injection Hr as <-. eexists. split; [reflexivity|].
    cbn [year scenario total_policies average_premium average_premium_per_unit].
    unfold join_policies. repeat split; reflexivity.
Qed.

Lemma forecast_year_inv (y : Z) (scenario_name : string) (pdf : DataFrame PremiumRow)
    (ddf : DataFrame DemographicRow) (ep : DataFrame EconomicRow)
    (filters : option Filters) (o : option ForecastRow) :
  forecast_year y scenario_name pdf ddf ep filters = Ok o ->
  exists year_premiums,
    df_where "year" (fun p => (p_year p =? y)%Z) pdf = Ok year_premiums
    /\ (df_empty (merged_for_year year_premiums ddf filters) = true -> o = None)
    /\ (df_empty (merged_for_year year_premiums ddf filters) = false ->
        result_record y scenario_name (merged_for_year year_premiums ddf filters) ep
        = Ok o).
Proof.
  unfold forecast_year. intros H. inv_rbind H as yp Hyp. exists yp. split; [exact Hyp|].
  destruct (df_empty (merged_for_year yp ddf filters)); cbn [negb] in H.
  - split; [intros _; congruence | discriminate].
  - split; [discriminate | intros _; exact H].
Qed.

(** What a successful forecast holds for each year of its range: nothing
    when the join of that year is empty, and otherwise a record computed
    from the join. *)
Lemma forecast_rows `{np : Numpy} (self : PremiumForecaster) (s e : Z)
    (scenario_name country : string) (filters : option Filters) (g g' : rng_state)
    (df : DataFrame ForecastRow) :
  forecast_average_premium self s e scenario_name country filters g = (Ok df, g') ->
  forall y,
    (s <= y <= e)%Z ->
    exists merged,
      year_join self s e scenario_name country filters g y = Ok merged
      /\ (df_empty merged = true -> forall r, In r (rows df) -> year r <> y)
      /\ (df_empty merged = false ->
          exists r,
            In r (rows df) /\ year r = y /\ scenario r = scenario_name
            /\ total_policies r = join_policies merged
            /\ average_premium r
               = py_round
                   (if (join_policies merged >? 0)%Z
                    then Qsum (map (fun m =>
                                      actual_premium (has_column "sum_insured" merged) m
                                      * policy_count m) (rows merged))
                         / inject_Z (join_policies merged)
                    else 0) 2
            /\ average_premium_per_unit r
               = py_round
                   (if (join_policies merged >? 0)%Z
                    then Qsum (map (fun m => p_premium_per_unit (left m) * policy_count m)
                                   (rows merged))
                         / inject_Z (join_policies merged)
                    else 0) 2).
Proof.
  intros Hf y Hy.
  apply forecast_average_premium_Ok_inv in Hf.
  destruct Hf as [sc [mp [ep [Hs [Hm [He Ha]]]]]].
  unfold aggregate in Ha.
  inv_rbind Ha as pdf Hp.
  inv_rbind Ha as ddf Hd.
  apply rbind_Ok_inv in Ha. destruct Ha as [rs [Hc [= <-]]].
  rewrite rows_DataFrame_of_records.
  assert (Hin : In y (py_range s (e + 1))) by (apply py_range_In; lia).
  assert (Hecon : df_empty (df_filter (fun r => (e_year r =? y)%Z) ep) = false).
  { unfold filtered_premiums in Hp. apply rbind_Ok_inv in Hp.
    destruct Hp as [all [Hall _]].
    destruct (rmap_Ok_inv _ _ _ Hall y Hin) as [out Hout].
    apply calculate_premiums_Ok_year in Hout. destruct Hout as [? [? [? _]]].
    assumption. }
  destruct (collect_Ok_inv _ _ _ Hc) as [Hall Hmem].
  destruct (Hall y Hin) as [o Ho].
  destruct (forecast_year_inv _ _ _ _ _ _ _ Ho) as [yp [Hyp [Hempty Hfull]]].
  exists (merged_for_year yp ddf filters). split; [|split].
  - unfold year_join. rewrite Hs. cbn [rbind]. rewrite Hm. cbn [rbind].
    rewrite He. cbn [fst rbind]. rewrite Hp. cbn [rbind]. rewrite Hd. cbn [rbind].
    rewrite Hyp. reflexivity.
  - intros Hem r Hr Hyr. apply Hmem in Hr. destruct Hr as [x [Hx Hfx]].
    assert (x = y).
    { destruct (forecast_year_inv _ _ _ _ _ _ _ Hfx) as [ypx [_ [Hex Hfx']]].
      destruct (df_empty (merged_for_year ypx ddf filters)).
      - specialize (Hex eq_refl). discriminate.
      - specialize (Hfx' eq_refl). apply result_record_Some_year in Hfx'. congruence. }
    subst x. rewrite Ho in Hfx. rewrite (Hempty Hem) in Hfx. discriminate.
  - intros Hne. specialize (Hfull Hne).
    destruct (result_record_emitted _ _ _ _ _ Hfull Hecon) as [r [-> Hr]].
    exists r. split; [|exact Hr]. apply Hmem. exists y. auto.
Qed.

Lemma weighted_mean_join (value : MergedRow -> Q) (merged : DataFrame MergedRow) :
  Qsum (map (fun m => value m * policy_count m) (rows merged))
  / inject_Z (join_policies merged)
  == weighted_mean value policy_count (rows merged).
Proof.
  unfold weighted_mean, join_policies, policy_count.
  rewrite (inject_Z_Zsum (fun m => d_policy_count (right m))). reflexivity.
Qed.

(** C1 (as amended): in a forecast that returns, a year of the range whose
    join is not empty gets a record, also when the policy counts of the
    join add up to zero: that record then has average premium 0, average
    premium per unit 0 and 0 policies.  Only a year whose join is empty
    has no record. *)
Theorem zero_policy_year_emitted `{np : Numpy} (self : PremiumForecaster) (s e : Z)
    (scenario_name country : string) (filters : option Filters) (g g' : rng_state)
    (df : DataFrame ForecastRow) :
  forecast_average_premium self s e scenario_name country filters g = (Ok df, g') ->
  forall y,
    (s <= y <= e)%Z ->
    exists merged,
      year_join self s e scenario_name country filters g y = Ok merged
      /\ (df_empty merged = false -> exists r, In r (rows df) /\ year r = y)
      /\ (df_empty merged = false -> join_policies merged = 0%Z ->
          exists r,
            In r (rows df) /\ year r = y /\ total_policies r = 0%Z
            /\ average_premium r == 0 /\ average_premium_per_unit r == 0)
      /\ (df_empty merged = true -> forall r, In r (rows df) -> year r <> y).
Proof.
  intros Hf y Hy.
  destruct (forecast_rows self s e scenario_name country filters g g' df Hf y Hy)
    as [merged [Hj [Hempty Hfull]]].
  exists merged. split; [exact Hj|]. split; [|split].
  - intros Hne. destruct (Hfull Hne) as [r [Hin [Hyr _]]]. eauto.
  - intros Hne Hzero. destruct (Hfull Hne) as [r [Hin [Hyr [_ [Htot [Havg Hppu]]]]]].
    exists r. rewrite Hzero in *. cbn [Z.gtb Z.compare] in Havg, Hppu.
    repeat split; try assumption.
    + rewrite Havg. apply py_round_0.
    + rewrite Hppu. apply py_round_0.
  - exact Hempty.
Qed.

Lemma zero_policy_year_emitted_witness :
  exists df r,
    fst (@forecast_average_premium stand_in_numpy (sample_forecaster 0 0) 2025 2026
           "base" "India" None 7%Z)
    = Ok df
    /\ In r (rows df) /\ year r = 2026%Z /\ total_policies r = 0%Z
    /\ average_premium r == 0 /\ average_premium_per_unit r == 0.
Proof.
  destruct (@forecast_average_premium stand_in_numpy (sample_forecaster 0 0) 2025 2026
              "base" "India" None 7%Z) as [[df|err] g'] eqn:Hf.
  - destruct (@zero_policy_year_emitted stand_in_numpy _ _ _ _ _ _ _ _ _ Hf 2026%Z)
      as [merged [Hj [_ [Hzero _]]]]; [lia|].
    vm_compute in Hj. injection Hj as <-.
    destruct Hzero as [r Hr]; [reflexivity | reflexivity |].
    exists df, r. split; [reflexivity | exact Hr].
  - vm_compute in Hf. discriminate.
Defined.

(** C1 as stated fails: with the sample tables and both policy counts 0,
    the join of 2025 has rows, its policy counts add up to 0, and the
    forecast, whatever numpy draws, consists of one record for 2025 with
    average premium 0 and 0 policies. *)
Lemma zero_policy_year_is_emitted :
  exists self,
    self = sample_forecaster 0 0
    /\ forall (np : Numpy) (g : rng_state),
       exists merged df r,
         year_join self 2025 2025 "base" "India" None g 2025 = Ok merged
         /\ df_empty merged = false
         /\ join_policies merged = 0%Z
         /\ fst (forecast_average_premium self 2025 2025 "base" "India" None g) = Ok df
         /\ rows df = [r]
         /\ year r = 2025%Z /\ total_policies r = 0%Z
         /\ average_premium r == 0 /\ average_premium_per_unit r == 0.
Proof.
  eexists. split; [reflexivity|]. intros np g.
  eexists. eexists. eexists.
  split; [run_model; reflexivity|].
  split; [run_model; reflexivity|].
  split; [run_model; reflexivity|].
  split; [run_model; reflexivity|].
  split; [run_model; reflexivity|].
  split; [reflexivity|].
  split; [reflexivity|].
  split; cbn [average_premium average_premium_per_unit]; apply py_round_0.
Qed.

(** ** Columns of the join *)

Lemma df_where_columns {Row : Type} (col : string) (p : Row -> bool)
    (df df' : DataFrame Row) :
  df_where col p df = Ok df' -> columns df' = columns df.
Proof.
  unfold df_where. destruct (has_column col df); [|discriminate].
  intros [= <-]. reflexivity.
Qed.

Lemma filter_eq_columns {Row : Type} (col : string) (get : Row -> string)
    (v : option string) (df df' : DataFrame Row) :
  filter_eq col get v df = Ok df' -> columns df' = columns df.
Proof.
  unfold filter_eq. destruct (truthy v).
  - apply df_where_columns.
  - intros [= <-]. reflexivity.
Qed.

Lemma apply_filters_columns {Row : Type}
    (gender policy_type group smoking_status : Row -> string) (age : Row -> Z)
    (filters : option Filters) (df df' : DataFrame Row) :
  apply_filters gender policy_type group smoking_status age filters df = Ok df' ->
  columns df' = columns df.
Proof.
  unfold apply_filters. destruct filters as [f|]; [|intros [= <-]; reflexivity].
  intros H.
  inv_rbind H as d1 H1.
  inv_rbind H as d2 H2.
  inv_rbind H as d3 H3.
  inv_rbind H as d4 H4.
  inv_rbind H as d5 H5.
  apply filter_eq_columns in H1, H2, H3, H4.
  assert (E5 : columns d5 = columns d4).
  { destruct (f_age_min f); [now apply df_where_columns in H5 | now injection H5 as <-]. }
  assert (E6 : columns df' = columns d5).
  { destruct (f_age_max f); [now apply df_where_columns in H | now injection H as <-]. }
  congruence.
Qed.

Lemma rmap_Ok_In {A B : Type} (body : A -> result B) (xs : list A) (out : list B) :
  rmap body xs = Ok out -> forall y, In y out -> exists x, In x xs /\ body x = Ok y.
Proof.
  revert out. induction xs as [|x xs IH]; intros out; simpl.
  - intros [= <-] y [].
  - intros H. inv_rbind H as y0 Hy0.
    apply rbind_Ok_inv in H. destruct H as [ys [Hys [= <-]]].
    intros y [<-|Hy]; [eauto|].
    destruct (IH ys Hys y Hy) as [x' [? ?]]. eauto.
Qed.

Lemma union_columns_absent (c : string) (cols : list (list string)) :
  (forall cs, In cs cols -> ~ In c cs) -> ~ In c (union_columns cols).
Proof.
  unfold union_columns.
  assert (G : forall acc, ~ In c acc -> (forall cs, In cs cols -> ~ In c cs) ->
              ~ In c (fold_left
                        (fun acc cs =>
                           acc ++ filter (fun c => negb (existsb (String.eqb c) acc)) cs)
                        cols acc)).
  { induction cols as [|cs cols IH]; intros acc Hacc Hall; simpl; [exact Hacc|].
    apply IH.
    - intros Hin. apply in_app_or in Hin. destruct Hin as [Hin|Hin]; [tauto|].
      apply filter_In in Hin. apply (Hall cs); [now left | tauto].
    - intros cs' Hcs'. apply Hall. now right. }
  intros Hall. apply G; [intros [] | exact Hall].
Qed.

Lemma calculate_premiums_columns (self : PremiumForecaster) (y : Z)
    (mp : DataFrame MortalityRow) (ep : DataFrame EconomicRow) (country : string)
    (full : option (DataFrame EconomicRow)) (out : DataFrame PremiumRow) :
  calculate_premiums self y mp ep country full = Ok out ->
  ~ In "sum_insured" (columns out).
Proof.
  unfold calculate_premiums.
  destruct (df_empty mp || negb (has_column "year" mp)); [discriminate|].
  destruct (df_empty (df_filter _ ep)); [discriminate|].
  destruct (rows (df_filter _ ep)) as [|ye rest]; [discriminate|].
  intros H. apply rbind_Ok_inv in H. destruct H as [ps [_ [= <-]]].
  destruct ps as [|p ps]; cbn [DataFrame_of_records columns]; [intros []|].
  unfold premium_columns.
  destruct (has_column "smoking_status" (base_premium_df self)); cbn;
    intuition discriminate.
Qed.

Lemma filtered_premiums_no_sum_insured (self : PremiumForecaster) (s e : Z)
    (country : string) (filters : option Filters) (mp : DataFrame MortalityRow)
    (ep : DataFrame EconomicRow) (pdf : DataFrame PremiumRow) :
  filtered_premiums self s e country filters mp ep = Ok pdf ->
  has_column "sum_insured" pdf = false.
Proof.
  unfold filtered_premiums. intros H.
  inv_rbind H as all Hall.
  inv_rbind H as cat Hcat.
  apply apply_filters_columns in H.
  unfold has_column. rewrite H.
  destruct (existsb _ _) eqn:E; [|reflexivity].
  apply existsb_eqb_In in E. exfalso.
  unfold pd_concat in Hcat. destruct all as [|f0 fs] eqn:Hfs; [discriminate|].
  rewrite <- Hfs in *. injection Hcat as <-. cbn [columns] in E.
  revert E. apply union_columns_absent.
  intros cs Hcs. apply in_map_iff in Hcs. destruct Hcs as [f [<- Hf]].
  destruct (rmap_Ok_In _ _ _ Hall f Hf) as [y [_ Hy]].
  now apply calculate_premiums_columns in Hy.
Qed.

Lemma existsb_filter_kept (c : string) (p : string -> bool) (l : list string) :
  p c = true ->
  existsb (String.eqb c) (filter p l) = existsb (String.eqb c) l.
Proof.
  intros Hp. induction l as [|x l IH]; simpl; [reflexivity|].
  destruct (String.eqb_spec c x) as [<-|Hne].
  - rewrite Hp. simpl. now rewrite String.eqb_refl.
  - destruct (p x); simpl; [|exact IH].
    destruct (String.eqb_spec c x); [contradiction | exact IH].
Qed.

Lemma merged_for_year_sum_insured (yp : DataFrame PremiumRow)
    (ddf : DataFrame DemographicRow) (filters : option Filters) :
  has_column "sum_insured" yp = false ->
  has_column "sum_insured" (merged_for_year yp ddf filters)
  = has_column "sum_insured" ddf.
Proof.
  intros Hyp.
  assert (Hm : has_column "sum_insured" (merge yp ddf (merge_cols yp ddf))
               = has_column "sum_insured" ddf).
  { unfold has_column, merge in *. cbn [columns]. rewrite existsb_app, Hyp.
    cbn [orb]. apply existsb_filter_kept. unfold merge_cols.
    destruct (_ && _); destruct (_ && _); reflexivity. }
  unfold merged_for_year. destruct filters as [f|]; [|exact Hm].
  destruct (truthy_int _); [|exact Hm].
  destruct (has_column "sum_insured" (merge _ _ _)) eqn:E; [|congruence].
  rewrite <- Hm. unfold has_column, df_filter in *. cbn [columns]. exact E.
Qed.







(** ** Scenario comparison *)

Lemma forecast_average_premium_state `{np : Numpy} (self : PremiumForecaster) (s e : Z)
    (scenario_name country : string) (filters : option Filters) (g1 g2 : rng_state) :
  fst (forecast_average_premium self s e scenario_name country filters g1)
  = fst (forecast_average_premium self s e scenario_name country filters g2).
Proof.
  unfold forecast_average_premium, bind, lift.
  destruct (scenarios_getitem _ _) as [sc|]; [|reflexivity].
  destruct (project_mortality _ _ _ _ _) as [mp|]; [|reflexivity].
  rewrite (project_economics_reseeds self s e sc country g1 g2).
  destruct (project_economics self s e sc country g2) as [[ep|] g3]; reflexivity.
Qed.

Lemma scenario_results_contributed `{np : Numpy} (self : PremiumForecaster) (s e : Z)
    (country : string) (filters : option Filters) (g0 g : rng_state)
    (scenario_name : string) :
  fst (scenario_results self s e country filters scenario_name g)
  = Ok (contributed self s e country filters g0 scenario_name).
Proof.
  unfold scenario_results, contributed, try_except, bind, ret.
  rewrite (forecast_average_premium_state self s e scenario_name country filters g0 g).
  destruct (forecast_average_premium self s e scenario_name country filters g)
    as [[df|err] g1]; reflexivity.
Qed.

Lemma for_each_scenario_results `{np : Numpy} (self : PremiumForecaster) (s e : Z)
    (country : string) (filters : option Filters) (g0 : rng_state) (names : list string) :
  forall g,
    fst (for_each (scenario_results self s e country filters) names g)
    = Ok (map (contributed self s e country filters g0) names).
Proof.
  induction names as [|n names IH]; intros g; [reflexivity|].
  cbn [for_each map]. unfold bind at 1.
  pose proof (scenario_results_contributed self s e country filters g0 g n) as Hn.
  destruct (scenario_results self s e country filters n g) as [r g1].
  cbn [fst] in Hn. subst r. unfold bind at 1.
  specialize (IH g1).
  destruct (for_each (scenario_results self s e country filters) names g1) as [r g2].
  cbn [fst] in IH. subst r. reflexivity.
Qed.

(** Partial results: [compare_scenarios] never raises, and the rows it
    returns are those of the scenarios whose forecast returned a non-empty
    frame, in registry order; a scenario that raises contributes nothing
    and stops nothing.  When no scenario contributes, the frame returned
    has the columns of lines 497-499. *)
Lemma compare_scenarios_partial_results `{np : Numpy} (self : PremiumForecaster)
    (s e : Z) (country : string) (filters : option Filters) (g : rng_state) :
  exists out,
    fst (compare_scenarios self s e country filters g) = Ok out
    /\ rows out
       = flat_map (fun scenario_name =>
                     flat_map rows (contributed self s e country filters g scenario_name))
                  (map fst (scenarios self))
    /\ ((forall scenario_name,
           In scenario_name (map fst (scenarios self)) ->
           contributed self s e country filters g scenario_name = []) ->
        out = mkDataFrame empty_result_columns []).
Proof.
  unfold compare_scenarios. unfold bind at 1.
  pose proof (for_each_scenario_results self s e country filters g
                (map fst (scenarios self)) g) as Hfe.
  destruct (for_each _ _ g) as [r g1]. cbn [fst] in Hfe. subst r.
  set (names := map fst (scenarios self)).
  set (frames := map (contributed self s e country filters g) names).
  assert (Hrows : flat_map rows (List.concat frames)
                  = flat_map (fun n => flat_map rows
                                         (contributed self s e country filters g n))
                             names).
  { unfold frames. induction names as [|n names IH]; [reflexivity|].
    cbn [map List.concat flat_map]. rewrite flat_map_app. now rewrite IH. }
  destruct (List.concat frames) as [|f fs] eqn:Hc.
  - exists (mkDataFrame empty_result_columns []). split; [reflexivity|].
    split; [|reflexivity]. cbn [rows]. rewrite <- Hrows. reflexivity.
  - eexists. split; [reflexivity|]. split.
    + cbn [rows]. rewrite <- Hrows. now rewrite flat_map_concat_map.
    + intros Hall. exfalso.
      assert (Hnil : List.concat frames = []).
      { unfold frames. clear Hc Hrows. induction names as [|n names IH]; [reflexivity|].
        cbn [map List.concat]. rewrite (Hall n) by now left.
        apply IH. intros n' Hn'. apply Hall. now right. }
      congruence.
Qed.

(** C3, second half, at a failing input: for a country the mortality table
    does not have, every scenario raises, and the frame [compare_scenarios]
    returns, whatever numpy is, has the nine columns of lines 497-499.
    [average_premium_per_unit] is not among them, although every frame
    [forecast_average_premium] builds from records has that column. *)
Theorem compare_scenarios_empty_result_schema :
  forall (np : Numpy) (g : rng_state),
    (forall scenario_name,
       In scenario_name ["base"; "optimistic"; "pessimistic"] ->
       fst (forecast_average_premium (sample_forecaster 10 30) 2025 2026 scenario_name
                                     "USA" None g)
       = Raise (ValueError "Country not found in mortality data."))
    /\ fst (compare_scenarios (sample_forecaster 10 30) 2025 2026 "USA" None g)
       = Ok (mkDataFrame empty_result_columns [])
    /\ ~ In "average_premium_per_unit" empty_result_columns
    /\ (forall sum_insured_present,
          In "average_premium_per_unit" (forecast_columns sum_insured_present)).
Proof.
  intros np g. split; [|split; [|split]].
  - intros n [<-|[<-|[<-|[]]]]; reflexivity.
  - reflexivity.
  - cbn. intuition discriminate.
  - intros b. unfold forecast_columns. cbn. auto.
Qed.

(** * Further properties *)

(** ** Rounding is monotone *)

Lemma round_half_even_bounds (x : Q) :
  (Qfloor x <= round_half_even x <= Qfloor x + 1)%Z.
Proof.
  unfold round_half_even.
  destruct (Qcompare _ _); [destruct (Z.even _)| |]; lia.
Qed.

Lemma round_half_even_mono (x y : Q) :
  x <= y -> (round_half_even x <= round_half_even y)%Z.
Proof.
  intros Hxy.
  pose proof (Qfloor_resp_le x y Hxy) as Hf.
  destruct (Z.eq_dec (Qfloor x) (Qfloor y)) as [E|NE].
  - unfold round_half_even. rewrite E.
    destruct (Qcompare_spec (x - inject_Z (Qfloor y)) (1 # 2)) as [Hx|Hx|Hx];
      destruct (Qcompare_spec (y - inject_Z (Qfloor y)) (1 # 2)) as [Hy|Hy|Hy];
      try destruct (Z.even (Qfloor y)); try lia; exfalso; lra.
  - pose proof (round_half_even_bounds x). pose proof (round_half_even_bounds y). lia.
Qed.

Lemma py_round_mono (x y : Q) (n : nat) : x <= y -> py_round x n <= py_round y n.
Proof.
  intros Hxy. unfold py_round.
  pose proof (pow10_pos n) as Hp.
  assert (Hs : 0 < inject_Z (10 ^ Z.of_nat n)).
  { change 0 with (inject_Z 0). now rewrite <- Zlt_Qlt. }
  unfold Qdiv. apply Qmult_le_compat_r.
  - rewrite <- Zle_Qle. apply round_half_even_mono.
    apply Qmult_le_compat_r; [exact Hxy | now apply Qlt_le_weak].
  - apply Qlt_le_weak. now apply Qinv_lt_0_compat.
Qed.

Lemma round_half_even_inject (z : Z) : round_half_even (inject_Z z) = z.
Proof.
  unfold round_half_even. rewrite Qfloor_Z.
  assert (E : Qcompare (inject_Z z - inject_Z z) (1 # 2) = Lt).
  { apply Qlt_alt. assert (H : inject_Z z - inject_Z z == 0) by ring.
    rewrite H. reflexivity. }
  now rewrite E.
Qed.

(** A value with at most [n] decimals is left as it is. *)
Lemma py_round_exact (k : Z) (n : nat) :
  py_round (inject_Z k / inject_Z (10 ^ Z.of_nat n)) n
  == inject_Z k / inject_Z (10 ^ Z.of_nat n).
Proof.
  unfold py_round.
  pose proof (pow10_pos n) as Hp.
  assert (Hs : ~ inject_Z (10 ^ Z.of_nat n) == 0).
  { apply Qnot_eq_sym, Qlt_not_eq. change 0 with (inject_Z 0). now rewrite <- Zlt_Qlt. }
  rewrite (round_half_even_comp _ (inject_Z k)).
  - now rewrite round_half_even_inject.
  - field. exact Hs.
Qed.

(** ** Mortality projector: the frame it returns *)

Lemma filter_filter_and {A : Type} (p q : A -> bool) (l : list A) :
  filter p (filter q l) = filter (fun x => q x && p x) l.
Proof.
  induction l as [|x l IH]; cbn [filter]; [reflexivity|].
  destruct (q x); cbn [filter andb]; [|exact IH].
  destruct (p x); now rewrite IH.
Qed.

(** Both branches of lines 69-85 select the rows of the country at the
    latest year the country has. *)
Lemma project_mortality_exact (self : PremiumForecaster) (s e : Z) (scenario : Scenario)
    (country : string) :
  df_empty (mortality_df self) = false ->
  In country (map m_country (rows (mortality_df self))) ->
  exists latest,
    latest_year_of (mortality_df self) country = Some latest
    /\ project_mortality self s e scenario country
       = Ok (DataFrame_of_records
               (mortality_columns (has_column "smoking_status" (mortality_df self)))
               (projections scenario country
                  (has_column "smoking_status" (mortality_df self)) s e (Some latest)
                  (latest_rows (mortality_df self) country latest))).
Proof.
  intros Hne Hc. unfold project_mortality, latest_year_of, latest_rows. rewrite Hne.
  apply existsb_eqb_In in Hc. rewrite Hc. simpl negb. cbv iota.
  set (all := rows (mortality_df self)).
  set (cdata := filter (fun r => m_country r =? country) all).
  assert (Hcd : cdata <> []).
  { apply existsb_eqb_In, in_map_iff in Hc. destruct Hc as [r [Hr Hin]].
    intros E. assert (Hin' : In r cdata).
    { apply filter_In. split; [exact Hin|]. rewrite Hr. apply String.eqb_refl. }
    rewrite E in Hin'. exact Hin'. }
  destruct (series_max (map m_year all)) as [gmax|] eqn:Hg.
  2:{ apply df_empty_false_rows in Hne. fold all in Hne.
      destruct all; [congruence | discriminate]. }
  apply series_max_spec in Hg. destruct Hg as [_ Hub].
  set (lf := filter (fun r => eq_nan (m_year r) (Some gmax) && (m_country r =? country)) all).
  destruct lf as [|r0 rest] eqn:Hf.
  - destruct cdata as [|c0 crest] eqn:Hcdata; [congruence|].
    rewrite <- Hcdata in *.
    destruct (series_max (map m_year cdata)) as [l|] eqn:Hl.
    2:{ rewrite Hcdata in Hl. discriminate. }
    exists l. split; [reflexivity|]. do 3 f_equal.
    unfold cdata. rewrite filter_filter_and. reflexivity.
  - assert (Hr0 : In r0 lf) by (rewrite Hf; now left).
    unfold lf in Hr0.
    apply filter_In in Hr0. destruct Hr0 as [Hr0in Hr0].
    apply andb_true_iff in Hr0. destruct Hr0 as [Hr0y Hr0c].
    simpl in Hr0y. apply Z.eqb_eq in Hr0y.
    assert (Hl : series_max (map m_year cdata) = Some gmax).
    { apply series_max_spec. split.
      - apply in_map_iff. exists r0. split; [exact Hr0y|].
        apply filter_In. now split.
      - intros x Hx. apply in_map_iff in Hx. destruct Hx as [r [<- Hr]].
        apply filter_In in Hr. apply Hub. apply in_map. tauto. }
    rewrite Hl. exists gmax. split; [reflexivity|]. do 3 f_equal.
    rewrite <- Hf. unfold lf. apply filter_ext. intros r. apply andb_comm.
Qed.

Lemma map_const_repeat {A B : Type} (b : B) (l : list A) :
  map (fun _ => b) l = repeat b (List.length l).
Proof. induction l as [|x l IH]; cbn; [reflexivity | now rewrite IH]. Qed.

Lemma projections_years (scenario : Scenario) (country : string) (smoking : bool)
    (latest : Z) (data : list MortalityRow) (years : list Z) :
  map m_year
      (flat_map (fun y => map (projection_record scenario country smoking y latest) data)
                years)
  = flat_map (fun y => repeat y (List.length data)) years.
Proof.
  induction years as [|y years IH]; cbn [flat_map map]; [reflexivity|].
  rewrite map_app, IH, map_map. cbn [projection_record m_year].
  now rewrite map_const_repeat.
Qed.

Lemma flat_map_repeat_length (n : nat) (years : list Z) :
  List.length (flat_map (fun y => repeat y n) years) = (List.length years * n)%nat.
Proof.
  induction years as [|y years IH]; cbn [flat_map List.length]; [reflexivity|].
  rewrite length_app, repeat_length, IH. lia.
Qed.

Lemma py_range_length (a stop : Z) : List.length (py_range a stop) = Z.to_nat (stop - a).
Proof. unfold py_range. now rewrite length_map, length_seq. Qed.

(** X1: [project_mortality] raises exactly when the mortality table is
    empty or has no row of the country, and what it raises then is a
    [ValueError]; in every other case it returns a frame.  (The [raise] of
    line 79 is therefore never reached.) *)
Theorem project_mortality_value_errors (self : PremiumForecaster) (s e : Z)
    (scenario : Scenario) (country : string) :
  (df_empty (mortality_df self) = true
   \/ ~ In country (map m_country (rows (mortality_df self))) ->
   exists msg, project_mortality self s e scenario country = Raise (ValueError msg))
  /\ (df_empty (mortality_df self) = false
      /\ In country (map m_country (rows (mortality_df self))) ->
      exists df, project_mortality self s e scenario country = Ok df).
Proof.
  split.
  - intros H. unfold project_mortality.
    destruct (df_empty (mortality_df self)) eqn:He; [eauto|].
    destruct H as [H|H]; [discriminate|].
    destruct (existsb _ _) eqn:Hc; [|cbn; eauto].
    apply existsb_eqb_In in Hc. contradiction.
  - intros [He Hc].
    destruct (project_mortality_exact self s e scenario country He Hc) as [l [_ Hp]].
    eauto.
Qed.

(** X2: the frame [project_mortality] returns holds, for each year of
    [start_year .. end_year] in ascending order, one record per source row
    of the country's latest year, each tagged with the country asked for;
    an empty range gives the frame without rows and without columns. *)
Theorem project_mortality_shape (self : PremiumForecaster) (s e : Z)
    (scenario : Scenario) (country : string) :
  df_empty (mortality_df self) = false ->
  In country (map m_country (rows (mortality_df self))) ->
  exists latest df,
    latest_year_of (mortality_df self) country = Some latest
    /\ project_mortality self s e scenario country = Ok df
    /\ map m_year (rows df)
       = flat_map (fun y => repeat y (List.length
                                        (latest_rows (mortality_df self) country latest)))
                  (py_range s (e + 1))
    /\ List.length (rows df)
       = (Z.to_nat (e + 1 - s)
          * List.length (latest_rows (mortality_df self) country latest))%nat
    /\ (forall rec, In rec (rows df) -> m_country rec = country)
    /\ (rows df <> [] ->
        columns df = mortality_columns (has_column "smoking_status" (mortality_df self)))
    /\ ((e < s)%Z -> df = mkDataFrame [] []).
Proof.
  intros He Hc.
  destruct (project_mortality_exact self s e scenario country He Hc) as [latest [Hl Hp]].
  exists latest. eexists. split; [exact Hl|]. split; [exact Hp|].
  rewrite rows_DataFrame_of_records. unfold projections.
  assert (Hy : map m_year
                 (flat_map
                    (fun year =>
                       map (projection_record scenario country
                              (has_column "smoking_status" (mortality_df self)) year latest)
                           (latest_rows (mortality_df self) country latest))
                    (py_range s (e + 1)))
               = flat_map (fun y => repeat y (List.length
                                                (latest_rows (mortality_df self) country
                                                             latest)))
                          (py_range s (e + 1))) by apply projections_years.
  split; [exact Hy|]. split; [|split; [|split]].
  - rewrite <- (length_map m_year), Hy, flat_map_repeat_length, py_range_length.
    reflexivity.
  - intros rec Hin. apply in_flat_map in Hin. destruct Hin as [y [_ Hin]].
    apply in_map_iff in Hin. destruct Hin as [row [<- _]]. reflexivity.
  - intros Hrows. destruct (flat_map _ _); [congruence | reflexivity].
  - intros Hes. unfold py_range. replace (Z.to_nat (e + 1 - s)) with 0%nat by lia.
    reflexivity.
Qed.

Lemma project_mortality_shape_witness :
  exists df,
    project_mortality (sample_forecaster 10 30) 2025 2027 base_case "India" = Ok df
    /\ map m_year (rows df) = [2025; 2025; 2026; 2026; 2027; 2027]%Z.
Proof.
  destruct (project_mortality_shape (sample_forecaster 10 30) 2025 2027 base_case "India")
    as [latest [df [Hl [Hp [Hy _]]]]].
  - reflexivity.
  - simpl. auto.
  - exists df. split; [exact Hp|]. rewrite Hy.
    pose proof Hl as Hl'. vm_compute in Hl'. injection Hl' as <-. reflexivity.
Defined.

(** X3: a record projected for the country's latest historical year itself
    ([years_ahead = 0]) holds the source row's mortality rate rounded to 4
    decimals and its life expectancy rounded to 2 decimals, whatever the
    scenario. *)
Theorem project_mortality_at_latest_year (self : PremiumForecaster) (s e : Z)
    (scenario : Scenario) (country : string) (df : DataFrame MortalityRow) (latest : Z) :
  project_mortality self s e scenario country = Ok df ->
  latest_year_of (mortality_df self) country = Some latest ->
  forall rec,
    In rec (rows df) -> m_year rec = latest ->
    exists row,
      In row (rows (mortality_df self)) /\ m_country row = country
      /\ m_year row = latest
      /\ m_gender rec = m_gender row /\ m_age rec = m_age row
      /\ m_mortality_rate rec = py_round (m_mortality_rate row) 4
      /\ m_life_expectancy rec = py_round (m_life_expectancy row) 2.
Proof.
  intros Hp Hl rec Hrec Hyr.
  destruct (project_mortality_Ok_inv _ _ _ _ _ _ Hp) as [Hne Hc].
  destruct (project_mortality_rows self s e scenario country Hne Hc)
    as [latest' [df' [Hl' [Hp' Hrows]]]].
  rewrite Hp in Hp'. injection Hp' as <-. rewrite Hl in Hl'. injection Hl' as <-.
  apply Hrows in Hrec. destruct Hrec as [row [Hin [Hco [Hy [_ Hrec]]]]].
  exists row. repeat split; try assumption; rewrite Hrec; cbn; try reflexivity.
  - apply py_round_comp. rewrite Hyr, Z.sub_diag. cbn [Qpower]. ring.
  - apply py_round_comp. rewrite Hyr, Z.sub_diag. ring.
Qed.

Lemma project_mortality_at_latest_year_witness :
  exists df rec,
    project_mortality (sample_forecaster 10 30) 2024 2025 (mkScenario "x" 9 9 40 "")
                      "India" = Ok df
    /\ In rec (rows df) /\ m_year rec = 2024%Z /\ m_age rec = 30%Z
    /\ m_mortality_rate rec == 1.2345.
Proof.
  destruct (project_mortality (sample_forecaster 10 30) 2024 2025
              (mkScenario "x" 9 9 40 "") "India") as [df|err] eqn:Hp;
    [|vm_compute in Hp; discriminate].
  pose proof Hp as Hp'. vm_compute in Hp'. injection Hp' as Hdf.
  assert (Hin : exists rec, In rec (rows df) /\ m_year rec = 2024%Z /\ m_age rec = 30%Z).
  { rewrite <- Hdf. eexists. split; [left; reflexivity|]. split; reflexivity. }
  destruct Hin as [rec [Hin [Hy Ha]]].
  destruct (project_mortality_at_latest_year _ _ _ _ _ df 2024%Z Hp eq_refl rec Hin Hy)
    as [row [Hrow [_ [Hry [_ [Hage [Hrate _]]]]]]].
  exists df, rec. split; [reflexivity|]. split; [exact Hin|]. split; [exact Hy|].
  split; [exact Ha|]. rewrite Hrate. rewrite Ha in Hage.
  destruct Hrow as [<-|[<-|[<-|[]]]]; cbn in Hry, Hage; try discriminate.
  vm_compute. reflexivity.
Defined.





(** X5: rows of other countries never influence a projection: two
    mortality tables with the same rows for the country, in the same order,
    and the same [smoking_status] column give the same result. *)
Theorem project_mortality_other_countries (self1 self2 : PremiumForecaster) (s e : Z)
    (scenario : Scenario) (country : string) :
  df_empty (mortality_df self1) = false ->
  df_empty (mortality_df self2) = false ->
  has_column "smoking_status" (mortality_df self1)
  = has_column "smoking_status" (mortality_df self2) ->
  filter (fun r => String.eqb (m_country r) country) (rows (mortality_df self1))
  = filter (fun r => String.eqb (m_country r) country) (rows (mortality_df self2)) ->
  project_mortality self1 s e scenario country
  = project_mortality self2 s e scenario country.
Proof.
  intros He1 He2 Hsm Hrows.
  assert (Hin : forall self, In country (map m_country (rows (mortality_df self))) <->
                             filter (fun r => String.eqb (m_country r) country)
                                    (rows (mortality_df self)) <> []).
  { intros self. split.
    - intros H E. apply in_map_iff in H. destruct H as [r [Hr H]].
      assert (H' : In r (filter (fun r => m_country r =? country)
                                (rows (mortality_df self)))).
      { apply filter_In. split; [exact H|]. rewrite Hr. apply String.eqb_refl. }
      rewrite E in H'. exact H'.
    - intros H.
      destruct (filter (fun r => m_country r =? country) (rows (mortality_df self)))
        as [|r l] eqn:E; [congruence|].
      assert (H' : In r (filter (fun r => m_country r =? country)
                                (rows (mortality_df self)))) by (rewrite E; now left).
      apply filter_In in H'. destruct H' as [H' Hc]. apply String.eqb_eq in Hc.
      apply in_map_iff. eauto. }
  destruct (in_dec string_dec country (map m_country (rows (mortality_df self1))))
    as [Hc1|Hc1].
  - assert (Hc2 : In country (map m_country (rows (mortality_df self2)))).
    { apply Hin. rewrite <- Hrows. now apply Hin. }
    destruct (project_mortality_exact self1 s e scenario country He1 Hc1)
      as [l1 [Hl1 Hp1]].
    destruct (project_mortality_exact self2 s e scenario country He2 Hc2)
      as [l2 [Hl2 Hp2]].
    unfold latest_year_of in Hl1, Hl2. rewrite Hrows, Hl2 in Hl1. injection Hl1 as <-.
    rewrite Hp1, Hp2, Hsm. do 3 f_equal. unfold latest_rows.
    rewrite <- !filter_filter_and. now rewrite Hrows.
  - assert (Hc2 : ~ In country (map m_country (rows (mortality_df self2)))).
    { intros H. apply Hc1. apply Hin. rewrite Hrows. now apply Hin. }
    unfold project_mortality. rewrite He1, He2.
    destruct (existsb (String.eqb country) (map m_country (rows (mortality_df self1))))
      eqn:E1; [apply existsb_eqb_In in E1; contradiction|].
    destruct (existsb (String.eqb country) (map m_country (rows (mortality_df self2))))
      eqn:E2; [apply existsb_eqb_In in E2; contradiction|].
    reflexivity.
Qed.

Lemma project_mortality_other_countries_witness :
  project_mortality (sample_forecaster 10 30) 2025 2026 base_case "India"
  = project_mortality
      (init (mkDataFrame (mortality_columns true)
               (mkMortalityRow 2030 "Nepal" "Male" 30 "Smoker" 3.1 40.0
                :: rows sample_mortality))
            sample_economic sample_base_premium (sample_demographic 10 30))
      2025 2026 base_case "India".
Proof.
  apply project_mortality_other_countries; reflexivity.
Defined.

(** ** Economic projector: the frame it returns *)

(** A loop whose body always returns: the loop returns, with one result
    per element. *)
Lemma for_each_returns `{np : Numpy} {A B : Type} (body : A -> M B) (P : A -> B -> Prop)
    (xs : list A) :
  (forall x g, exists y, fst (body x g) = Ok y /\ P x y) ->
  forall g, exists ys, fst (for_each body xs g) = Ok ys /\ Forall2 P xs ys.
Proof.
  intros Hbody. induction xs as [|x xs IH]; intros g.
  - exists []. split; [reflexivity | constructor].
  - cbn [for_each]. unfold bind at 1.
    destruct (Hbody x g) as [y [Hy HP]].
    destruct (body x g) as [r g1]. cbn [fst] in Hy. subst r. unfold bind at 1.
    destruct (IH g1) as [ys [Hys HF]].
    destruct (for_each body xs g1) as [r g2]. cbn [fst] in Hys. subst r.
    exists (y :: ys). split; [reflexivity | now constructor].
Qed.

Lemma py_max_nan_ge (a : Q) (b : option Q) : a <= py_max_nan a b.
Proof.
  destruct b as [b|]; cbn; [|lra]. unfold py_max.
  destruct (Qlt_le_dec a b); lra.
Qed.

Lemma project_economics_unfold `{np : Numpy} (self : PremiumForecaster) (s e : Z)
    (scenario : Scenario) (country : string) (g : rng_state) :
  fst (project_economics self s e scenario country g)
  = match fst (for_each (economics_record (fst (latest_economics self country))
                                          (snd (latest_economics self country))
                                          scenario country)
                        (py_range s (e + 1)) (np_random_seed 42)) with
    | Ok records => Ok (DataFrame_of_records economic_columns records)
    | Raise err => Raise err
    end.
Proof.
  unfold project_economics.
  destruct (latest_economics self country) as [latest_year latest_data].
  unfold bind at 1. unfold seed. cbn [fst snd]. unfold bind at 1.
  destruct (for_each _ _ _) as [[records|err] g1]; reflexivity.
Qed.

(** The records of the loop, year by year. *)
Lemma project_economics_records `{np : Numpy} (self : PremiumForecaster) (s e : Z)
    (scenario : Scenario) (country : string) (g : rng_state) :
  exists records,
    fst (project_economics self s e scenario country g)
    = Ok (DataFrame_of_records economic_columns records)
    /\ Forall2 (fun y r => e_year r = y /\ e_country r = country
                           /\ 0.5 <= e_inflation_rate r /\ 0.5 <= e_interest_rate r)
               (py_range s (e + 1)) records.
Proof.
  rewrite project_economics_unfold.
  destruct (for_each_returns
              (economics_record (fst (latest_economics self country))
                                (snd (latest_economics self country)) scenario country)
              (fun y r => e_year r = y /\ e_country r = country
                          /\ 0.5 <= e_inflation_rate r /\ 0.5 <= e_interest_rate r)
              (py_range s (e + 1))) with (g := np_random_seed 42) as [records [Hr HF]].
  - intros y g0. eexists. split; [reflexivity|].
    cbn [e_year e_country e_inflation_rate e_interest_rate].
    assert (H05 : 0.5 == py_round 0.5 2) by (vm_compute; reflexivity).
    repeat split; rewrite H05 at 1; apply py_round_mono, py_max_nan_ge.
  - rewrite Hr. eauto.
Qed.

Lemma Forall2_map_l {A B : Type} (f : B -> A) (P : A -> B -> Prop) (xs : list A)
    (ys : list B) :
  Forall2 P xs ys -> (forall x y, P x y -> f y = x) -> map f ys = xs.
Proof.
  intros HF Hf. induction HF as [|x y xs ys Hxy _ IH]; cbn; [reflexivity|].
  now rewrite (Hf _ _ Hxy), IH.
Qed.

Lemma Forall2_In_r {A B : Type} (P : A -> B -> Prop) (xs : list A) (ys : list B) (y : B) :
  Forall2 P xs ys -> In y ys -> exists x, In x xs /\ P x y.
Proof.
  intros HF. induction HF as [|x y' xs ys Hxy _ IH]; intros Hin; [destruct Hin|].
  destruct Hin as [<-|Hin].
  - exists x. split; [now left | exact Hxy].
  - destruct (IH Hin) as [x' [Hx' HP]]. exists x'. split; [now right | exact HP].
Qed.

Lemma inflation_factor_ge_1 (l : list EconomicRow) (a : Q) :
  (forall r, In r l -> 0 <= e_inflation_rate r) -> 1 <= a ->
  1 <= fold_left (fun cumulative econ_row =>
                    cumulative * (1 + e_inflation_rate econ_row / 100)) l a.
Proof.
  revert a. induction l as [|x l IH]; intros a Hl Ha; cbn [fold_left]; [exact Ha|].
  apply IH; [intros r Hr; apply Hl; now right|].
  assert (Hx : 0 <= e_inflation_rate x) by (apply Hl; now left).
  assert (Hx' : 0 <= e_inflation_rate x / 100)
    by (apply Qle_shift_div_l; [reflexivity | lra]).
  nra.
Qed.

(** X6: whatever the tables and whatever numpy draws, [project_economics]
    returns one record per year of [start_year .. end_year], in ascending
    order, tagged with the country asked for, and with an inflation rate
    and an interest rate of at least 0.5.  The cumulative inflation factor
    [calculate_premiums] compounds from such a projection is therefore
    never below 1, for any year and base year. *)
Theorem project_economics_floor :
  forall (np : Numpy) (self : PremiumForecaster) (s e : Z) (scenario : Scenario)
         (country : string) (g : rng_state),
  exists df,
    fst (project_economics self s e scenario country g) = Ok df
    /\ map e_year (rows df) = py_range s (e + 1)
    /\ (forall r, In r (rows df) ->
                  e_country r = country
                  /\ 0.5 <= e_inflation_rate r /\ 0.5 <= e_interest_rate r)
    /\ forall year base_year, 1 <= cumulative_inflation year base_year (Some df).
Proof.
  intros np self s e scenario country g.
  destruct (project_economics_records self s e scenario country g) as [records [Hr HF]].
  rewrite Hr. eexists. split; [reflexivity|].
  rewrite rows_DataFrame_of_records.
  assert (Hrows : forall r, In r records ->
                    e_country r = country
                    /\ 0.5 <= e_inflation_rate r /\ 0.5 <= e_interest_rate r).
  { intros r Hin. destruct (Forall2_In_r _ _ _ _ HF Hin) as [y [_ HP]]. tauto. }
  split; [|split].
  - apply (Forall2_map_l _ _ _ _ HF). tauto.
  - exact Hrows.
  - intros year base_year. unfold cumulative_inflation.
    destruct (year - base_year >? 0)%Z; [|lra].
    apply inflation_factor_ge_1; [|lra].
    intros r Hr'. apply (Permutation_in _ (Permutation_sym (sort_values_year_perm _))) in Hr'.
    apply filter_In in Hr'. destruct Hr' as [Hr' _].
    rewrite rows_DataFrame_of_records in Hr'. apply Hrows in Hr'. lra.
Qed.

(** X7: with an empty historical economic table the latest year is NaN,
    and every projected inflation rate and interest rate is the floor 0.5. *)
Theorem project_economics_empty_table :
  forall (np : Numpy) (self : PremiumForecaster) (s e : Z) (scenario : Scenario)
         (country : string) (g : rng_state),
    rows (economic_df self) = [] ->
    exists df,
      fst (project_economics self s e scenario country g) = Ok df
      /\ map e_year (rows df) = py_range s (e + 1)
      /\ forall r, In r (rows df) ->
                   e_inflation_rate r == 0.5 /\ e_interest_rate r == 0.5.
Proof.
  intros np self s e scenario country g Hrows.
  rewrite project_economics_unfold.
  assert (Hl : latest_economics self country = (None, mkIndicators 5.0 6.5 6.5)).
  { unfold latest_economics. rewrite Hrows. reflexivity. }
  rewrite Hl. cbn [fst snd].
  destruct (for_each_returns
              (economics_record None (mkIndicators 5.0 6.5 6.5) scenario country)
              (fun y r => e_year r = y
                          /\ e_inflation_rate r == 0.5 /\ e_interest_rate r == 0.5)
              (py_range s (e + 1))) with (g := np_random_seed 42) as [records [Hr HF]].
  - intros y g0. eexists. split; [reflexivity|].
    cbn [e_year e_inflation_rate e_interest_rate option_map py_max_nan].
    repeat split; vm_compute; reflexivity.
  - rewrite Hr. eexists. split; [reflexivity|].
    rewrite rows_DataFrame_of_records. split.
    + clear Hr. induction HF as [|y r ys rs [Hy _] _ IH]; cbn; [reflexivity|].
      now rewrite Hy, IH.
    + intros r Hin. clear Hr.
      induction HF as [|y r' ys rs Hyr _ IH]; [destruct Hin|].
      destruct Hin as [<-|Hin]; [tauto | now apply IH].
Qed.

Lemma project_economics_empty_table_witness :
  exists df,
    fst (@project_economics stand_in_numpy
           (init sample_mortality (mkDataFrame economic_columns []) sample_base_premium
                 (sample_demographic 10 30))
           2025 2026 base_case "India" 3%Z)
    = Ok df
    /\ map e_year (rows df) = [2025; 2026]%Z
    /\ forall r, In r (rows df) -> e_inflation_rate r == 0.5 /\ e_interest_rate r == 0.5.
Proof.
  destruct (project_economics_empty_table stand_in_numpy
              (init sample_mortality (mkDataFrame economic_columns []) sample_base_premium
                    (sample_demographic 10 30))
              2025 2026 base_case "India" 3%Z eq_refl) as [df [Hp [Hy Hr]]].
  exists df. split; [exact Hp|]. split; [exact Hy | exact Hr].
Defined.

Lemma economics_record_gdp `{np : Numpy} (latest1 latest2 : option Z)
    (data1 data2 : Indicators) (scenario1 scenario2 : Scenario)
    (country1 country2 : string) (y : Z) (g : rng_state) :
  inflation_base scenario1 = inflation_base scenario2 ->
  snd (economics_record latest1 data1 scenario1 country1 y g)
  = snd (economics_record latest2 data2 scenario2 country2 y g)
  /\ exists r1 r2,
       fst (economics_record latest1 data1 scenario1 country1 y g) = Ok r1
       /\ fst (economics_record latest2 data2 scenario2 country2 y g) = Ok r2
       /\ e_gdp_growth r1 = e_gdp_growth r2.
Proof.
  intros Hbase. split; [reflexivity|]. eexists. eexists.
  split; [reflexivity|]. split; [reflexivity|].
  cbn [e_gdp_growth]. now rewrite Hbase.
Qed.

Lemma economics_records_gdp `{np : Numpy} (latest1 latest2 : option Z)
    (data1 data2 : Indicators) (scenario1 scenario2 : Scenario)
    (country1 country2 : string) (years : list Z) :
  inflation_base scenario1 = inflation_base scenario2 ->
  forall g,
    snd (for_each (economics_record latest1 data1 scenario1 country1) years g)
    = snd (for_each (economics_record latest2 data2 scenario2 country2) years g)
    /\ exists rs1 rs2,
         fst (for_each (economics_record latest1 data1 scenario1 country1) years g)
         = Ok rs1
         /\ fst (for_each (economics_record latest2 data2 scenario2 country2) years g)
            = Ok rs2
         /\ map e_gdp_growth rs1 = map e_gdp_growth rs2.
Proof.
  intros Hbase. induction years as [|y years IH]; intros g.
  - split; [reflexivity|]. exists [], []. repeat split.
  - cbn [for_each]. unfold bind.
    destruct (economics_record_gdp latest1 latest2 data1 data2 scenario1 scenario2
                country1 country2 y g Hbase) as [Hs [r1 [r2 [H1 [H2 Hg]]]]].
    destruct (economics_record latest1 data1 scenario1 country1 y g) as [o1 g1].
    destruct (economics_record latest2 data2 scenario2 country2 y g) as [o2 g2].
    cbn [fst snd] in Hs, H1, H2. subst o1 o2 g2.
    destruct (IH g1) as [Hs' [rs1 [rs2 [H1' [H2' Hg']]]]].
    destruct (for_each (economics_record latest1 data1 scenario1 country1) years g1)
      as [o1 g1'].
    destruct (for_each (economics_record latest2 data2 scenario2 country2) years g1)
      as [o2 g2'].
    cbn [fst snd] in Hs', H1', H2'. subst o1 o2 g2'. cbn [ret fst snd].
    split; [reflexivity|]. eexists. eexists. split; [reflexivity|].
    split; [reflexivity|]. cbn [map]. now rewrite Hg, Hg'.
Qed.

(** X8: the projected GDP growth depends on the scenario's
    [inflation_base] and on the years asked for, and on nothing else: not
    on the historical table, the country, the other scenario parameters or
    the state of the generator at the call. *)
Theorem project_economics_gdp :
  forall (np : Numpy) (self1 self2 : PremiumForecaster) (s e : Z)
         (scenario1 scenario2 : Scenario) (country1 country2 : string)
         (g1 g2 : rng_state),
    inflation_base scenario1 = inflation_base scenario2 ->
    exists df1 df2,
      fst (project_economics self1 s e scenario1 country1 g1) = Ok df1
      /\ fst (project_economics self2 s e scenario2 country2 g2) = Ok df2
      /\ map e_gdp_growth (rows df1) = map e_gdp_growth (rows df2).
Proof.
  intros np self1 self2 s e scenario1 scenario2 country1 country2 g1 g2 Hbase.
  rewrite !project_economics_unfold.
  destruct (economics_records_gdp
              (fst (latest_economics self1 country1)) (fst (latest_economics self2 country2))
              (snd (latest_economics self1 country1)) (snd (latest_economics self2 country2))
              scenario1 scenario2 country1 country2 (py_range s (e + 1)) Hbase
              (np_random_seed 42)) as [_ [rs1 [rs2 [H1 [H2 Hg]]]]].
  rewrite H1, H2. eexists. eexists. split; [reflexivity|]. split; [reflexivity|].
  now rewrite !rows_DataFrame_of_records.
Qed.

Lemma project_economics_gdp_witness :
  exists df1 df2,
    fst (@project_economics stand_in_numpy (sample_forecaster 10 30) 2025 2027
           base_case "India" 3%Z) = Ok df1
    /\ fst (@project_economics stand_in_numpy
              (init sample_mortality (mkDataFrame economic_columns []) sample_base_premium
                    (sample_demographic 0 0))
              2025 2027 (mkScenario "other" 5.0 9.9 0.1 "") "Nepal" 8%Z) = Ok df2
    /\ map e_gdp_growth (rows df1) = map e_gdp_growth (rows df2).
Proof.
  apply (project_economics_gdp stand_in_numpy). reflexivity.
Defined.

(** ** Premium calculator: when it returns and what it returns *)

Lemma collect_returns {A B : Type} (body : A -> result (option B)) (xs : list A) :
  (forall x, In x xs -> exists o, body x = Ok o) -> exists out, collect body xs = Ok out.
Proof.
  induction xs as [|x xs IH]; intros H; [exists []; reflexivity|].
  destruct (H x (or_introl eq_refl)) as [o Ho].
  destruct IH as [out Hout]; [intros x' Hx'; apply H; now right|].
  cbn [collect]. rewrite Ho. cbn [rbind]. rewrite Hout. cbn [rbind]. eauto.
Qed.

Lemma collect_length {A B : Type} (body : A -> result (option B)) (xs : list A)
    (out : list B) :
  collect body xs = Ok out -> (List.length out <= List.length xs)%nat.
Proof.
  revert out. induction xs as [|x xs IH]; intros out; cbn [collect].
  - intros [= <-]. reflexivity.
  - intros H. inv_rbind H as o Ho. inv_rbind H as rs Hrs. injection H as <-.
    specialize (IH rs Hrs). destruct o; cbn [List.length]; lia.
Qed.

(** The first row of a non-empty economic table at its latest year. *)
Lemma base_year_row (rows_ : list EconomicRow) :
  rows_ <> [] ->
  exists base_year row rest,
    series_max (map e_year rows_) = Some base_year
    /\ filter (fun r => eq_nan (e_year r) (Some base_year)) rows_ = row :: rest.
Proof.
  intros Hne.
  destruct (series_max (map e_year rows_)) as [m|] eqn:Hm.
  - exists m. pose proof Hm as Hm'. apply series_max_spec in Hm'.
    destruct Hm' as [Hin _]. apply in_map_iff in Hin. destruct Hin as [r [Hr Hin]].
    destruct (filter (fun r => eq_nan (e_year r) (Some m)) rows_) as [|row rest] eqn:Hf.
    + assert (H : In r (filter (fun r => eq_nan (e_year r) (Some m)) rows_)).
      { apply filter_In. split; [exact Hin|]. cbn. now apply Z.eqb_eq. }
      rewrite Hf in H. destruct H.
    + eauto.
  - destruct rows_; [congruence | discriminate].
Qed.

Lemma premium_record_returns (self : PremiumForecaster) (year : Z) (country : string)
    (ym : DataFrame MortalityRow) (ep : DataFrame EconomicRow) (ye : EconomicRow)
    (full : option (DataFrame EconomicRow)) (b : BasePremiumRow) :
  rows (economic_df self) <> [] ->
  exists o, premium_record self year country ym ep ye full b = Ok o.
Proof.
  intros Hne. destruct (base_year_row _ Hne) as [m [row [rest [Hm Hf]]]].
  unfold premium_record. rewrite Hm, Hf.
  destruct (mortality_match self ym b); [eauto|].
  destruct (per_unit_of self b); eauto.
Qed.



(** X10: with an empty historical economic table, a call that passes the
    two checks raises [IndexError] as soon as one base premium row of the
    country has a mortality match and a premium column, and returns a frame
    when no row has. *)
Theorem calculate_premiums_index_error (self : PremiumForecaster) (year : Z)
    (mortality_proj : DataFrame MortalityRow) (economic_proj : DataFrame EconomicRow)
    (country : string) (full : option (DataFrame EconomicRow)) :
  rows (economic_df self) = [] ->
  df_empty mortality_proj || negb (has_column "year" mortality_proj) = false ->
  df_empty (df_filter (fun r => (e_year r =? year)%Z) economic_proj) = false ->
  let year_mortality := df_filter (fun r => (m_year r =? year)%Z) mortality_proj in
  let priced := fun b =>
    negb (match mortality_match self year_mortality b with [] => true | _ => false end)
    && is_some (per_unit_of self b) in
  (existsb priced
           (filter (fun b => String.eqb (b_country b) country)
                   (rows (base_premium_df self))) = true ->
   exists msg,
     calculate_premiums self year mortality_proj economic_proj country full
     = Raise (IndexError msg))
  /\ (existsb priced
              (filter (fun b => String.eqb (b_country b) country)
                      (rows (base_premium_df self))) = false ->
      calculate_premiums self year mortality_proj economic_proj country full
      = Ok (mkDataFrame [] [])).
Proof.
  intros Hrows Hmp Hec year_mortality priced. unfold calculate_premiums.
  rewrite Hmp, Hec.
  destruct (rows (df_filter _ economic_proj)) as [|ye rest] eqn:Hr.
  { apply df_empty_false_rows in Hec. congruence. }
  fold year_mortality.
  set (body := premium_record self year country year_mortality economic_proj ye full).
  assert (Hbody : forall b,
            body b = if priced b
                     then Raise (IndexError "single positional indexer is out-of-bounds")
                     else Ok None).
  { intros b. unfold body, premium_record, priced. rewrite Hrows. cbn [map series_max].
    destruct (mortality_match self year_mortality b); [reflexivity|].
    destruct (per_unit_of self b); reflexivity. }
  set (cells := filter (fun b => b_country b =? country) (rows (base_premium_df self))).
  split.
  - intros Hex.
    assert (H : collect body cells
                = Raise (IndexError "single positional indexer is out-of-bounds")).
    { induction cells as [|b cells IH]; [discriminate|].
      cbn [existsb] in Hex. cbn [collect]. rewrite Hbody.
      destruct (priced b); [reflexivity|]. cbn [rbind]. rewrite IH by exact Hex.
      reflexivity. }
    rewrite H. cbn [rbind]. eauto.
  - intros Hex.
    assert (H : collect body cells = Ok []).
    { induction cells as [|b cells IH]; [reflexivity|].
      cbn [existsb] in Hex. apply orb_false_iff in Hex. destruct Hex as [Hb Hex].
      cbn [collect]. rewrite Hbody, Hb. cbn [rbind]. rewrite IH by exact Hex.
      reflexivity. }
    rewrite H. reflexivity.
Qed.

Lemma calculate_premiums_index_error_witness :
  exists msg,
    calculate_premiums
      (init sample_mortality (mkDataFrame economic_columns []) sample_base_premium
            (sample_demographic 10 30))
      2025
      (mkDataFrame (mortality_columns true)
         [mkMortalityRow 2025 "India" "Male" 30 "Non-Smoker" 1.216 45.52])
      synthetic_economic "India" None
    = Raise (IndexError msg).
Proof.
  destruct (calculate_premiums_index_error
              (init sample_mortality (mkDataFrame economic_columns []) sample_base_premium
                    (sample_demographic 10 30))
              2025
              (mkDataFrame (mortality_columns true)
                 [mkMortalityRow 2025 "India" "Male" 30 "Non-Smoker" 1.216 45.52])
              synthetic_economic "India" None eq_refl eq_refl eq_refl) as [H _].
  apply H. reflexivity.
Defined.

Lemma premium_record_Some_inv (self : PremiumForecaster) (year : Z) (country : string)
    (ym : DataFrame MortalityRow) (ep : DataFrame EconomicRow) (ye : EconomicRow)
    (full : option (DataFrame EconomicRow)) (b : BasePremiumRow) (p : PremiumRow) :
  premium_record self year country ym ep ye full b = Ok (Some p) ->
  exists m rest,
    mortality_match self ym b = m :: rest
    /\ p_year p = year /\ p_country p = country
    /\ p_gender p = b_gender b /\ p_age p = b_age b
    /\ p_policy_type p = b_policy_type b
    /\ p_group p = (if has_column "group" (base_premium_df self)
                    then b_group b else "Individual")
    /\ p_mortality_rate p = m_mortality_rate m
    /\ p_life_expectancy p = m_life_expectancy m
    /\ p_inflation_rate p = e_inflation_rate ye
    /\ p_interest_rate p = e_interest_rate ye.
Proof.
  unfold premium_record.
  destruct (mortality_match self ym b) as [|m rest]; [discriminate|].
  destruct (per_unit_of self b); [|discriminate].
  destruct (series_max _); [|discriminate].
  destruct (filter _ (rows (economic_df self))); [discriminate|].
  intros [= <-]. exists m, rest. cbn. repeat split.
Qed.

(** X11: every record of a frame [calculate_premiums] returns pairs one
    base premium row of the country with a mortality projection of the
    same year, age and gender and with the economic projection of that
    year: it carries the year and country asked for, the row's gender, age
    and policy type (and its group, "Individual" when the table has no
    [group] column), and the projection's rates unchanged.  There are at
    most as many records as base premium rows of the country. *)
Theorem calculate_premiums_records (self : PremiumForecaster) (year : Z)
    (mortality_proj : DataFrame MortalityRow) (economic_proj : DataFrame EconomicRow)
    (country : string) (full : option (DataFrame EconomicRow))
    (out : DataFrame PremiumRow) :
  calculate_premiums self year mortality_proj economic_proj country full = Ok out ->
  (List.length (rows out)
   <= List.length (filter (fun b => String.eqb (b_country b) country)
                          (rows (base_premium_df self))))%nat
  /\ forall p, In p (rows out) ->
       p_year p = year /\ p_country p = country
       /\ (exists b, In b (rows (base_premium_df self))
                     /\ b_country b = country
                     /\ p_gender p = b_gender b /\ p_age p = b_age b
                     /\ p_policy_type p = b_policy_type b
                     /\ p_group p = (if has_column "group" (base_premium_df self)
                                     then b_group b else "Individual"))
       /\ (exists m, In m (rows mortality_proj)
                     /\ m_year m = year /\ m_age m = p_age p /\ m_gender m = p_gender p
                     /\ p_mortality_rate p = m_mortality_rate m
                     /\ p_life_expectancy p = m_life_expectancy m)
       /\ (exists ye, In ye (rows economic_proj)
                      /\ e_year ye = year
                      /\ p_inflation_rate p = e_inflation_rate ye
                      /\ p_interest_rate p = e_interest_rate ye).
Proof.
  unfold calculate_premiums.
  destruct (df_empty mortality_proj || negb (has_column "year" mortality_proj));
    [discriminate|].
  destruct (df_empty (df_filter _ economic_proj)); [discriminate|].
  destruct (rows (df_filter _ economic_proj)) as [|ye rest] eqn:Hye; [discriminate|].
  intros H. inv_rbind H as premiums Hc. injection H as <-.
  rewrite rows_DataFrame_of_records. split; [eapply collect_length; exact Hc|].
  intros p Hp. apply collect_Ok_inv in Hc. destruct Hc as [_ Hc].
  apply Hc in Hp. destruct Hp as [b [Hb Hrec]].
  apply filter_In in Hb. destruct Hb as [Hb Hcountry]. apply String.eqb_eq in Hcountry.
  apply premium_record_Some_inv in Hrec.
  destruct Hrec as [m [mrest [Hm [Hy [Hco [Hg [Ha [Hpt [Hgr [Hmr [Hle [Hinf Hint]]]]]]]]]]]].
  assert (Hmin : In m (mortality_match self
                         (df_filter (fun r => (m_year r =? year)%Z) mortality_proj) b))
    by (rewrite Hm; now left).
  unfold mortality_match in Hmin. apply filter_In in Hmin. destruct Hmin as [Hmin Hkey].
  cbn [rows df_filter] in Hmin. apply filter_In in Hmin. destruct Hmin as [Hmin Hmy].
  apply Z.eqb_eq in Hmy.
  apply andb_true_iff in Hkey. destruct Hkey as [Hkey _].
  apply andb_true_iff in Hkey. destruct Hkey as [Hage Hgender].
  apply Z.eqb_eq in Hage. apply String.eqb_eq in Hgender.
  assert (Hyein : In ye (rows (df_filter (fun r => (e_year r =? year)%Z) economic_proj)))
    by (rewrite Hye; now left).
  cbn [rows df_filter] in Hyein. apply filter_In in Hyein. destruct Hyein as [Hyein Hyey].
  apply Z.eqb_eq in Hyey.
  split; [exact Hy|]. split; [exact Hco|]. split; [|split].
  - exists b. tauto.
  - exists m. rewrite Ha, Hg. tauto.
  - exists ye. tauto.
Qed.

Lemma calculate_premiums_records_witness :
  exists out,
    calculate_premiums (sample_forecaster 10 30) 2025
      (mkDataFrame (mortality_columns true)
         [mkMortalityRow 2025 "India" "Male" 30 "Non-Smoker" 1.216 45.52])
      synthetic_economic "India" None
    = Ok out
    /\ (List.length (rows out) <= 2)%nat
    /\ forall p, In p (rows out) -> p_year p = 2025%Z /\ p_country p = "India".
Proof.
  destruct (calculate_premiums (sample_forecaster 10 30) 2025
              (mkDataFrame (mortality_columns true)
                 [mkMortalityRow 2025 "India" "Male" 30 "Non-Smoker" 1.216 45.52])
              synthetic_economic "India" None) as [out|err] eqn:Hc;
    [|vm_compute in Hc; discriminate].
  exists out. split; [reflexivity|].
  destruct (calculate_premiums_records _ _ _ _ _ _ _ Hc) as [Hlen Hrec].
  split; [exact Hlen|]. intros p Hp. destruct (Hrec p Hp) as [Hy [Hco _]]. now split.
Defined.

(** X12: when no driver has changed, the premium is the base rate.  For a
    year not after the base year of the economic table, a projected
    mortality rate and life expectancy equal to those of the base cell
    (whose mortality rate is not zero), and an interest rate and GDP growth
    equal to those of the base year, the recorded premium per unit is the
    base row's premium per unit rounded to 2 decimals. *)
Theorem premium_unchanged_at_base_conditions (self : PremiumForecaster) (year : Z)
    (country : string) (year_mortality : DataFrame MortalityRow)
    (economic_proj : DataFrame EconomicRow) (year_economic : EconomicRow)
    (full : option (DataFrame EconomicRow)) (base_row : BasePremiumRow)
    (mortality_row : MortalityRow) (rest : list MortalityRow) (premium_per_unit : Q)
    (base_year : Z) (base_year_economic : EconomicRow) (rest' : list EconomicRow)
    (base : MortalityRow) (rest'' : list MortalityRow) :
  mortality_match self year_mortality base_row = mortality_row :: rest ->
  per_unit_of self base_row = Some premium_per_unit ->
  series_max (map e_year (rows (economic_df self))) = Some base_year ->
  filter (fun r => eq_nan (e_year r) (Some base_year)) (rows (economic_df self))
  = base_year_economic :: rest' ->
  base_cell self country base_row = base :: rest'' ->
  (year <= base_year)%Z ->
  ~ m_mortality_rate base == 0 ->
  m_mortality_rate mortality_row == m_mortality_rate base ->
  m_life_expectancy mortality_row == m_life_expectancy base ->
  e_interest_rate year_economic == e_interest_rate base_year_economic ->
  (if has_column "gdp_growth" economic_proj then e_gdp_growth year_economic else 6.0)
  == (if has_column "gdp_growth" (economic_df self)
      then e_gdp_growth base_year_economic else 6.0) ->
  recorded_premium
    (premium_record self year country year_mortality economic_proj year_economic full
                    base_row)
  = Ok (Some (py_round premium_per_unit 2)).
Proof.
  intros Hm Hp Hy He Hb Hyear Hnz Hrate Hlife Hint Hgdp.
  rewrite (premium_record_formula _ _ _ _ _ _ _ _ _ _ _ _ _ _ _ _ Hm Hp Hy He Hb).
  do 2 f_equal. apply py_round_comp.
  rewrite (cumulative_inflation_before_base _ _ _ Hyear).
  set (gy := if has_column "gdp_growth" economic_proj then _ else _) in *.
  set (gb := if has_column "gdp_growth" (economic_df self) then _ else _) in *.
  unfold longevity_adj.
  destruct (b_policy_type base_row =? "Term Life")%string;
    rewrite Hgdp, Hint, Hrate, Hlife; field; exact Hnz.
Qed.

Lemma premium_unchanged_at_base_conditions_witness :
  recorded_premium
    (premium_record (sample_forecaster 10 30) 2024 "India"
       (mkDataFrame (mortality_columns true)
          [mkMortalityRow 2024 "India" "Male" 30 "Non-Smoker" 1.2345 45.5])
       (mkDataFrame economic_columns [mkEconomicRow 2024 "India" 5.0 6.5 6.5])
       (mkEconomicRow 2024 "India" 5.0 6.5 6.5) None
       (mkBasePremiumRow "India" "Individual" "Male" 30 "Term Life" "Non-Smoker" 50 0))
  = Ok (Some (py_round 50 2)).
Proof.
  apply (premium_unchanged_at_base_conditions (sample_forecaster 10 30) 2024 "India"
            (mkDataFrame (mortality_columns true)
               [mkMortalityRow 2024 "India" "Male" 30 "Non-Smoker" 1.2345 45.5])
            (mkDataFrame economic_columns [mkEconomicRow 2024 "India" 5.0 6.5 6.5])
            (mkEconomicRow 2024 "India" 5.0 6.5 6.5) None
            (mkBasePremiumRow "India" "Individual" "Male" 30 "Term Life" "Non-Smoker" 50 0)
            (mkMortalityRow 2024 "India" "Male" 30 "Non-Smoker" 1.2345 45.5) [] 50 2024
            (mkEconomicRow 2024 "India" 5.0 6.5 6.5) []
            (mkMortalityRow 2024 "India" "Male" 30 "Non-Smoker" 1.2345 45.5) []).
  - reflexivity.
  - reflexivity.
  - reflexivity.
  - reflexivity.
  - reflexivity.
  - lia.
  - cbn. intros H. discriminate H.
  - reflexivity.
  - reflexivity.
  - reflexivity.
  - reflexivity.
Defined.

(** ** Aggregator: how a forecast fails *)

Lemma scenarios_getitem_missing (d : list (string * Scenario)) (key : string) :
  ~ In key (map fst d) -> scenarios_getitem d key = Raise (KeyError key).
Proof.
  induction d as [|[k v] d IH]; cbn [scenarios_getitem map fst]; [reflexivity|].
  intros H. destruct (String.eqb_spec k key) as [->|Hk].
  - exfalso. apply H. now left.
  - apply IH. intros Hin. apply H. now right.
Qed.

Lemma scenarios_getitem_present (d : list (string * Scenario)) (key : string) :
  In key (map fst d) -> exists scenario, scenarios_getitem d key = Ok scenario.
Proof.
  induction d as [|[k v] d IH]; cbn [scenarios_getitem map fst]; [intros []|].
  intros H. destruct (String.eqb_spec k key) as [->|Hk]; [eauto|].
  destruct H as [H|H]; [contradiction | now apply IH].
Qed.

Lemma project_mortality_raises (self : PremiumForecaster) (s e : Z)
    (scenario : Scenario) (country : string) :
  df_empty (mortality_df self) = true
  \/ ~ In country (map m_country (rows (mortality_df self))) ->
  exists msg, project_mortality self s e scenario country = Raise (ValueError msg).
Proof.
  intros H. unfold project_mortality.
  destruct (df_empty (mortality_df self)) eqn:He; [eauto|].
  destruct H as [H|H]; [discriminate|].
  destruct (existsb _ _) eqn:Hc; [|cbn; eauto].
  apply existsb_eqb_In in Hc. contradiction.
Qed.

(** X13: a forecast for a scenario name that is not in the registry raises
    [KeyError] with that name; for a registered scenario and an empty
    mortality table, or a country the table has no row of, it raises
    [ValueError].  In both cases numpy's generator is left as it was: the
    failure comes before [project_economics] seeds it. *)
Theorem forecast_unknown_inputs :
  forall (np : Numpy) (self : PremiumForecaster) (s e : Z)
         (scenario_name country : string) (filters : option Filters) (g : rng_state),
    (~ In scenario_name (map fst (scenarios self)) ->
     forecast_average_premium self s e scenario_name country filters g
     = (Raise (KeyError scenario_name), g))
    /\ (In scenario_name (map fst (scenarios self)) ->
        df_empty (mortality_df self) = true
        \/ ~ In country (map m_country (rows (mortality_df self))) ->
        exists msg,
          forecast_average_premium self s e scenario_name country filters g
          = (Raise (ValueError msg), g)).
Proof.
  intros np self s e scenario_name country filters g. split.
  - intros H. unfold forecast_average_premium, bind, lift.
    now rewrite (scenarios_getitem_missing _ _ H).
  - intros Hin H. destruct (scenarios_getitem_present _ _ Hin) as [scenario Hs].
    destruct (project_mortality_raises self s e scenario country H) as [msg Hm].
    exists msg. unfold forecast_average_premium, bind, lift. now rewrite Hs, Hm.
Qed.

Lemma forecast_empty_range_raises `{np : Numpy} (self : PremiumForecaster) (s e : Z)
    (scenario_name country : string) (filters : option Filters) (g : rng_state) :
  (e < s)%Z ->
  exists err,
    fst (forecast_average_premium self s e scenario_name country filters g) = Raise err
    /\ (In scenario_name (map fst (scenarios self)) -> exists msg, err = ValueError msg).
Proof.
  intros Hes. unfold forecast_average_premium, bind, lift.
  destruct (scenarios_getitem (scenarios self) scenario_name) as [scenario|err] eqn:Hs.
  2:{ exists err. split; [reflexivity|]. intros Hin.
      destruct (scenarios_getitem_present _ _ Hin) as [sc Hsc]. congruence. }
  destruct (project_mortality self s e scenario country) as [mp|err] eqn:Hm.
  2:{ exists err. split; [reflexivity|]. intros _.
      destruct (df_empty (mortality_df self)) eqn:He.
      - destruct (project_mortality_raises self s e scenario country (or_introl He))
          as [msg Hmsg]. exists msg. congruence.
      - destruct (in_dec string_dec country (map m_country (rows (mortality_df self))))
          as [Hc|Hc].
        + destruct (project_mortality_exact self s e scenario country He Hc)
            as [l [_ Hp]]. congruence.
        + destruct (project_mortality_raises self s e scenario country (or_intror Hc))
            as [msg Hmsg]. exists msg. congruence. }
  destruct (project_economics_records self s e scenario country g) as [records [Hr _]].
  destruct (project_economics self s e scenario country g) as [r g1].
  cbn [fst] in Hr. subst r. cbn [fst].
  unfold aggregate, filtered_premiums. rewrite py_range_nil by lia.
  cbn [rmap rbind pd_concat]. eexists. split; [reflexivity|]. eauto.
Qed.

(** X14: over an empty range of years ([end_year < start_year]) a forecast
    for a registered scenario raises [ValueError] (from the mortality
    projector, or else from [pd.concat] of no frames), and
    [compare_scenarios] returns the frame without rows of lines 497-499. *)
Theorem forecast_empty_range :
  forall (np : Numpy) (self : PremiumForecaster) (s e : Z) (country : string)
         (filters : option Filters) (g : rng_state),
    (e < s)%Z ->
    (forall scenario_name,
       In scenario_name (map fst (scenarios self)) ->
       exists msg,
         fst (forecast_average_premium self s e scenario_name country filters g)
         = Raise (ValueError msg))
    /\ fst (compare_scenarios self s e country filters g)
       = Ok (mkDataFrame empty_result_columns []).
Proof.
  intros np self s e country filters g Hes. split.
  - intros scenario_name Hin.
    destruct (forecast_empty_range_raises self s e scenario_name country filters g Hes)
      as [err [Hf Herr]].
    destruct (Herr Hin) as [msg ->]. eauto.
  - destruct (compare_scenarios_partial_results self s e country filters g)
      as [out [Hout [_ Hempty]]].
    rewrite Hout. f_equal. apply Hempty. intros scenario_name _.
    unfold contributed.
    destruct (forecast_empty_range_raises self s e scenario_name country filters g Hes)
      as [err [Hf _]].
    now rewrite Hf.
Qed.

Lemma forecast_empty_range_witness :
  fst (@compare_scenarios stand_in_numpy (sample_forecaster 10 30) 2026 2025 "India" None
         7%Z)
  = Ok (mkDataFrame empty_result_columns []).
Proof.
  apply (forecast_empty_range stand_in_numpy (sample_forecaster 10 30) 2026 2025 "India"
           None 7%Z).
  lia.
Defined.

(** ** Aggregator: the rows of a forecast *)

Lemma py_range_sorted (a stop : Z) : StronglySorted Z.lt (py_range a stop).
Proof.
  unfold py_range. generalize (Z.to_nat (stop - a)) as n. intros n.
  assert (H : forall k, StronglySorted Z.lt
                          (map (fun i => (a + Z.of_nat i)%Z) (seq k n))).
  { induction n as [|n IH]; intros k; cbn [seq map]; constructor; [apply IH|].
    apply Forall_forall. intros y Hy. apply in_map_iff in Hy.
    destruct Hy as [i [<- Hi]]. apply in_seq in Hi. lia. }
  apply H.
Qed.

(** The keys of the records a loop appends are, in order, the elements
    whose iteration appended one. *)
Lemma collect_keys {A B : Type} (body : A -> result (option B)) (key : B -> A)
    (xs : list A) (out : list B) :
  collect body xs = Ok out ->
  (forall x y, body x = Ok (Some y) -> key y = x) ->
  map key out
  = filter (fun x => match body x with Ok (Some _) => true | _ => false end) xs.
Proof.
  intros H Hkey. revert out H. induction xs as [|x xs IH]; intros out; cbn [collect].
  - intros [= <-]. reflexivity.
  - intros H. inv_rbind H as o Ho. inv_rbind H as rs Hrs. injection H as <-.
    cbn [filter]. rewrite Ho. destruct o as [y|]; [|now apply IH].
    cbn [map]. rewrite (Hkey _ _ Ho). f_equal. now apply IH.
Qed.

Lemma StronglySorted_filter {A : Type} (R : A -> A -> Prop) (p : A -> bool) (l : list A) :
  StronglySorted R l -> StronglySorted R (filter p l).
Proof.
  induction 1 as [|x l Hl IH Hx]; cbn [filter]; [constructor|].
  destruct (p x); [|exact IH]. constructor; [exact IH|].
  apply Forall_forall. intros y Hy. apply filter_In in Hy.
  rewrite Forall_forall in Hx. apply Hx. tauto.
Qed.

Lemma forecast_year_Some (y : Z) (scenario_name : string) (pdf : DataFrame PremiumRow)
    (ddf : DataFrame DemographicRow) (ep : DataFrame EconomicRow)
    (filters : option Filters) (r : ForecastRow) :
  forecast_year y scenario_name pdf ddf ep filters = Ok (Some r) ->
  year r = y /\ scenario r = scenario_name
  /\ exists year_premiums,
       df_where "year" (fun p => (p_year p =? y)%Z) pdf = Ok year_premiums
       /\ df_empty (merged_for_year year_premiums ddf filters) = false
       /\ result_record y scenario_name (merged_for_year year_premiums ddf filters) ep
          = Ok (Some r).
Proof.
  intros H. apply forecast_year_inv in H. destruct H as [yp [Hyp [Hempty Hrec]]].
  destruct (df_empty (merged_for_year yp ddf filters)) eqn:He.
  - specialize (Hempty eq_refl). discriminate.
  - specialize (Hrec eq_refl). split; [eapply result_record_Some_year; exact Hrec|].
    split; [|eauto].
    unfold result_record in Hrec.
    destruct (negb (has_column "premium_per_unit" _)); [discriminate|].
    destruct (df_empty (df_filter _ ep)); [discriminate|].
    destruct (rows (df_filter _ ep)); [discriminate|].
    injection Hrec as <-. reflexivity.
Qed.

Lemma result_record_economics (y : Z) (scenario_name : string)
    (merged : DataFrame MergedRow) (ep : DataFrame EconomicRow) (r : ForecastRow) :
  result_record y scenario_name merged ep = Ok (Some r) ->
  exists year_econ,
    In year_econ (rows ep) /\ e_year year_econ = y
    /\ inflation_rate r = e_inflation_rate year_econ
    /\ interest_rate r = e_interest_rate year_econ.
Proof.
  unfold result_record.
  destruct (negb (has_column "premium_per_unit" merged)); [discriminate|].
  destruct (df_empty (df_filter _ ep)); [discriminate|].
  destruct (rows (df_filter _ ep)) as [|ye rest] eqn:Hf; [discriminate|].
  intros [= <-]. exists ye.
  assert (Hin : In ye (rows (df_filter (fun r => (e_year r =? y)%Z) ep)))
    by (rewrite Hf; now left).
  cbn [rows df_filter] in Hin. apply filter_In in Hin. destruct Hin as [Hin Hy].
  apply Z.eqb_eq in Hy. repeat split; assumption.
Qed.

(** X15: the rows of a forecast are in strictly ascending order of year,
    so there is at most one row per year; every row lies in the range
    asked for, carries the scenario name asked for, and holds the total
    policy count of the join of its year.  The inflation rate and the
    interest rate a row reports are those projected for its year, and so
    at least 0.5. *)
Theorem forecast_rows_ordered :
  forall (np : Numpy) (self : PremiumForecaster) (s e : Z)
         (scenario_name country : string) (filters : option Filters)
         (g g' : rng_state) (df : DataFrame ForecastRow),
    forecast_average_premium self s e scenario_name country filters g = (Ok df, g') ->
    StronglySorted Z.lt (map year (rows df))
    /\ (List.length (rows df) <= Z.to_nat (e + 1 - s))%nat
    /\ (forall r, In r (rows df) ->
          (s <= year r <= e)%Z /\ scenario r = scenario_name
          /\ exists merged,
               year_join self s e scenario_name country filters g (year r) = Ok merged
               /\ df_empty merged = false
               /\ total_policies r = join_policies merged)
    /\ (forall r, In r (rows df) -> 0.5 <= inflation_rate r /\ 0.5 <= interest_rate r).
Proof.
  intros np self s e scenario_name country filters g g' df H.
  pose proof (forecast_rows self s e scenario_name country filters g g' df H) as Hrows.
  apply forecast_average_premium_Ok_inv in H.
  destruct H as [sc [mp [ep [Hs [Hm [He Ha]]]]]].
  unfold aggregate in Ha. inv_rbind Ha as pdf Hpdf. inv_rbind Ha as ddf Hddf.
  inv_rbind Ha as results Hres. injection Ha as <-.
  rewrite rows_DataFrame_of_records.
  assert (Hkey : forall y r,
            forecast_year y scenario_name pdf ddf ep filters = Ok (Some r) ->
            year r = y).
  { intros y r Hr. now apply forecast_year_Some in Hr. }
  split; [|split; [|split]].
  - rewrite (collect_keys _ year _ _ Hres Hkey).
    apply StronglySorted_filter, py_range_sorted.
  - apply collect_length in Hres. now rewrite py_range_length in Hres.
  - intros r Hr. apply collect_Ok_inv in Hres. destruct Hres as [_ Hres].
    apply Hres in Hr. destruct Hr as [y [Hy Hr]].
    apply py_range_In in Hy. apply forecast_year_Some in Hr.
    destruct Hr as [Hyr [Hsc [yp [Hyp [Hne Hrec]]]]].
    split; [lia|]. split; [exact Hsc|].
    exists (merged_for_year yp ddf filters). split; [|split; [exact Hne|]].
    + unfold year_join. rewrite Hs. cbn [rbind]. rewrite Hm. cbn [rbind].
      rewrite He. cbn [rbind fst]. rewrite Hpdf. cbn [rbind]. rewrite Hddf.
      cbn [rbind]. rewrite Hyr, Hyp. reflexivity.
    + unfold result_record in Hrec.
      destruct (negb (has_column "premium_per_unit" _)); [discriminate|].
      destruct (df_empty (df_filter _ ep)); [discriminate|].
      destruct (rows (df_filter _ ep)); [discriminate|].
      injection Hrec as <-. reflexivity.
  - intros r Hr. apply collect_Ok_inv in Hres. destruct Hres as [_ Hres].
    apply Hres in Hr. destruct Hr as [y [_ Hr]]. apply forecast_year_Some in Hr.
    destruct Hr as [_ [_ [yp [_ [_ Hrec]]]]].
    apply result_record_economics in Hrec.
    destruct Hrec as [ye [Hye [_ [-> ->]]]].
    destruct (project_economics_records self s e sc country g) as [records [Hrs HF]].
    rewrite He in Hrs. cbn [fst] in Hrs. injection Hrs as ->.
    rewrite rows_DataFrame_of_records in Hye.
    destruct (Forall2_In_r _ _ _ _ HF Hye) as [y' [_ HP]]. tauto.
Qed.

Lemma forecast_rows_ordered_witness :
  exists df,
    fst (@forecast_average_premium stand_in_numpy (sample_forecaster 10 30) 2025 2026
           "base" "India" None 7%Z)
    = Ok df
    /\ StronglySorted Z.lt (map year (rows df))
    /\ (List.length (rows df) <= 2)%nat.
Proof.
  destruct (@forecast_average_premium stand_in_numpy (sample_forecaster 10 30) 2025 2026
              "base" "India" None 7%Z) as [[df|err] g'] eqn:Hf;
    [|vm_compute in Hf; discriminate].
  exists df. split; [reflexivity|].
  destruct (forecast_rows_ordered stand_in_numpy _ _ _ _ _ _ _ _ _ Hf) as [Hs [Hl _]].
  split; [exact Hs | exact Hl].
Defined.

(** ** Aggregator: when a forecast without filters returns *)

Lemma latest_rows_nonempty (df : DataFrame MortalityRow) (country : string) (latest : Z) :
  latest_year_of df country = Some latest -> latest_rows df country latest <> [].
Proof.
  unfold latest_year_of, latest_rows. intros H. apply series_max_spec in H.
  destruct H as [Hin _]. apply in_map_iff in Hin. destruct Hin as [r [Hy Hr]].
  apply filter_In in Hr. destruct Hr as [Hr Hc].
  intros E.
  assert (Hin : In r (filter (fun r => (m_country r =? country)
                                       && (m_year r =? latest)%Z) (rows df))).
  { apply filter_In. split; [exact Hr|]. rewrite Hc. cbn. now apply Z.eqb_eq. }
  rewrite E in Hin. exact Hin.
Qed.

Lemma mortality_columns_smoking (smoking : bool) :
  existsb (String.eqb "smoking_status") (mortality_columns smoking) = smoking.
Proof. now destruct smoking. Qed.

Lemma mortality_match_projection (self : PremiumForecaster) (scenario : Scenario)
    (country : string) (s e latest y : Z) (data : list MortalityRow) (b : BasePremiumRow) :
  (s <= y <= e)%Z -> data <> [] ->
  mortality_match self
    (df_filter (fun r => (m_year r =? y)%Z)
       (DataFrame_of_records
          (mortality_columns (has_column "smoking_status" (mortality_df self)))
          (projections scenario country (has_column "smoking_status" (mortality_df self))
             s e (Some latest) data))) b <> []
  <-> existsb (cell_match self b) data = true.
Proof.
  intros Hy Hdata.
  set (sm := has_column "smoking_status" (mortality_df self)).
  set (projs := projections scenario country sm s e (Some latest) data).
  assert (Hproj : forall m, In m data ->
                    In (projection_record scenario country sm y latest m) projs).
  { intros m Hm. unfold projs, projections. apply in_flat_map. exists y.
    split; [apply py_range_In; lia | now apply in_map]. }
  assert (Hne : projs <> []).
  { destruct data as [|m data]; [congruence|].
    intros E. specialize (Hproj m (or_introl eq_refl)). rewrite E in Hproj. exact Hproj. }
  assert (Hdf : DataFrame_of_records (mortality_columns sm) projs
                = mkDataFrame (mortality_columns sm) projs).
  { destruct projs; [congruence | reflexivity]. }
  rewrite Hdf. unfold mortality_match.
  assert (Hsm : has_column "smoking_status"
                  (df_filter (fun r => (m_year r =? y)%Z)
                             (mkDataFrame (mortality_columns sm) projs)) = sm)
    by apply mortality_columns_smoking.
  rewrite Hsm. cbn [rows columns df_filter].
  assert (Hpred : forall y' m,
            (m_age (projection_record scenario country sm y' latest m) =? b_age b)%Z
            && (m_gender (projection_record scenario country sm y' latest m)
                =? b_gender b)
            && (if has_column "smoking_status" (base_premium_df self) && sm
                then m_smoking_status (projection_record scenario country sm y' latest m)
                     =? b_smoking_status b
                else true)
            = cell_match self b m).
  { intros y' m. unfold cell_match. fold sm. cbn [m_age m_gender m_smoking_status
      projection_record].
    destruct (has_column "smoking_status" (base_premium_df self)), sm; reflexivity. }
  split.
  - intros H.
    destruct (filter _ (filter _ projs)) as [|r rest] eqn:Hf; [congruence|].
    assert (Hr : In r (r :: rest)) by now left.
    rewrite <- Hf in Hr. apply filter_In in Hr. destruct Hr as [Hr Hp].
    apply filter_In in Hr. destruct Hr as [Hr _].
    unfold projs, projections in Hr. apply in_flat_map in Hr.
    destruct Hr as [y' [_ Hr]]. apply in_map_iff in Hr. destruct Hr as [m [<- Hm]].
    rewrite Hpred in Hp. apply existsb_exists. eauto.
  - intros H. apply existsb_exists in H. destruct H as [m [Hm Hc]].
    intros E.
    assert (Hin : In (projection_record scenario country sm y latest m)
                     (filter (fun r =>
                                (m_age r =? b_age b)%Z && (m_gender r =? b_gender b)
                                && (if has_column "smoking_status" (base_premium_df self)
                                       && sm
                                    then m_smoking_status r =? b_smoking_status b
                                    else true))
                             (filter (fun r => (m_year r =? y)%Z) projs))).
    { apply filter_In. split.
      - apply filter_In. split; [now apply Hproj|]. cbn. apply Z.eqb_refl.
      - rewrite Hpred. exact Hc. }
    rewrite E in Hin. exact Hin.
Qed.

Lemma premium_record_priced (self : PremiumForecaster) (year : Z) (country : string)
    (ym : DataFrame MortalityRow) (ep : DataFrame EconomicRow) (ye : EconomicRow)
    (full : option (DataFrame EconomicRow)) (b : BasePremiumRow) :
  rows (economic_df self) <> [] ->
  (mortality_match self ym b <> [] -> is_some (per_unit_of self b) = true ->
   exists p, premium_record self year country ym ep ye full b = Ok (Some p))
  /\ (mortality_match self ym b = [] \/ is_some (per_unit_of self b) = false ->
      premium_record self year country ym ep ye full b = Ok None).
Proof.
  intros Hne. destruct (base_year_row _ Hne) as [m [row [rest [Hm Hf]]]].
  unfold premium_record. rewrite Hm, Hf. split.
  - intros Hmm Hpu. destruct (mortality_match self ym b); [congruence|].
    destruct (per_unit_of self b); [eauto | discriminate].
  - intros [Hmm|Hpu].
    + now rewrite Hmm.
    + destruct (mortality_match self ym b); [reflexivity|].
      destruct (per_unit_of self b); [discriminate | reflexivity].
Qed.

Lemma calculate_premiums_loop (self : PremiumForecaster) (y : Z)
    (mp : DataFrame MortalityRow) (ep : DataFrame EconomicRow) (country : string)
    (full : option (DataFrame EconomicRow)) :
  df_empty mp || negb (has_column "year" mp) = false ->
  df_empty (df_filter (fun r => (e_year r =? y)%Z) ep) = false ->
  exists ye,
    calculate_premiums self y mp ep country full
    = (premiums <- collect (premium_record self y country
                              (df_filter (fun r => (m_year r =? y)%Z) mp) ep ye full)
                           (filter (fun b => String.eqb (b_country b) country)
                                   (rows (base_premium_df self))) ;;
       Ok (DataFrame_of_records
             (premium_columns (has_column "smoking_status" (base_premium_df self)))
             premiums))%result.
Proof.
  intros Hmp Hec. unfold calculate_premiums. rewrite Hmp, Hec.
  destruct (rows (df_filter _ ep)) as [|ye rest] eqn:Hr.
  - apply df_empty_false_rows in Hec. congruence.
  - eauto.
Qed.

Lemma collect_all_skipped {A B : Type} (body : A -> result (option B)) (xs : list A) :
  (forall x, In x xs -> body x = Ok None) -> collect body xs = Ok [].
Proof.
  induction xs as [|x xs IH]; intros H; [reflexivity|].
  cbn [collect]. rewrite (H x (or_introl eq_refl)). cbn [rbind].
  rewrite IH by (intros x' Hx'; apply H; now right). reflexivity.
Qed.

Lemma rmap_returns {A B : Type} (body : A -> result B) (P : B -> Prop) (xs : list A) :
  (forall x, In x xs -> exists y, body x = Ok y /\ P y) ->
  exists ys, rmap body xs = Ok ys /\ Forall P ys /\ List.length ys = List.length xs.
Proof.
  induction xs as [|x xs IH]; intros H.
  - exists []. repeat split. constructor.
  - destruct (H x (or_introl eq_refl)) as [y [Hy HP]].
    destruct IH as [ys [Hys [HF Hl]]]; [intros x' Hx'; apply H; now right|].
    exists (y :: ys). cbn [rmap]. rewrite Hy. cbn [rbind]. rewrite Hys. cbn [rbind].
    split; [reflexivity|]. split; [now constructor | cbn; now rewrite Hl].
Qed.

Lemma union_columns_fold_In (c : string) (cols : list (list string)) (acc : list string) :
  In c acc \/ (exists cs, In cs cols /\ In c cs) ->
  In c (fold_left (fun acc cs =>
                     acc ++ filter (fun c => negb (existsb (String.eqb c) acc)) cs)
                  cols acc).
Proof.
  revert acc. induction cols as [|cs cols IH]; intros acc H; cbn [fold_left].
  - destruct H as [H|[cs [[] _]]]. exact H.
  - apply IH. destruct H as [H|[cs' [[<-|Hcs'] Hc]]].
    + left. apply in_or_app. now left.
    + left. apply in_or_app.
      destruct (existsb (String.eqb c) acc) eqn:E.
      * left. now apply existsb_eqb_In.
      * right. apply filter_In. split; [exact Hc|]. now rewrite E.
    + right. eauto.
Qed.

Lemma union_columns_In (c : string) (cols : list (list string)) (cs : list string) :
  In cs cols -> In c cs -> In c (union_columns cols).
Proof. intros H1 H2. apply union_columns_fold_In. right. eauto. Qed.

Lemma economic_projection_year `{np : Numpy} (self : PremiumForecaster) (s e : Z)
    (scenario : Scenario) (country : string) (g : rng_state) :
  exists ep,
    fst (project_economics self s e scenario country g) = Ok ep
    /\ forall y, (s <= y <= e)%Z ->
         df_empty (df_filter (fun r => (e_year r =? y)%Z) ep) = false.
Proof.
  destruct (project_economics_records self s e scenario country g) as [records [Hr HF]].
  eexists. split; [exact Hr|]. intros y Hy.
  assert (Hin : In y (py_range s (e + 1))) by (apply py_range_In; lia).
  assert (Hex : exists r, In r records /\ e_year r = y).
  { clear Hr. induction HF as [|y' r ys rs [Hyr _] _ IH]; [destruct Hin|].
    destruct Hin as [->|Hin].
    - exists r. split; [now left | exact Hyr].
    - destruct (IH Hin) as [r' [Hr' Hy']]. exists r'. split; [now right | exact Hy']. }
  destruct Hex as [r [Hrin Hry]].
  assert (Hdf : DataFrame_of_records economic_columns records
                = mkDataFrame economic_columns records).
  { destruct records; [destruct Hrin | reflexivity]. }
  rewrite Hdf. unfold df_empty. cbn [rows columns df_filter].
  destruct (filter (fun r => (e_year r =? y)%Z) records) as [|r0 rest] eqn:Hf;
    [|reflexivity].
  assert (H : In r (filter (fun r => (e_year r =? y)%Z) records)).
  { apply filter_In. split; [exact Hrin | now apply Z.eqb_eq]. }
  rewrite Hf in H. destruct H.
Qed.

Lemma result_record_returns (y : Z) (scenario_name : string) (merged : DataFrame MergedRow)
    (ep : DataFrame EconomicRow) :
  has_column "premium_per_unit" merged = true ->
  exists o, result_record y scenario_name merged ep = Ok o.
Proof.
  intros H. unfold result_record. rewrite H. cbn [negb].
  destruct (df_empty (df_filter _ ep)); [eauto|].
  destruct (rows (df_filter _ ep)); eauto.
Qed.

Lemma merged_for_year_columns (yp : DataFrame PremiumRow) (ddf : DataFrame DemographicRow)
    (c : string) :
  has_column c yp = true -> has_column c (merged_for_year yp ddf None) = true.
Proof.
  intros H. unfold merged_for_year, merge, has_column. cbn [columns].
  rewrite existsb_app. unfold has_column in H. now rewrite H.
Qed.

(** X16: when a forecast without filters returns.  For a registered
    scenario, a non-empty range, a mortality table with rows of the
    country and a non-empty historical economic table, the forecast returns
    a frame if some base premium row of the country has a premium column
    and a mortality source row (same age and gender, and smoking status
    where both tables have it) at the country's latest mortality year;
    if no base premium row has, no premium record is produced and the
    forecast raises [KeyError] for the column [year] of the empty
    concatenation. *)
Theorem forecast_without_filters :
  forall (np : Numpy) (self : PremiumForecaster) (s e : Z)
         (scenario_name country : string) (g : rng_state) (latest : Z),
    In scenario_name (map fst (scenarios self)) ->
    df_empty (mortality_df self) = false ->
    latest_year_of (mortality_df self) country = Some latest ->
    rows (economic_df self) <> [] ->
    (s <= e)%Z ->
    (existsb (priced_cell self country latest) (rows (base_premium_df self)) = true ->
     exists df,
       fst (forecast_average_premium self s e scenario_name country None g) = Ok df)
    /\ (existsb (priced_cell self country latest) (rows (base_premium_df self)) = false ->
        fst (forecast_average_premium self s e scenario_name country None g)
        = Raise (KeyError "year")).
Proof.
  intros np self s e scenario_name country g latest Hname Hmne Hlatest Hecon Hse.
  destruct (scenarios_getitem_present _ _ Hname) as [scenario Hs].
  assert (Hc : In country (map m_country (rows (mortality_df self)))).
  { unfold latest_year_of in Hlatest. apply series_max_spec in Hlatest.
    destruct Hlatest as [Hin _]. apply in_map_iff in Hin. destruct Hin as [r [_ Hr]].
    apply filter_In in Hr. destruct Hr as [Hr Hrc]. apply String.eqb_eq in Hrc.
    apply in_map_iff. eauto. }
  destruct (project_mortality_exact self s e scenario country Hmne Hc)
    as [latest' [Hl' Hm]].
  assert (latest' = latest) by congruence. subst latest'. clear Hl'.
  pose proof (latest_rows_nonempty _ _ _ Hlatest) as Hdata.
  set (data := latest_rows (mortality_df self) country latest) in *.
  set (sm := has_column "smoking_status" (mortality_df self)) in *.
  set (mp := DataFrame_of_records (mortality_columns sm)
               (projections scenario country sm s e (Some latest) data)) in *.
  assert (Hmp : df_empty mp || negb (has_column "year" mp) = false).
  { unfold mp, projections. rewrite py_range_cons by lia. cbn [flat_map].
    destruct data as [|m data']; [congruence|]. reflexivity. }
  destruct (economic_projection_year self s e scenario country g) as [ep [Hep Hyear]].
  assert (Hfst : fst (forecast_average_premium self s e scenario_name country None g)
                 = aggregate self s e scenario_name country None mp ep).
  { unfold forecast_average_premium, bind, lift. rewrite Hs, Hm.
    destruct (project_economics self s e scenario country g) as [r g1].
    cbn [fst] in Hep. subst r. reflexivity. }
  rewrite Hfst. clear Hfst.
  set (cells := filter (fun b => b_country b =? country) (rows (base_premium_df self))).
  set (cols := premium_columns (has_column "smoking_status" (base_premium_df self))).
  assert (Hmatch : forall y b, (s <= y <= e)%Z ->
            mortality_match self (df_filter (fun r => (m_year r =? y)%Z) mp) b <> []
            <-> existsb (cell_match self b) data = true).
  { intros y b Hy. apply mortality_match_projection; assumption. }
  split.
  - intros Hex. apply existsb_exists in Hex. destruct Hex as [b0 [Hb0 Hpriced]].
    unfold priced_cell in Hpriced. apply andb_true_iff in Hpriced.
    destruct Hpriced as [Hpriced Hcell]. apply andb_true_iff in Hpriced.
    destruct Hpriced as [Hb0c Hb0p].
    assert (Hb0in : In b0 cells) by (apply filter_In; now split).
    destruct (rmap_returns
                (fun year => calculate_premiums self year mp ep country (Some ep))
                (fun out => columns out = cols)
                (py_range s (e + 1))) as [frames [Hframes [HF Hlen]]].
    { intros y Hy. apply py_range_In in Hy.
      destruct (calculate_premiums_loop self y mp ep country (Some ep) Hmp)
        as [ye Hcalc]; [apply Hyear; lia|].
      rewrite Hcalc.
      destruct (collect_returns
                  (premium_record self y country
                     (df_filter (fun r => (m_year r =? y)%Z) mp) ep ye (Some ep)) cells)
        as [out Hout].
      { intros b _. now apply premium_record_returns. }
      fold cells. rewrite Hout. cbn [rbind]. eexists. split; [reflexivity|].
      destruct (premium_record_priced self y country
                  (df_filter (fun r => (m_year r =? y)%Z) mp) ep ye (Some ep) b0 Hecon)
        as [Hsome _].
      destruct Hsome as [p Hp]; [apply Hmatch; [lia | exact Hcell] | exact Hb0p |].
      assert (Hpin : In p out).
      { apply collect_Ok_inv in Hout. destruct Hout as [_ Hout]. apply Hout. eauto. }
      destruct out; [destruct Hpin | reflexivity]. }
    unfold aggregate, filtered_premiums. rewrite Hframes. cbn [rbind].
    destruct frames as [|f0 frames'].
    { rewrite py_range_length in Hlen. cbn in Hlen. lia. }
    cbn [pd_concat rbind apply_filters].
    set (pdf := mkDataFrame (union_columns (map columns (f0 :: frames')))
                            (List.concat (map rows (f0 :: frames')))).
    assert (Hcol : forall c, In c cols -> has_column c pdf = true).
    { intros c Hcin. apply existsb_eqb_In. cbn [columns pdf].
      apply (union_columns_In c _ (columns f0)); [now left|].
      apply Forall_inv in HF. now rewrite HF. }
    unfold filtered_demographics. cbn [apply_filters rbind].
    destruct (collect_returns
                (fun year => forecast_year year scenario_name pdf
                               (df_filter (fun d => d_country d =? country)
                                          (demographic_df self)) ep None)
                (py_range s (e + 1))) as [results Hres].
    { intros y _. unfold forecast_year, df_where.
      rewrite (Hcol "year") by (unfold cols, premium_columns; cbn; tauto).
      cbn [rbind].
      destruct (df_empty (merged_for_year _ _ None)); cbn [negb]; [eauto|].
      apply result_record_returns, merged_for_year_columns.
      unfold has_column. cbn [columns df_filter]. apply (Hcol "premium_per_unit").
      unfold cols, premium_columns. cbn. tauto. }
    rewrite Hres. cbn [rbind]. eauto.
  - intros Hex.
    assert (Hskip : forall y, In y (py_range s (e + 1)) ->
              exists out,
                calculate_premiums self y mp ep country (Some ep) = Ok out
                /\ columns out = []).
    { intros y Hy. apply py_range_In in Hy.
      destruct (calculate_premiums_loop self y mp ep country (Some ep) Hmp)
        as [ye Hcalc]; [apply Hyear; lia|].
      rewrite Hcalc. rewrite collect_all_skipped; [cbn; eauto|].
      intros b Hb. apply filter_In in Hb. destruct Hb as [Hb Hbc].
      apply (premium_record_priced self y country _ ep ye (Some ep) b Hecon).
      destruct (is_some (per_unit_of self b)) eqn:Hpu; [left | now right].
      destruct (mortality_match self (df_filter (fun r => (m_year r =? y)%Z) mp) b)
        as [|m0 rest] eqn:Hmm; [reflexivity|].
      assert (Hcell : existsb (cell_match self b) data = true).
      { apply (Hmatch y b); [lia|]. rewrite Hmm. discriminate. }
      assert (Hp : priced_cell self country latest b = true).
      { unfold priced_cell. fold data. now rewrite Hbc, Hpu, Hcell. }
      assert (Hex' : existsb (priced_cell self country latest)
                             (rows (base_premium_df self)) = true)
        by (apply existsb_exists; eauto).
      congruence. }
    destruct (rmap_returns
                (fun year => calculate_premiums self year mp ep country (Some ep))
                (fun out => columns out = [])
                (py_range s (e + 1)) Hskip) as [frames [Hframes [HF Hlen]]].
    unfold aggregate, filtered_premiums. rewrite Hframes. cbn [rbind].
    destruct frames as [|f0 frames'].
    { rewrite py_range_length in Hlen. cbn in Hlen. lia. }
    cbn [pd_concat rbind apply_filters]. unfold filtered_demographics.
    cbn [apply_filters rbind].
    rewrite py_range_cons by lia. cbn [collect]. unfold forecast_year at 1, df_where.
    set (pdf := mkDataFrame (union_columns (map columns (f0 :: frames')))
                            (List.concat (map rows (f0 :: frames')))).
    assert (Hno : has_column "year" pdf = false).
    { destruct (has_column "year" pdf) eqn:E; [|reflexivity].
      apply existsb_eqb_In in E. cbn [columns pdf] in E.
      exfalso. revert E. apply union_columns_absent.
      intros cs Hcs. apply in_map_iff in Hcs. destruct Hcs as [f [<- Hf]].
      rewrite Forall_forall in HF. rewrite (HF f Hf). intros []. }
    rewrite Hno. reflexivity.
Qed.

Lemma forecast_without_filters_witness :
  exists df,
    fst (@forecast_average_premium stand_in_numpy (sample_forecaster 10 30) 2025 2026
           "base" "India" None 7%Z)
    = Ok df.
Proof.
  destruct (forecast_without_filters stand_in_numpy (sample_forecaster 10 30) 2025 2026
              "base" "India" 7%Z 2024) as [H _].
  - cbn. tauto.
  - reflexivity.
  - reflexivity.
  - discriminate.
  - lia.
  - apply H. reflexivity.
Defined.

(** ** Aggregator: bounds of the averages *)

Lemma weighted_sum_bounds {A : Type} (value weight : A -> Q) (lo hi : Q) (l : list A) :
  (forall a, In a l -> 0 <= weight a /\ lo <= value a <= hi) ->
  lo * Qsum (map weight l) <= Qsum (map (fun a => value a * weight a) l)
  /\ Qsum (map (fun a => value a * weight a) l) <= hi * Qsum (map weight l).
Proof.
  induction l as [|x l IH]; intros H; cbn [map].
  - unfold Qsum. cbn. lra.
  - rewrite !Qsum_cons.
    destruct IH as [IH1 IH2]; [intros a Ha; apply H; now right|].
    destruct (H x (or_introl eq_refl)) as [Hw [Hlo Hhi]]. split; nra.
Qed.

Lemma weighted_mean_bounds {A : Type} (value weight : A -> Q) (lo hi : Q) (l : list A) :
  (forall a, In a l -> 0 <= weight a /\ lo <= value a <= hi) ->
  0 < Qsum (map weight l) ->
  lo <= Qsum (map (fun a => value a * weight a) l) / Qsum (map weight l)
  /\ Qsum (map (fun a => value a * weight a) l) / Qsum (map weight l) <= hi.
Proof.
  intros H Hpos. destruct (weighted_sum_bounds value weight lo hi l H) as [H1 H2]. split.
  - apply Qle_shift_div_l; [exact Hpos | exact H1].
  - apply Qle_shift_div_r; [exact Hpos | exact H2].
Qed.

(** X17: an average lies between the smallest and the largest value it
    averages.  For a year with a join of positive total policy count and
    no negative policy count, bounds [lo] and [hi] on the actual premiums
    of the joined rows bound the emitted [average_premium] by [lo] and [hi]
    rounded to 2 decimals, and bounds on their premiums per unit bound
    [average_premium_per_unit] likewise. *)
Theorem average_premium_bounds :
  forall (np : Numpy) (self : PremiumForecaster) (s e : Z)
         (scenario_name country : string) (filters : option Filters)
         (g g' : rng_state) (df : DataFrame ForecastRow),
    forecast_average_premium self s e scenario_name country filters g = (Ok df, g') ->
    forall y,
      (s <= y <= e)%Z ->
      exists merged,
        year_join self s e scenario_name country filters g y = Ok merged
        /\ (df_empty merged = false ->
            (0 < join_policies merged)%Z ->
            (forall m, In m (rows merged) -> (0 <= d_policy_count (right m))%Z) ->
            exists r,
              In r (rows df) /\ year r = y
              /\ forall lo hi,
                   ((forall m, In m (rows merged) ->
                       lo <= actual_premium (has_column "sum_insured" merged) m <= hi) ->
                    py_round lo 2 <= average_premium r <= py_round hi 2)
                   /\ ((forall m, In m (rows merged) ->
                          lo <= p_premium_per_unit (left m) <= hi) ->
                       py_round lo 2 <= average_premium_per_unit r <= py_round hi 2)).
Proof.
  intros np self s e scenario_name country filters g g' df Hf y Hy.
  destruct (forecast_rows self s e scenario_name country filters g g' df Hf y Hy)
    as [merged [Hj [_ Hfull]]].
  exists merged. split; [exact Hj|]. intros Hne Hpos Hcount.
  destruct (Hfull Hne) as [r [Hin [Hyr [_ [_ [Havg Hppu]]]]]].
  exists r. split; [exact Hin|]. split; [exact Hyr|].
  assert (Hgt : (join_policies merged >? 0)%Z = true) by (apply Z.gtb_lt; lia).
  rewrite Hgt in Havg, Hppu.
  assert (Hsum : 0 < Qsum (map policy_count (rows merged))).
  { unfold policy_count.
    rewrite <- (inject_Z_Zsum (fun m => d_policy_count (right m))).
    change 0 with (inject_Z 0). rewrite <- Zlt_Qlt. exact Hpos. }
  assert (Hbound : forall (value : MergedRow -> Q) lo hi,
            (forall m, In m (rows merged) -> lo <= value m <= hi) ->
            py_round lo 2
            <= py_round (Qsum (map (fun m => value m * policy_count m) (rows merged))
                         / inject_Z (join_policies merged)) 2
            <= py_round hi 2).
  { intros value lo hi Hv.
    rewrite (py_round_comp _ _ 2 (weighted_mean_join value merged)).
    unfold weighted_mean.
    destruct (weighted_mean_bounds value policy_count lo hi (rows merged)) as [H1 H2].
    - intros m Hm. split; [|now apply Hv].
      unfold policy_count. change 0 with (inject_Z 0). rewrite <- Zle_Qle.
      now apply Hcount.
    - exact Hsum.
    - split; now apply py_round_mono. }
  intros lo hi. split; intros Hv.
  - rewrite Havg. now apply Hbound.
  - rewrite Hppu. now apply (Hbound (fun m => p_premium_per_unit (left m))).
Qed.

Lemma average_premium_bounds_witness :
  exists df r,
    fst (@forecast_average_premium stand_in_numpy (sample_forecaster 10 30) 2025 2026
           "base" "India" None 7%Z)
    = Ok df
    /\ In r (rows df) /\ year r = 2025%Z
    /\ py_round 0 2 <= average_premium_per_unit r <= py_round 1000 2.
Proof.
  destruct (@forecast_average_premium stand_in_numpy (sample_forecaster 10 30) 2025 2026
              "base" "India" None 7%Z) as [[df|err] g'] eqn:Hf;
    [|vm_compute in Hf; discriminate].
  destruct (average_premium_bounds stand_in_numpy _ _ _ _ _ _ _ _ _ Hf 2025%Z)
    as [merged [Hj Hrow]]; [lia|].
  vm_compute in Hj. injection Hj as <-.
  destruct Hrow as [r [Hin [Hyr Hb]]].
  - reflexivity.
  - reflexivity.
  - intros m [<-|[<-|[]]]; discriminate.
  - exists df, r. split; [reflexivity|]. split; [exact Hin|]. split; [exact Hyr|].
    apply (Hb 0 1000).
    intros m [<-|[<-|[]]]; split; cbn; intros H; discriminate H.
Defined.

(** ** Aggregator: the rows of the join *)

Lemma df_where_rows {Row : Type} (col : string) (p : Row -> bool) (df df' : DataFrame Row) :
  df_where col p df = Ok df' -> rows df' = filter p (rows df).
Proof.
  unfold df_where. destruct (has_column col df); [|discriminate].
  intros [= <-]. reflexivity.
Qed.

Lemma filter_eq_rows {Row : Type} (col : string) (get : Row -> string)
    (v : option string) (df df' : DataFrame Row) :
  filter_eq col get v df = Ok df' ->
  forall r, In r (rows df') ->
    In r (rows df) /\ (forall s, truthy v = Some s -> get r = s).
Proof.
  unfold filter_eq. destruct (truthy v) as [s|].
  - intros H r Hr. rewrite (df_where_rows _ _ _ _ H) in Hr. apply filter_In in Hr.
    destruct Hr as [Hr Hs]. apply String.eqb_eq in Hs. split; [exact Hr|].
    intros s' [= <-]. exact Hs.
  - intros [= <-] r Hr. split; [exact Hr | discriminate].
Qed.

Lemma apply_filters_rows {Row : Type}
    (gender policy_type group smoking_status : Row -> string) (age : Row -> Z)
    (filters : option Filters) (df df' : DataFrame Row) :
  apply_filters gender policy_type group smoking_status age filters df = Ok df' ->
  forall r, In r (rows df') ->
    In r (rows df)
    /\ selected_by gender policy_type group smoking_status age filters r.
Proof.
  unfold apply_filters, selected_by. destruct filters as [f|].
  2:{ intros [= <-] r Hr. now split. }
  intros H r Hr.
  inv_rbind H as df1 H1. inv_rbind H as df2 H2. inv_rbind H as df3 H3.
  inv_rbind H as df4 H4. inv_rbind H as df5 H5.
  assert (H6 : In r (rows df5) /\ (forall hi, f_age_max f = Some hi -> (age r <= hi)%Z)).
  { destruct (f_age_max f) as [hi|].
    - rewrite (df_where_rows _ _ _ _ H) in Hr. apply filter_In in Hr.
      destruct Hr as [Hr Hhi]. apply Z.leb_le in Hhi. split; [exact Hr|].
      intros hi' [= <-]. exact Hhi.
    - injection H as <-. split; [exact Hr | discriminate]. }
  destruct H6 as [Hr5 Hmax].
  assert (H5' : In r (rows df4) /\ (forall lo, f_age_min f = Some lo -> (lo <= age r)%Z)).
  { destruct (f_age_min f) as [lo|].
    - rewrite (df_where_rows _ _ _ _ H5) in Hr5. apply filter_In in Hr5.
      destruct Hr5 as [Hr5 Hlo]. apply Z.geb_le in Hlo. split; [exact Hr5|].
      intros lo' [= <-]. exact Hlo.
    - injection H5 as <-. split; [exact Hr5 | discriminate]. }
  destruct H5' as [Hr4 Hmin].
  destruct (filter_eq_rows _ _ _ _ _ H4 r Hr4) as [Hr3 Hsmoking].
  destruct (filter_eq_rows _ _ _ _ _ H3 r Hr3) as [Hr2 Hgroup].
  destruct (filter_eq_rows _ _ _ _ _ H2 r Hr2) as [Hr1 Hpolicy].
  destruct (filter_eq_rows _ _ _ _ _ H1 r Hr1) as [Hr0 Hgender].
  repeat split; assumption.
Qed.

Lemma calculate_premiums_tags (self : PremiumForecaster) (y : Z)
    (mp : DataFrame MortalityRow) (ep : DataFrame EconomicRow) (country : string)
    (full : option (DataFrame EconomicRow)) (out : DataFrame PremiumRow) :
  calculate_premiums self y mp ep country full = Ok out ->
  forall p, In p (rows out) -> p_year p = y /\ p_country p = country.
Proof.
  unfold calculate_premiums.
  destruct (df_empty mp || negb (has_column "year" mp)); [discriminate|].
  destruct (df_empty (df_filter _ ep)); [discriminate|].
  destruct (rows (df_filter _ ep)) as [|ye rest]; [discriminate|].
  intros H. inv_rbind H as premiums Hc. injection H as <-.
  rewrite rows_DataFrame_of_records. intros p Hp.
  apply collect_Ok_inv in Hc. destruct Hc as [_ Hc]. apply Hc in Hp.
  destruct Hp as [b [_ Hrec]]. apply premium_record_Some_inv in Hrec.
  destruct Hrec as [m [rest' [_ [Hy [Hco _]]]]]. now split.
Qed.

Lemma merge_rows (yp : DataFrame PremiumRow) (ddf : DataFrame DemographicRow)
    (m : MergedRow) :
  In m (rows (merge yp ddf (merge_cols yp ddf))) ->
  In (left m) (rows yp) /\ In (right m) (rows ddf)
  /\ p_country (left m) = d_country (right m)
  /\ p_gender (left m) = d_gender (right m)
  /\ p_age (left m) = d_age (right m)
  /\ p_policy_type (left m) = d_policy_type (right m).
Proof.
  unfold merge. cbn [rows]. intros H. apply in_flat_map in H.
  destruct H as [p [Hp H]]. apply in_map_iff in H. destruct H as [d [<- Hd]].
  apply filter_In in Hd. destruct Hd as [Hd Hk]. cbn [left right].
  unfold merge_cols in Hk. cbn [app forallb] in Hk.
  repeat (apply andb_true_iff in Hk; let H := fresh "Hk" in destruct Hk as [H Hk]).
  cbn in Hk0, Hk1, Hk2, Hk3.
  apply String.eqb_eq in Hk0. apply String.eqb_eq in Hk1. apply Z.eqb_eq in Hk2.
  apply String.eqb_eq in Hk3. tauto.
Qed.

Lemma merged_for_year_rows (yp : DataFrame PremiumRow) (ddf : DataFrame DemographicRow)
    (filters : option Filters) (m : MergedRow) :
  In m (rows (merged_for_year yp ddf filters)) ->
  In m (rows (merge yp ddf (merge_cols yp ddf)))
  /\ (forall f v, filters = Some f -> truthy_int (f_sum_insured f) = Some v ->
        has_column "sum_insured" (merge yp ddf (merge_cols yp ddf)) = true ->
        d_sum_insured (right m) = v).
Proof.
  unfold merged_for_year. destruct filters as [f|]; [|intros H; split; [exact H|]].
  2:{ intros f v [=]. }
  destruct (truthy_int (f_sum_insured f)) as [v|] eqn:Ht.
  - destruct (has_column "sum_insured" (merge _ _ _)) eqn:E.
    + cbn [rows df_filter]. intros H. apply filter_In in H. destruct H as [H Hv].
      apply Z.eqb_eq in Hv. split; [exact H|]. intros f' v' [= <-] Hv' _. congruence.
    + intros H. split; [exact H|]. intros f' v' _ _ [=].
  - intros H. split; [exact H|]. intros f' v' [= <-] Hv'. congruence.
Qed.

(** X18: every row of the join of a year pairs a premium record of that
    year and of the country with a demographic row of the country that
    agrees with it on gender, age and policy type; both sides pass every
    filter asked for, and with a [sum_insured] filter (and a demographic
    table that has the column) the demographic side has that sum insured. *)
Theorem year_join_respects_filters :
  forall (np : Numpy) (self : PremiumForecaster) (s e : Z)
         (scenario_name country : string) (filters : option Filters) (g : rng_state)
         (y : Z) (merged : DataFrame MergedRow),
    year_join self s e scenario_name country filters g y = Ok merged ->
    forall m, In m (rows merged) ->
      p_year (left m) = y
      /\ p_country (left m) = country /\ d_country (right m) = country
      /\ In (right m) (rows (demographic_df self))
      /\ p_gender (left m) = d_gender (right m)
      /\ p_age (left m) = d_age (right m)
      /\ p_policy_type (left m) = d_policy_type (right m)
      /\ selected_by p_gender p_policy_type p_group p_smoking_status p_age filters (left m)
      /\ selected_by d_gender d_policy_type d_group d_smoking_status d_age filters
                     (right m)
      /\ (forall f v, filters = Some f -> truthy_int (f_sum_insured f) = Some v ->
            has_column "sum_insured" (demographic_df self) = true ->
            d_sum_insured (right m) = v).
Proof.
  intros np self s e scenario_name country filters g y merged H m Hm.
  unfold year_join in H.
  inv_rbind H as scenario Hs. inv_rbind H as mp Hmp. inv_rbind H as ep Hep.
  inv_rbind H as pdf Hpdf. inv_rbind H as ddf Hddf. inv_rbind H as yp Hyp.
  injection H as <-.
  apply merged_for_year_rows in Hm. destruct Hm as [Hm Hsum].
  apply merge_rows in Hm. destruct Hm as [Hl [Hr [Hkc [Hkg [Hka Hkp]]]]].
  rewrite (df_where_rows _ _ _ _ Hyp) in Hl. apply filter_In in Hl.
  destruct Hl as [Hl Hly]. apply Z.eqb_eq in Hly.
  pose proof Hpdf as Hpdf'. unfold filtered_premiums in Hpdf'.
  inv_rbind Hpdf' as frames Hframes. inv_rbind Hpdf' as all Hall.
  destruct (apply_filters_rows _ _ _ _ _ _ _ _ Hpdf' _ Hl) as [Hlall Hlsel].
  unfold pd_concat in Hall. destruct frames as [|f0 frames']; [discriminate|].
  injection Hall as <-.
  change (In (left m) (List.concat (map rows (f0 :: frames')))) in Hlall.
  apply in_concat in Hlall.
  destruct Hlall as [rs [Hrs Hlrs]]. apply in_map_iff in Hrs.
  destruct Hrs as [frame [<- Hframe]].
  destruct (rmap_Ok_In _ _ _ Hframes _ Hframe) as [y' [_ Hcalc]].
  destruct (calculate_premiums_tags _ _ _ _ _ _ _ Hcalc _ Hlrs) as [_ Hlc].
  unfold filtered_demographics in Hddf.
  destruct (apply_filters_rows _ _ _ _ _ _ _ _ Hddf _ Hr) as [Hrall Hrsel].
  cbn [rows df_filter] in Hrall. apply filter_In in Hrall.
  destruct Hrall as [Hrin Hrc]. apply String.eqb_eq in Hrc.
  repeat split; try assumption.
  intros f v Hf Hv Hcol. apply (Hsum f v Hf Hv).
  change (merge yp ddf (merge_cols yp ddf)) with (merged_for_year yp ddf None).
  rewrite merged_for_year_sum_insured.
  - unfold has_column. rewrite (apply_filters_columns _ _ _ _ _ _ _ _ Hddf). exact Hcol.
  - unfold has_column. rewrite (df_where_columns _ _ _ _ Hyp).
    exact (filtered_premiums_no_sum_insured _ _ _ _ _ _ _ _ Hpdf).
Qed.

Lemma year_join_respects_filters_witness :
  exists merged,
    @year_join stand_in_numpy (sample_forecaster 10 30) 2025 2026 "base" "India"
      (Some (mkFilters (Some "Male") None None None (Some 1000000%Z) (Some 18%Z) None))
      7%Z 2025
    = Ok merged
    /\ rows merged <> []
    /\ forall m, In m (rows merged) ->
         d_gender (right m) = "Male" /\ (18 <= p_age (left m))%Z
         /\ d_sum_insured (right m) = 1000000%Z.
Proof.
  destruct (@year_join stand_in_numpy (sample_forecaster 10 30) 2025 2026 "base" "India"
              (Some (mkFilters (Some "Male") None None None (Some 1000000%Z) (Some 18%Z)
                               None))
              7%Z 2025) as [merged|err] eqn:Hj; [|vm_compute in Hj; discriminate].
  exists merged. split; [reflexivity|]. split.
  - vm_compute in Hj. injection Hj as <-. discriminate.
  - intros m Hm.
    destruct (year_join_respects_filters stand_in_numpy _ _ _ _ _ _ _ _ _ Hj m Hm)
      as [_ [_ [_ [_ [_ [_ [_ [Hl [Hr Hs]]]]]]]]].
    destruct Hr as [Hg _]. destruct Hl as [_ [_ [_ [_ [Hmin _]]]]].
    split; [apply Hg; reflexivity|]. split; [apply Hmin; reflexivity|].
    apply (Hs _ _ eq_refl); reflexivity.
Defined.

(** ** Aggregator: the schema of a forecast *)

Lemma result_record_sum_insured (y : Z) (scenario_name : string)
    (merged : DataFrame MergedRow) (ep : DataFrame EconomicRow) (r : ForecastRow) :
  result_record y scenario_name merged ep = Ok (Some r) ->
  is_some (average_sum_insured r) = has_column "sum_insured" merged.
Proof.
  unfold result_record.
  destruct (negb (has_column "premium_per_unit" merged)); [discriminate|].
  destruct (df_empty (df_filter _ ep)); [discriminate|].
  destruct (rows (df_filter _ ep)); [discriminate|].
  intros [= <-]. cbn [average_sum_insured].
  now destruct (has_column "sum_insured" merged).
Qed.

Lemma existsb_constant {A : Type} (p : A -> bool) (c : bool) (l : list A) :
  l <> [] -> (forall a, In a l -> p a = c) -> existsb p l = c.
Proof.
  intros Hne H. destruct l as [|a l]; [congruence|]. clear Hne.
  destruct c.
  - apply existsb_exists. exists a. split; [now left | apply H; now left].
  - destruct (existsb p (a :: l)) eqn:E; [|reflexivity].
    apply existsb_exists in E. destruct E as [x [Hx Hp]]. rewrite (H x Hx) in Hp.
    discriminate.
Qed.

(** What a forecast that returns is made of. *)
Lemma forecast_frame `{np : Numpy} (self : PremiumForecaster) (s e : Z)
    (scenario_name country : string) (filters : option Filters) (g g' : rng_state)
    (df : DataFrame ForecastRow) :
  forecast_average_premium self s e scenario_name country filters g = (Ok df, g') ->
  (forall r, In r (rows df) ->
     (s <= year r <= e)%Z /\ scenario r = scenario_name
     /\ is_some (average_sum_insured r) = has_column "sum_insured" (demographic_df self))
  /\ df = DataFrame_of_records
            (forecast_columns (has_column "sum_insured" (demographic_df self))) (rows df).
Proof.
  intros H. apply forecast_average_premium_Ok_inv in H.
  destruct H as [sc [mp [ep [Hs [Hm [He Ha]]]]]].
  unfold aggregate in Ha. inv_rbind Ha as pdf Hpdf. inv_rbind Ha as ddf Hddf.
  inv_rbind Ha as results Hres. injection Ha as <-.
  rewrite rows_DataFrame_of_records.
  assert (Hrow : forall r, In r results ->
            (s <= year r <= e)%Z /\ scenario r = scenario_name
            /\ is_some (average_sum_insured r)
               = has_column "sum_insured" (demographic_df self)).
  { intros r Hr. apply collect_Ok_inv in Hres. destruct Hres as [_ Hres].
    apply Hres in Hr. destruct Hr as [y [Hy Hr]]. apply py_range_In in Hy.
    apply forecast_year_Some in Hr.
    destruct Hr as [Hyr [Hsc [yp [Hyp [_ Hrec]]]]].
    split; [lia|]. split; [exact Hsc|].
    rewrite (result_record_sum_insured _ _ _ _ _ Hrec).
    rewrite merged_for_year_sum_insured.
    - unfold filtered_demographics in Hddf. unfold has_column.
      now rewrite (apply_filters_columns _ _ _ _ _ _ _ _ Hddf).
    - unfold has_column. rewrite (df_where_columns _ _ _ _ Hyp).
      exact (filtered_premiums_no_sum_insured _ _ _ _ _ _ _ _ Hpdf). }
  split; [exact Hrow|].
  destruct results as [|r0 results']; [reflexivity|].
  rewrite (existsb_constant _ (has_column "sum_insured" (demographic_df self)));
    [reflexivity | discriminate |].
  intros r Hr. now apply Hrow.
Qed.

(** X19: the schema of a forecast is decided by the demographic table.
    A forecast with rows has the ten columns of the record, and
    [average_sum_insured] as an eleventh exactly when the demographic table
    has a [sum_insured] column; each row then holds the value, and none
    does otherwise.  A forecast without rows has no columns at all, so the
    test [not results.empty and 'scenario' in results.columns] of
    [compare_scenarios] holds exactly for the forecasts with rows. *)
Theorem forecast_schema :
  forall (np : Numpy) (self : PremiumForecaster) (s e : Z)
         (scenario_name country : string) (filters : option Filters)
         (g g' : rng_state) (df : DataFrame ForecastRow),
    forecast_average_premium self s e scenario_name country filters g = (Ok df, g') ->
    (rows df = [] -> columns df = [])
    /\ (rows df <> [] ->
        columns df = forecast_columns (has_column "sum_insured" (demographic_df self)))
    /\ (forall r, In r (rows df) ->
          is_some (average_sum_insured r)
          = has_column "sum_insured" (demographic_df self))
    /\ negb (df_empty df) && has_column "scenario" df
       = negb (match rows df with [] => true | _ => false end).
Proof.
  intros np self s e scenario_name country filters g g' df H.
  destruct (forecast_frame self s e scenario_name country filters g g' df H)
    as [Hrow Hdf].
  destruct (rows df) as [|r0 rest] eqn:Hrows.
  - rewrite Hdf. cbn. repeat split; try reflexivity; try congruence.
    intros r [].
  - rewrite Hdf. cbn [DataFrame_of_records columns].
    split; [discriminate|]. split; [reflexivity|].
    split; [intros r Hr; now apply Hrow|].
    destruct (has_column "sum_insured" (demographic_df self)); reflexivity.
Qed.

Lemma forecast_schema_witness :
  exists df,
    fst (@forecast_average_premium stand_in_numpy (sample_forecaster 10 30) 2025 2026
           "base" "India" None 7%Z)
    = Ok df
    /\ columns df = forecast_columns true.
Proof.
  destruct (@forecast_average_premium stand_in_numpy (sample_forecaster 10 30) 2025 2026
              "base" "India" None 7%Z) as [[df|err] g'] eqn:Hf;
    [|vm_compute in Hf; discriminate].
  exists df. split; [reflexivity|].
  destruct (forecast_schema stand_in_numpy _ _ _ _ _ _ _ _ _ Hf) as [_ [Hcols _]].
  apply Hcols. vm_compute in Hf. injection Hf as <- _. discriminate.
Defined.

(** ** Scenario comparison: the rows it returns *)

(** X20: [compare_scenarios] never raises, and its rows are exactly the
    rows of the forecasts of the registered scenarios that return: no row
    of a forecast that returns is dropped, and none is added.  Every row
    carries a registered scenario name and a year of the range. *)
Theorem compare_scenarios_rows :
  forall (np : Numpy) (self : PremiumForecaster) (s e : Z) (country : string)
         (filters : option Filters) (g : rng_state),
  exists out,
    fst (compare_scenarios self s e country filters g) = Ok out
    /\ (forall r,
          In r (rows out)
          <-> exists scenario_name df,
                In scenario_name (map fst (scenarios self))
                /\ fst (forecast_average_premium self s e scenario_name country
                                                 filters g) = Ok df
                /\ In r (rows df))
    /\ (forall r, In r (rows out) ->
          In (scenario r) (map fst (scenarios self)) /\ (s <= year r <= e)%Z).
Proof.
  intros np self s e country filters g.
  destruct (compare_scenarios_partial_results self s e country filters g)
    as [out [Hout [Hrows _]]].
  exists out. split; [exact Hout|].
  assert (Hmem : forall r,
            In r (rows out)
            <-> exists scenario_name df,
                  In scenario_name (map fst (scenarios self))
                  /\ fst (forecast_average_premium self s e scenario_name country
                                                   filters g) = Ok df
                  /\ In r (rows df)).
  { intros r. rewrite Hrows. rewrite in_flat_map. split.
    - intros [name [Hname Hr]]. apply in_flat_map in Hr. destruct Hr as [df [Hdf Hr]].
      exists name, df. split; [exact Hname|]. split; [|exact Hr].
      unfold contributed in Hdf.
      destruct (fst (forecast_average_premium self s e name country filters g))
        as [results|err]; [|destruct Hdf].
      destruct (negb (df_empty results) && has_column "scenario" results);
        [|destruct Hdf].
      destruct Hdf as [<-|[]]. reflexivity.
    - intros [name [df [Hname [Hf Hr]]]]. exists name. split; [exact Hname|].
      apply in_flat_map. exists df. split; [|exact Hr].
      unfold contributed. rewrite Hf.
      destruct (forecast_average_premium self s e name country filters g)
        as [res g'] eqn:Hfg. cbn [fst] in Hf. subst res.
      destruct (forecast_frame self s e name country filters g g' df Hfg) as [_ Hdf].
      assert (Hc : negb (df_empty df) && has_column "scenario" df = true).
      { rewrite Hdf. destruct (rows df) as [|r0 rest]; [destruct Hr|].
        cbn [DataFrame_of_records].
        destruct (has_column "sum_insured" (demographic_df self)); reflexivity. }
      rewrite Hc. now left. }
  split; [exact Hmem|].
  intros r Hr. apply Hmem in Hr. destruct Hr as [name [df [Hname [Hf Hr]]]].
  destruct (forecast_average_premium self s e name country filters g)
    as [res g'] eqn:Hfg. cbn [fst] in Hf. subst res.
  destruct (forecast_frame self s e name country filters g g' df Hfg) as [Hrow _].
  destruct (Hrow r Hr) as [Hy [Hsc _]]. rewrite Hsc. now split.
Qed.

(** ** The data table of the dashboard *)

Lemma table_filters_rows (filters : Filters) (df df' : DataFrame DemographicRow) :
  table_filters filters df = Ok df' ->
  columns df' = columns df
  /\ forall r, In r (rows df') ->
       In r (rows df)
       /\ selected_by d_gender d_policy_type d_group d_smoking_status d_age
                      (Some filters) r
       /\ (forall v, truthy_int (f_sum_insured filters) = Some v -> d_sum_insured r = v).
Proof.
  unfold table_filters, selected_by. intros H.
  inv_rbind H as df1 H1. inv_rbind H as df2 H2. inv_rbind H as df3 H3.
  inv_rbind H as df4 H4. inv_rbind H as df5 H5. inv_rbind H as df6 H6.
  assert (C7 : columns df' = columns df6).
  { destruct (f_age_max filters); [eapply df_where_columns; exact H|].
    now injection H as <-. }
  assert (C6 : columns df6 = columns df5).
  { destruct (f_age_min filters); [eapply df_where_columns; exact H6|].
    now injection H6 as <-. }
  assert (C5 : columns df5 = columns df4).
  { destruct (truthy_int (f_sum_insured filters)); [eapply df_where_columns; exact H5|].
    now injection H5 as <-. }
  split.
  { rewrite C7, C6, C5, (filter_eq_columns _ _ _ _ _ H4), (filter_eq_columns _ _ _ _ _ H3),
      (filter_eq_columns _ _ _ _ _ H2). exact (filter_eq_columns _ _ _ _ _ H1). }
  intros r Hr.
  assert (R7 : In r (rows df6) /\ (forall hi, f_age_max filters = Some hi ->
                                              (d_age r <= hi)%Z)).
  { destruct (f_age_max filters) as [hi|].
    - rewrite (df_where_rows _ _ _ _ H) in Hr. apply filter_In in Hr.
      destruct Hr as [Hr Hhi]. apply Z.leb_le in Hhi. split; [exact Hr|].
      intros hi' [= <-]. exact Hhi.
    - injection H as <-. split; [exact Hr | discriminate]. }
  destruct R7 as [Hr6 Hmax].
  assert (R6 : In r (rows df5) /\ (forall lo, f_age_min filters = Some lo ->
                                              (lo <= d_age r)%Z)).
  { destruct (f_age_min filters) as [lo|].
    - rewrite (df_where_rows _ _ _ _ H6) in Hr6. apply filter_In in Hr6.
      destruct Hr6 as [Hr6 Hlo]. apply Z.geb_le in Hlo. split; [exact Hr6|].
      intros lo' [= <-]. exact Hlo.
    - injection H6 as <-. split; [exact Hr6 | discriminate]. }
  destruct R6 as [Hr5 Hmin].
  assert (R5 : In r (rows df4)
               /\ (forall v, truthy_int (f_sum_insured filters) = Some v ->
                             d_sum_insured r = v)).
  { destruct (truthy_int (f_sum_insured filters)) as [v|].
    - rewrite (df_where_rows _ _ _ _ H5) in Hr5. apply filter_In in Hr5.
      destruct Hr5 as [Hr5 Hv]. apply Z.eqb_eq in Hv. split; [exact Hr5|].
      intros v' [= <-]. exact Hv.
    - injection H5 as <-. split; [exact Hr5 | discriminate]. }
  destruct R5 as [Hr4 Hsum].
  destruct (filter_eq_rows _ _ _ _ _ H4 r Hr4) as [Hr3 Hsmoking].
  destruct (filter_eq_rows _ _ _ _ _ H3 r Hr3) as [Hr2 Hpolicy].
  destruct (filter_eq_rows _ _ _ _ _ H2 r Hr2) as [Hr1 Hgroup].
  destruct (filter_eq_rows _ _ _ _ _ H1 r Hr1) as [Hr0 Hgender].
  repeat split; assumption.
Qed.

Lemma table_merge_rows (filtered_demo : DataFrame DemographicRow)
    (base_country : DataFrame BasePremiumRow) (base_premium_df : DataFrame BasePremiumRow)
    (merged : DataFrame TableJoin) (row : TableJoin) :
  table_merge filtered_demo base_country (table_merge_cols filtered_demo base_premium_df)
  = Ok merged ->
  In row (rows merged) ->
  In (demo_side row) (rows filtered_demo) /\ In (base_side row) (rows base_country)
  /\ d_country (demo_side row) = b_country (base_side row)
  /\ d_group (demo_side row) = b_group (base_side row)
  /\ d_gender (demo_side row) = b_gender (base_side row)
  /\ d_age (demo_side row) = b_age (base_side row)
  /\ d_policy_type (demo_side row) = b_policy_type (base_side row).
Proof.
  unfold table_merge. destruct (find _ _); [discriminate|]. intros [= <-].
  cbn [rows]. intros H. apply in_flat_map in H.
  destruct H as [d [Hd H]]. apply in_map_iff in H. destruct H as [b [<- Hb]].
  apply filter_In in Hb. destruct Hb as [Hb Hk]. cbn [demo_side base_side].
  unfold table_merge_cols in Hk. cbn [app forallb] in Hk.
  repeat (apply andb_true_iff in Hk; let H := fresh "Hk" in destruct Hk as [H Hk]).
  cbn in Hk0, Hk1, Hk2, Hk3, Hk4.
  apply String.eqb_eq in Hk0. apply String.eqb_eq in Hk1. apply String.eqb_eq in Hk2.
  apply Z.eqb_eq in Hk3. apply String.eqb_eq in Hk4. tauto.
Qed.

Lemma year_rows_or_latest_In {Row : Type} (year_of : Row -> Z)
    (country_of : Row -> string) (df : DataFrame Row) (y : Z) (country : string) (r : Row) :
  In r (rows (year_rows_or_latest year_of country_of df y country)) ->
  In r (rows df) /\ country_of r = country
  /\ (year_of r = y
      \/ (df_empty (df_filter (fun r => (year_of r =? y)%Z
                                        && String.eqb (country_of r) country) df) = true
          /\ series_max (map year_of (rows df)) = Some (year_of r))).
Proof.
  unfold year_rows_or_latest.
  destruct (df_empty (df_filter _ df)) eqn:E; cbn [rows df_filter]; intros H;
    apply filter_In in H; destruct H as [Hin H]; apply andb_true_iff in H;
    destruct H as [Hy Hc]; apply String.eqb_eq in Hc.
  - split; [exact Hin|]. split; [exact Hc|]. right. split; [reflexivity|].
    destruct (series_max (map year_of (rows df))) as [m|]; [|discriminate].
    cbn in Hy. apply Z.eqb_eq in Hy. now subst.
  - apply Z.eqb_eq in Hy. tauto.
Qed.

Lemma table_row_Some (scenario_name : option string) (country : string) (year : Z)
    (filtered_demo : DataFrame DemographicRow) (merged : DataFrame TableJoin)
    (economic_df : DataFrame EconomicRow) (econ_data : EconomicRow)
    (year_mortality : DataFrame MortalityRow) (row : TableJoin) (t : TableRow) :
  table_row scenario_name country year filtered_demo merged economic_df econ_data
            year_mortality row = Ok (Some t) ->
  exists m,
    In m (rows year_mortality)
    /\ m_age m = d_age (demo_side row) /\ m_gender m = d_gender (demo_side row)
    /\ t = {| t_year := year;
              t_scenario := table_scenario scenario_name;
              t_country := country;
              t_group := d_group (demo_side row);
              t_gender := d_gender (demo_side row);
              t_age := d_age (demo_side row);
              t_policy_type := d_policy_type (demo_side row);
              t_policy_count := d_policy_count (demo_side row);
              t_mortality_rate := m_mortality_rate m;
              t_life_expectancy := m_life_expectancy m;
              t_inflation_rate := e_inflation_rate econ_data;
              t_interest_rate := e_interest_rate econ_data;
              t_gdp_growth := e_gdp_growth econ_data;
              t_premium_per_unit :=
                if has_column "premium_per_unit" merged
                then Some (b_premium_per_unit (base_side row))
                else if has_column "base_premium" merged
                     then Some (b_base_premium (base_side row) / 10.0)
                     else None;
              t_base_premium :=
                if has_column "premium_per_unit" merged then
                  Some (if has_column "sum_insured" merged
                        then b_premium_per_unit (base_side row)
                             * (inject_Z (d_sum_insured (demo_side row)) / 100000.0)
                        else b_premium_per_unit (base_side row) * 10.0)
                else if has_column "base_premium" merged
                     then Some (b_base_premium (base_side row))
                     else None;
              t_sum_insured := if has_column "sum_insured" merged
                               then Some (d_sum_insured (demo_side row)) else None;
              t_smoking_status :=
                if has_column "smoking_status" merged
                then Some (row_smoking_status filtered_demo row) else None |}.
Proof.
  unfold table_row.
  destruct (filter _ (rows year_mortality)) as [|m rest] eqn:Hf; [discriminate|].
  destruct (negb (has_column "gdp_growth" economic_df)); [discriminate|].
  intros [= <-]. exists m.
  assert (Hm : In m (m :: rest)) by now left.
  rewrite <- Hf in Hm. apply filter_In in Hm. destruct Hm as [Hm Hk].
  apply andb_true_iff in Hk. destruct Hk as [Hk _].
  apply andb_true_iff in Hk. destruct Hk as [Ha Hg].
  apply Z.eqb_eq in Ha. apply String.eqb_eq in Hg. repeat split; assumption.
Qed.

(** What one row of the table is made of. *)
Lemma data_table_row_inv (mortality_df : DataFrame MortalityRow)
    (economic_df : DataFrame EconomicRow) (base_premium_df : DataFrame BasePremiumRow)
    (demographic_df : DataFrame DemographicRow) (s e : Z) (filters : Filters)
    (country : string) (scenario_name : option string) (df : DataFrame TableRow)
    (t : TableRow) :
  prepare_filtered_data_table mortality_df economic_df base_premium_df demographic_df
                              s e filters country scenario_name = Ok df ->
  In t (rows df) ->
  exists filtered_demo merged y econ_data year_mortality row,
    table_filters filters
      (df_filter (fun d => String.eqb (d_country d) country) demographic_df)
    = Ok filtered_demo
    /\ table_merge filtered_demo
         (df_filter (fun b => String.eqb (b_country b) country) base_premium_df)
         (table_merge_cols filtered_demo base_premium_df) = Ok merged
    /\ (s <= y <= e)%Z
    /\ In econ_data (rows (year_rows_or_latest e_year e_country economic_df y country))
    /\ year_mortality = year_rows_or_latest m_year m_country mortality_df y country
    /\ In row (rows merged)
    /\ table_row scenario_name country y filtered_demo merged economic_df econ_data
                 year_mortality row = Ok (Some t).
Proof.
  unfold prepare_filtered_data_table. intros H Ht.
  inv_rbind H as filtered_demo Hfd. inv_rbind H as merged Hmerged.
  inv_rbind H as appended Happ. injection H as <-.
  rewrite rows_DataFrame_of_records in Ht. apply in_concat in Ht.
  destruct Ht as [ts [Hts Ht]].
  destruct (rmap_Ok_In _ _ _ Happ _ Hts) as [y [Hy Hyear]].
  apply py_range_In in Hy. unfold table_year in Hyear.
  destruct (df_empty (year_rows_or_latest e_year e_country economic_df y country));
    [injection Hyear as <-; destruct Ht|].
  destruct (rows (year_rows_or_latest e_year e_country economic_df y country))
    as [|econ_data rest] eqn:Hec; [injection Hyear as <-; destruct Ht|].
  apply collect_Ok_inv in Hyear. destruct Hyear as [_ Hyear].
  apply Hyear in Ht. destruct Ht as [row [Hrow Ht]].
  exists filtered_demo, merged, y, econ_data,
    (year_rows_or_latest m_year m_country mortality_df y country), row.
  split; [exact Hfd|]. split; [exact Hmerged|]. split; [lia|].
  split; [rewrite Hec; now left|]. split; [reflexivity|]. split; assumption.
Qed.

(** X21: every row of the data table is one demographic row of the
    country that passes all seven filters, joined with a base premium row
    of the same country, group, gender, age and policy type, for one year
    of the range.  Its mortality figures are those of a mortality row of
    the country with the same age and gender, of that year or, when the
    table has none for that year and country, of its latest year; its
    economic figures likewise.  The scenario is the name given, and
    ["base"] when none (or the empty name) is given. *)
Theorem data_table_rows (mortality_df : DataFrame MortalityRow)
    (economic_df : DataFrame EconomicRow) (base_premium_df : DataFrame BasePremiumRow)
    (demographic_df : DataFrame DemographicRow) (s e : Z) (filters : Filters)
    (country : string) (scenario_name : option string) (df : DataFrame TableRow) :
  prepare_filtered_data_table mortality_df economic_df base_premium_df demographic_df
                              s e filters country scenario_name = Ok df ->
  forall t, In t (rows df) ->
    (s <= t_year t <= e)%Z /\ t_country t = country
    /\ t_scenario t = table_scenario scenario_name
    /\ (exists d b,
          In d (rows demographic_df) /\ In b (rows base_premium_df)
          /\ d_country d = country /\ b_country b = country
          /\ b_group b = d_group d /\ b_gender b = d_gender d /\ b_age b = d_age d
          /\ b_policy_type b = d_policy_type d
          /\ t_group t = d_group d /\ t_gender t = d_gender d /\ t_age t = d_age d
          /\ t_policy_type t = d_policy_type d /\ t_policy_count t = d_policy_count d
          /\ selected_by d_gender d_policy_type d_group d_smoking_status d_age
                         (Some filters) d
          /\ (forall v, truthy_int (f_sum_insured filters) = Some v ->
                d_sum_insured d = v))
    /\ (exists m,
          In m (rows mortality_df) /\ m_country m = country
          /\ m_age m = t_age t /\ m_gender m = t_gender t
          /\ t_mortality_rate t = m_mortality_rate m
          /\ t_life_expectancy t = m_life_expectancy m
          /\ (m_year m = t_year t
              \/ (df_empty (df_filter (fun r => (m_year r =? t_year t)%Z
                                                && String.eqb (m_country r) country)
                                      mortality_df) = true
                  /\ series_max (map m_year (rows mortality_df)) = Some (m_year m))))
    /\ (exists ec,
          In ec (rows economic_df) /\ e_country ec = country
          /\ t_inflation_rate t = e_inflation_rate ec
          /\ t_interest_rate t = e_interest_rate ec
          /\ t_gdp_growth t = e_gdp_growth ec
          /\ (e_year ec = t_year t
              \/ (df_empty (df_filter (fun r => (e_year r =? t_year t)%Z
                                                && String.eqb (e_country r) country)
                                      economic_df) = true
                  /\ series_max (map e_year (rows economic_df)) = Some (e_year ec)))).
Proof.
  intros H t Ht.
  destruct (data_table_row_inv _ _ _ _ _ _ _ _ _ _ _ H Ht)
    as [fd [merged [y [ec [ym [row [Hfd [Hmerged [Hy [Hec [-> [Hrow Hrec]]]]]]]]]]]].
  apply table_row_Some in Hrec. destruct Hrec as [m [Hm [Hma [Hmg ->]]]].
  cbn [t_year t_country t_scenario t_group t_gender t_age t_policy_type t_policy_count
       t_mortality_rate t_life_expectancy t_inflation_rate t_interest_rate t_gdp_growth].
  destruct (table_merge_rows _ _ _ _ _ Hmerged Hrow)
    as [Hd [Hb [Kc [Kg [Kge [Ka Kp]]]]]].
  destruct (table_filters_rows _ _ _ Hfd) as [_ Hsel].
  destruct (Hsel _ Hd) as [Hd0 [Hpass Hsum]].
  cbn [rows df_filter] in Hd0, Hb. apply filter_In in Hd0. destruct Hd0 as [Hd0 Hdc].
  apply filter_In in Hb. destruct Hb as [Hb Hbc].
  apply String.eqb_eq in Hdc. apply String.eqb_eq in Hbc.
  apply year_rows_or_latest_In in Hm. destruct Hm as [Hm [Hmc Hmy]].
  apply year_rows_or_latest_In in Hec. destruct Hec as [Hec [Hecc Hecy]].
  split; [exact Hy|]. split; [reflexivity|]. split; [reflexivity|].
  split; [|split].
  - exists (demo_side row), (base_side row). repeat split; try assumption;
      try congruence; try reflexivity; apply Hpass.
  - exists m. repeat split; assumption.
  - exists ec. repeat split; assumption.
Qed.

Lemma data_table_rows_witness :
  exists df,
    prepare_filtered_data_table sample_mortality sample_economic sample_base_premium
      (sample_demographic 10 30) 2024 2026
      (mkFilters (Some "Male") None None None None (Some 20%Z) (Some 80%Z)) "India" None
    = Ok df
    /\ rows df <> []
    /\ forall t, In t (rows df) ->
         (2024 <= t_year t <= 2026)%Z /\ t_country t = "India" /\ t_scenario t = "base".
Proof.
  destruct (prepare_filtered_data_table sample_mortality sample_economic
              sample_base_premium (sample_demographic 10 30) 2024 2026
              (mkFilters (Some "Male") None None None None (Some 20%Z) (Some 80%Z))
              "India" None) as [df|err] eqn:Hp; [|vm_compute in Hp; discriminate].
  exists df. split; [reflexivity|]. split.
  - vm_compute in Hp. injection Hp as <-. discriminate.
  - intros t Ht. destruct (data_table_rows _ _ _ _ _ _ _ _ _ _ Hp t Ht) as [Hy [Hc [Hs _]]].
    split; [exact Hy|]. split; [exact Hc | exact Hs].
Defined.

(** X22: the two premium columns of the data table.  A row has both
    [premium_per_unit] and [base_premium] or neither.  With a
    [premium_per_unit] column in the join the base premium is the premium
    per unit times the sum insured in lakhs, or times 10 when the row has
    no sum insured; with only a legacy [base_premium] column the premium
    per unit is a tenth of it.  So a row without sum insured always has a
    base premium of ten times its premium per unit. *)
Theorem data_table_premiums (mortality_df : DataFrame MortalityRow)
    (economic_df : DataFrame EconomicRow) (base_premium_df : DataFrame BasePremiumRow)
    (demographic_df : DataFrame DemographicRow) (s e : Z) (filters : Filters)
    (country : string) (scenario_name : option string) (df : DataFrame TableRow) :
  prepare_filtered_data_table mortality_df economic_df base_premium_df demographic_df
                              s e filters country scenario_name = Ok df ->
  forall t, In t (rows df) ->
    (t_premium_per_unit t = None <-> t_base_premium t = None)
    /\ (forall per_unit premium,
          t_premium_per_unit t = Some per_unit -> t_base_premium t = Some premium ->
          (t_sum_insured t = None -> premium == per_unit * 10)
          /\ (forall sum_insured, t_sum_insured t = Some sum_insured ->
                premium == per_unit * (inject_Z sum_insured / 100000)
                \/ (has_column "premium_per_unit" base_premium_df = false
                    /\ premium == per_unit * 10)))
    /\ (has_column "premium_per_unit" base_premium_df = true ->
        exists b, In b (rows base_premium_df) /\ b_country b = country
                  /\ t_premium_per_unit t = Some (b_premium_per_unit b)).
Proof.
  intros H t Ht.
  destruct (data_table_row_inv _ _ _ _ _ _ _ _ _ _ _ H Ht)
    as [fd [merged [y [ec [ym [row [Hfd [Hmerged [Hy [Hec [-> [Hrow Hrec]]]]]]]]]]]].
  apply table_row_Some in Hrec. destruct Hrec as [m [_ [_ [_ ->]]]].
  cbn [t_premium_per_unit t_base_premium t_sum_insured].
  destruct (table_merge_rows _ _ _ _ _ Hmerged Hrow) as [_ [Hb _]].
  cbn [rows df_filter] in Hb. apply filter_In in Hb. destruct Hb as [Hb Hbc].
  apply String.eqb_eq in Hbc.
  assert (Hcols : has_column "premium_per_unit" base_premium_df = true ->
                  has_column "premium_per_unit" merged = true).
  { intros Hc. unfold table_merge in Hmerged. destruct (find _ _); [discriminate|].
    injection Hmerged as <-. unfold has_column. cbn [columns]. rewrite existsb_app.
    apply orb_true_iff. right. cbn [df_filter columns].
    rewrite existsb_filter_kept; [exact Hc|].
    unfold table_merge_cols. destruct (_ && _); reflexivity. }
  split; [|split].
  - destruct (has_column "premium_per_unit" merged);
      [|destruct (has_column "base_premium" merged)]; split; congruence.
  - intros per_unit premium Hpu Hbp.
    destruct (has_column "premium_per_unit" merged) eqn:Hppu.
    + injection Hpu as <-. injection Hbp as <-.
      destruct (has_column "sum_insured" merged).
      * split; [discriminate|]. intros si [= <-]. left.
        unfold Qdiv. setoid_replace (/ 100000.0) with (/ 100000) by reflexivity.
        reflexivity.
      * split; [intros _; unfold Qeq; cbn; lia | discriminate].
    + destruct (has_column "base_premium" merged); [|discriminate].
      injection Hpu as <-. injection Hbp as <-.
      assert (Hten : b_base_premium (base_side row)
                     == b_base_premium (base_side row) / 10.0 * 10) by (field; discriminate).
      split; [intros _; exact Hten|]. intros si _. right. split; [|exact Hten].
      destruct (has_column "premium_per_unit" base_premium_df); [|reflexivity].
      specialize (Hcols eq_refl). congruence.
  - intros Hc. rewrite (Hcols Hc). exists (base_side row). repeat split; assumption.
Qed.

Lemma data_table_premiums_witness :
  exists df,
    prepare_filtered_data_table sample_mortality sample_economic sample_base_premium
      (sample_demographic 10 30) 2024 2026
      (mkFilters None None None None None (Some 20%Z) (Some 80%Z)) "India" (Some "optimistic")
    = Ok df
    /\ rows df <> []
    /\ forall t, In t (rows df) -> t_premium_per_unit t = None <-> t_base_premium t = None.
Proof.
  destruct (prepare_filtered_data_table sample_mortality sample_economic
              sample_base_premium (sample_demographic 10 30) 2024 2026
              (mkFilters None None None None None (Some 20%Z) (Some 80%Z))
              "India" (Some "optimistic")) as [df|err] eqn:Hp;
    [|vm_compute in Hp; discriminate].
  exists df. split; [reflexivity|]. split.
  - vm_compute in Hp. injection Hp as <-. discriminate.
  - intros t Ht. destruct (data_table_premiums _ _ _ _ _ _ _ _ _ _ Hp t Ht) as [Hiff _].
    exact Hiff.
Defined.

(** ** The data table: when it is returned *)

Lemma key_errors_incl {A : Type} (cols cols' : list string) (r : result A) :
  incl cols cols' -> key_errors cols r -> key_errors cols' r.
Proof.
  intros Hi [H|[c [Hc H]]]; [now left | right]. exists c. split; [now apply Hi | exact H].
Qed.

Lemma key_errors_rbind {A B : Type} (cols : list string) (r : result A)
    (k : A -> result B) :
  key_errors cols r -> (forall a, r = Ok a -> key_errors cols (k a)) ->
  key_errors cols (rbind r k).
Proof.
  intros [[a ->]|[c [Hc ->]]] Hk; cbn [rbind]; [now apply Hk|].
  right. eauto.
Qed.

Lemma df_where_key_errors {Row : Type} (col : string) (p : Row -> bool)
    (df : DataFrame Row) :
  key_errors [col] (df_where col p df).
Proof.
  unfold df_where. destruct (has_column col df); [left; eauto|].
  right. exists col. split; [now left | reflexivity].
Qed.

Lemma filter_eq_key_errors {Row : Type} (col : string) (get : Row -> string)
    (v : option string) (df : DataFrame Row) :
  key_errors [col] (filter_eq col get v df).
Proof.
  unfold filter_eq. destruct (truthy v); [apply df_where_key_errors | left; eauto].
Qed.

Lemma collect_key_errors {A B : Type} (cols : list string)
    (body : A -> result (option B)) (xs : list A) :
  (forall x, key_errors cols (body x)) -> key_errors cols (collect body xs).
Proof.
  intros H. induction xs as [|x xs IH]; cbn [collect]; [left; eauto|].
  apply key_errors_rbind; [apply H|]. intros o _.
  apply key_errors_rbind; [exact IH|]. intros rs _. left. eauto.
Qed.

Lemma rmap_key_errors {A B : Type} (cols : list string) (body : A -> result B)
    (xs : list A) :
  (forall x, key_errors cols (body x)) -> key_errors cols (rmap body xs).
Proof.
  intros H. induction xs as [|x xs IH]; cbn [rmap]; [left; eauto|].
  apply key_errors_rbind; [apply H|]. intros y _.
  apply key_errors_rbind; [exact IH|]. intros ys _. left. eauto.
Qed.

(** X23: [prepare_filtered_data_table] raises nothing but [KeyError], and
    only for a column it filters or joins on, or for [gdp_growth]. *)
Theorem data_table_key_errors (mortality_df : DataFrame MortalityRow)
    (economic_df : DataFrame EconomicRow) (base_premium_df : DataFrame BasePremiumRow)
    (demographic_df : DataFrame DemographicRow) (s e : Z) (filters : Filters)
    (country : string) (scenario_name : option string) :
  key_errors table_key_columns
    (prepare_filtered_data_table mortality_df economic_df base_premium_df demographic_df
                                 s e filters country scenario_name).
Proof.
  unfold prepare_filtered_data_table.
  apply key_errors_rbind.
  { unfold table_filters.
    repeat (apply key_errors_rbind;
            [first [ eapply key_errors_incl; [|apply filter_eq_key_errors];
                     intros c [<-|[]]; unfold table_key_columns; cbn; tauto
                   | idtac ]
            | intros ? _ ]).
    - destruct (truthy_int _); [|left; eauto].
      eapply key_errors_incl; [|apply df_where_key_errors].
      intros c [<-|[]]; unfold table_key_columns; cbn; tauto.
    - destruct (f_age_min _); [|left; eauto].
      eapply key_errors_incl; [|apply df_where_key_errors].
      intros c [<-|[]]; unfold table_key_columns; cbn; tauto.
    - destruct (f_age_max _); [|left; eauto].
      eapply key_errors_incl; [|apply df_where_key_errors].
      intros c [<-|[]]; unfold table_key_columns; cbn; tauto. }
  intros filtered_demo _. apply key_errors_rbind.
  { unfold table_merge. destruct (find _ _) as [c|] eqn:Hf; [|left; eauto].
    right. exists c. split; [|reflexivity].
    apply find_some in Hf. destruct Hf as [Hc _]. unfold table_merge_cols in Hc.
    apply in_app_or in Hc. unfold table_key_columns. destruct Hc as [Hc|Hc].
    - cbn in Hc |- *. tauto.
    - destruct (_ && _); cbn in Hc |- *; tauto. }
  intros merged _. apply key_errors_rbind; [|intros appended _; left; eauto].
  apply rmap_key_errors. intros y. unfold table_year.
  destruct (df_empty _); [left; eauto|].
  destruct (rows (year_rows_or_latest e_year e_country economic_df y country));
    [left; eauto|].
  apply collect_key_errors. intros row. unfold table_row.
  destruct (filter _ _); [left; eauto|].
  destruct (negb (has_column "gdp_growth" economic_df)); [|left; eauto].
  right. exists "gdp_growth". split; [unfold table_key_columns; cbn; tauto | reflexivity].
Qed.

Lemma has_column_columns {A B : Type} (c : string) (df : DataFrame A) (df' : DataFrame B) :
  columns df' = columns df -> has_column c df' = has_column c df.
Proof. unfold has_column. now intros ->. Qed.

Lemma filter_eq_returns {Row : Type} (col : string) (get : Row -> string)
    (v : option string) (df : DataFrame Row) :
  has_column col df = true ->
  exists df', filter_eq col get v df = Ok df' /\ columns df' = columns df.
Proof.
  intros H. unfold filter_eq, df_where. rewrite H. destruct (truthy v); eauto.
Qed.

Lemma table_filters_returns (filters : Filters) (df : DataFrame DemographicRow) :
  (forall c, In c ["gender"; "group"; "policy_type"; "smoking_status"; "sum_insured";
                   "age"] -> has_column c df = true) ->
  exists df', table_filters filters df = Ok df'.
Proof.
  intros H. unfold table_filters.
  destruct (filter_eq_returns "gender" d_gender (f_gender filters) df) as [df1 [H1 C1]];
    [apply H; cbn; tauto|].
  rewrite H1. cbn [rbind].
  destruct (filter_eq_returns "group" d_group (f_group filters) df1) as [df2 [H2 C2]];
    [rewrite (has_column_columns _ df _ C1); apply H; cbn; tauto|].
  rewrite H2. cbn [rbind]. rewrite C1 in C2.
  destruct (filter_eq_returns "policy_type" d_policy_type (f_policy_type filters) df2)
    as [df3 [H3 C3]]; [rewrite (has_column_columns _ df _ C2); apply H; cbn; tauto|].
  rewrite H3. cbn [rbind]. rewrite C2 in C3.
  destruct (filter_eq_returns "smoking_status" d_smoking_status
              (f_smoking_status filters) df3)
    as [df4 [H4 C4]]; [rewrite (has_column_columns _ df _ C3); apply H; cbn; tauto|].
  rewrite H4. cbn [rbind]. rewrite C3 in C4.
  assert (Hs : has_column "sum_insured" df4 = true)
    by (rewrite (has_column_columns _ df _ C4); apply H; cbn; tauto).
  assert (Ha : forall (df' : DataFrame DemographicRow),
            columns df' = columns df -> has_column "age" df' = true)
    by (intros df' C; rewrite (has_column_columns _ df _ C); apply H; cbn; tauto).
  unfold df_where. rewrite Hs.
  destruct (truthy_int (f_sum_insured filters)); cbn [rbind];
    destruct (f_age_min filters); cbn [rbind];
    rewrite ?Ha by exact C4; cbn [rbind];
    destruct (f_age_max filters); rewrite ?Ha by exact C4; eauto.
Qed.

(** X24: on tables that have the columns the function filters and joins
    on, and an economic table with a [gdp_growth] column,
    [prepare_filtered_data_table] returns a frame, whatever the filters,
    the years and the country. *)
Theorem data_table_returns (mortality_df : DataFrame MortalityRow)
    (economic_df : DataFrame EconomicRow) (base_premium_df : DataFrame BasePremiumRow)
    (demographic_df : DataFrame DemographicRow) (s e : Z) (filters : Filters)
    (country : string) (scenario_name : option string) :
  (forall c, In c ["country"; "group"; "gender"; "age"; "policy_type"; "smoking_status";
                   "sum_insured"] -> has_column c demographic_df = true) ->
  (forall c, In c ["country"; "group"; "gender"; "age"; "policy_type"] ->
             has_column c base_premium_df = true) ->
  has_column "gdp_growth" economic_df = true ->
  exists df,
    prepare_filtered_data_table mortality_df economic_df base_premium_df demographic_df
                                s e filters country scenario_name = Ok df.
Proof.
  intros Hd Hb Hg. unfold prepare_filtered_data_table.
  destruct (table_filters_returns filters
              (df_filter (fun d => d_country d =? country) demographic_df))
    as [fd Hfd].
  { intros c Hc. unfold has_column. cbn [columns df_filter]. apply Hd.
    cbn in Hc |- *. tauto. }
  rewrite Hfd. cbn [rbind].
  destruct (table_filters_rows _ _ _ Hfd) as [Cfd _]. cbn [columns df_filter] in Cfd.
  assert (Hfind : find (fun c => negb (has_column c fd
                                       && has_column c
                                            (df_filter (fun b => b_country b =? country)
                                                       base_premium_df)))
                       (table_merge_cols fd base_premium_df) = None).
  { destruct (find _ _) as [c|] eqn:Hf; [|reflexivity].
    apply find_some in Hf. destruct Hf as [Hc Hmiss].
    apply negb_true_iff, andb_false_iff in Hmiss.
    unfold table_merge_cols in Hc. apply in_app_or in Hc.
    assert (Hfdc : has_column c fd = has_column c demographic_df)
      by (unfold has_column; now rewrite Cfd).
    assert (Hbc : has_column c (df_filter (fun b => b_country b =? country)
                                          base_premium_df)
                  = has_column c base_premium_df) by reflexivity.
    rewrite Hfdc, Hbc in Hmiss.
    destruct Hc as [Hc|Hc].
    - rewrite Hd, Hb in Hmiss by (cbn in Hc |- *; tauto). destruct Hmiss; discriminate.
    - destruct (has_column "smoking_status" fd && has_column "smoking_status"
                  base_premium_df) eqn:Hsm; [|destruct Hc].
      destruct Hc as [<-|[]]. apply andb_true_iff in Hsm. destruct Hsm as [Hs1 Hs2].
      rewrite Hd, Hs2 in Hmiss by (cbn; tauto). destruct Hmiss; discriminate. }
  unfold table_merge. rewrite Hfind. cbn [rbind].
  set (merged := mkDataFrame _ _).
  destruct (rmap_returns
              (table_year scenario_name country mortality_df economic_df fd merged)
              (fun _ => True) (py_range s (e + 1))) as [appended [Happ _]].
  { intros y _. unfold table_year.
    destruct (df_empty _); [exists []; now split|].
    destruct (rows (year_rows_or_latest e_year e_country economic_df y country))
      as [|econ_data rest]; [exists []; now split|].
    destruct (collect_returns
                (table_row scenario_name country y fd merged economic_df econ_data
                   (year_rows_or_latest m_year m_country mortality_df y country))
                (rows merged)) as [out Hout].
    - intros row _. unfold table_row. rewrite Hg. cbn [negb].
      destruct (filter _ (rows (year_rows_or_latest m_year m_country mortality_df y
                                                    country))); eauto.
    - exists out. split; [exact Hout | exact I]. }
  rewrite Happ. cbn [rbind]. eauto.
Qed.

Lemma data_table_returns_witness :
  exists df,
    prepare_filtered_data_table sample_mortality sample_economic sample_base_premium
      (sample_demographic 10 30) 2024 2034
      (mkFilters None (Some "Term Life") None (Some "Non-Smoker") (Some 1000000%Z)
                 (Some 20%Z) (Some 80%Z))
      "India" (Some "base")
    = Ok df.
Proof.
  apply data_table_returns.
  - intros c Hc. cbn in Hc.
    repeat (destruct Hc as [<-|Hc]; [reflexivity|]). destruct Hc.
  - intros c Hc. cbn in Hc.
    repeat (destruct Hc as [<-|Hc]; [reflexivity|]). destruct Hc.
  - reflexivity.
Defined.

(** ** Reproducibility *)

Lemma compare_scenarios_state `{np : Numpy} (self : PremiumForecaster) (s e : Z)
    (country : string) (filters : option Filters) (g1 g2 : rng_state) :
  fst (compare_scenarios self s e country filters g1)
  = fst (compare_scenarios self s e country filters g2).
Proof.
  unfold compare_scenarios, bind.
  pose proof (for_each_scenario_results self s e country filters g1
                (map fst (scenarios self)) g1) as H1.
  pose proof (for_each_scenario_results self s e country filters g1
                (map fst (scenarios self)) g2) as H2.
  destruct (for_each _ _ g1) as [r1 g1']. destruct (for_each _ _ g2) as [r2 g2'].
  cbn [fst] in H1, H2. subst r1 r2.
  destruct (List.concat _); reflexivity.
Qed.

(** X25: a forecast can be repeated.  Whatever state numpy's generator is
    in, and so also in the state a first call has left it in,
    [forecast_average_premium] gives the same result for the same
    arguments, and so does [compare_scenarios]: every run of the economic
    projector starts from seed 42. *)
Theorem forecast_reproducible :
  forall (np : Numpy) (self : PremiumForecaster) (s e : Z)
         (scenario_name country : string) (filters : option Filters) (g g' : rng_state),
    fst (forecast_average_premium self s e scenario_name country filters g')
    = fst (forecast_average_premium self s e scenario_name country filters g)
    /\ fst (forecast_average_premium self s e scenario_name country filters
              (snd (forecast_average_premium self s e scenario_name country filters g)))
       = fst (forecast_average_premium self s e scenario_name country filters g)
    /\ fst (compare_scenarios self s e country filters
              (snd (compare_scenarios self s e country filters g)))
       = fst (compare_scenarios self s e country filters g)
    /\ fst (forecast_average_premium self s e scenario_name country filters
              (snd (compare_scenarios self s e country filters g)))
       = fst (forecast_average_premium self s e scenario_name country filters g).
Proof.
  intros np self s e scenario_name country filters g g'.
  split; [apply forecast_average_premium_state|].
  split; [apply forecast_average_premium_state|].
  split; [apply compare_scenarios_state | apply forecast_average_premium_state].
Qed.
